(** * Earnings pipeline of the dispatcher bot: a shallow embedding

    The development follows the Python sources
    [universal_processor.py], [excel_processor.py], [config_manager.py]
    and [categories/*.py], with the rule-based detection of
    [ai_analyzer.py] and the category factory of [bot_enhanced.py].

    Conventions of the embedding.
    - A Python [str] is a [string] whose characters are the code points
      below 256 (Latin-1).  On that range [\d] is exactly ['0'..'9'] and
      [\s], [str.strip] and [str.lower] are the tables written out below.
    - A Python or numpy float is a [pyfloat]: a binary64 value, with
      rounding to nearest, overflow, underflow and the three special
      values.  The two zeros of binary64 are one value: the sign of a zero
      shows only in its printed text, which nothing embedded here
      produces.
    - What depends on the pandas release in use is a field of [Pandas],
      and every function that calls into pandas takes that record.
    - A Python [dict] is an association list with distinct keys kept in
      insertion order ([PyDict]).
    - A raised exception is a value of [exn]; code that can raise returns a
      [result]. *)

From Stdlib Require Import ZArith String Ascii List Bool Lia.
From Stdlib Require Import DecimalString DecimalZ Permutation Sorted.
Import ListNotations.

Local Open Scope string_scope.
Local Open Scope Z_scope.

(* ================================================================== *)
(** ** Characters and strings *)

Module Str.

Definition code (c : ascii) : N := N_of_ascii c.

Definition in_range (lo hi : N) (c : ascii) : bool :=
  ((lo <=? code c) && (code c <=? hi))%N.

(** [\d] of the [re] module and [str.isdecimal], on Latin-1. *)
Definition isdigit (c : ascii) : bool := in_range 48 57 c.

(** [\s] of the [re] module and the characters removed by [str.strip()]:
    TAB..CR, FS..US, SPACE, NEL and NBSP. *)
Definition isspace (c : ascii) : bool :=
  in_range 9 13 c || in_range 28 32 c || (code c =? 133)%N || (code c =? 160)%N.

(** [str.lower()] on one character: A-Z and the accented capitals of
    Latin-1 move up by 32, everything else stays. *)
Definition lower_char (c : ascii) : ascii :=
  if in_range 65 90 c || in_range 192 214 c || in_range 216 222 c
  then ascii_of_N (code c + 32) else c.

Fixpoint lower (s : string) : string :=
  match s with
  | EmptyString => EmptyString
  | String c t => String (lower_char c) (lower t)
  end.

Fixpoint filter (p : ascii -> bool) (s : string) : string :=
  match s with
  | EmptyString => EmptyString
  | String c t => if p c then String c (filter p t) else filter p t
  end.

Fixpoint forallb (p : ascii -> bool) (s : string) : bool :=
  match s with
  | EmptyString => true
  | String c t => p c && forallb p t
  end.

Fixpoint lstrip_by (p : ascii -> bool) (s : string) : string :=
  match s with
  | EmptyString => EmptyString
  | String c t => if p c then lstrip_by p t else s
  end.

Fixpoint rstrip_by (p : ascii -> bool) (s : string) : string :=
  match s with
  | EmptyString => EmptyString
  | String c t =>
      match rstrip_by p t with
      | EmptyString => if p c then EmptyString else String c EmptyString
      | t' => String c t'
      end
  end.

(** [s.strip()] *)
Definition strip (s : string) : string := rstrip_by isspace (lstrip_by isspace s).

(** The longest prefix of characters satisfying [p], and the rest. *)
Fixpoint span (p : ascii -> bool) (s : string) : string * string :=
  match s with
  | EmptyString => (EmptyString, EmptyString)
  | String c t =>
      if p c then let (a, b) := span p t in (String c a, b)
      else (EmptyString, s)
  end.

(** [sub in s] *)
Fixpoint contains (sub s : string) : bool :=
  prefix sub s ||
  match s with
  | EmptyString => false
  | String _ t => contains sub t
  end.

(** [s.replace(a, b)] for single characters [a] and [b]. *)
Fixpoint replace_char (a b : ascii) (s : string) : string :=
  match s with
  | EmptyString => EmptyString
  | String c t => String (if Ascii.eqb c a then b else c) (replace_char a b t)
  end.

Definition is_empty (s : string) : bool :=
  match s with EmptyString => true | _ => false end.

(** [str(z)] for a Python [int]. *)
Definition of_Z (z : Z) : string := NilZero.string_of_int (Z.to_int z).

End Str.

(* ================================================================== *)
(** ** Floats *)

(** A binary64 value.  A finite value is [m * 2^e] in lowest terms: [m] is
    odd, or [m = e = 0].  Every operation below returns its result in that
    form, so two finite values are the same number exactly when they are
    the same term. *)
Inductive pyfloat : Type :=
| Fin (m e : Z)
| Inf
| NegInf
| NaN.

Declare Scope pyfloat_scope.
Delimit Scope pyfloat_scope with F.
Bind Scope pyfloat_scope with pyfloat.

Module Float.

Definition zero : pyfloat := Fin 0 0.

(** The significand has 53 bits, the last place is never below [2^-1074]
    and every finite value is below [2^1024]. *)
Definition prec : Z := 53.
Definition emin : Z := -1074.
Definition emax : Z := 1024.

Fixpoint odd_part (p : positive) (e : Z) : positive * Z :=
  match p with
  | xO p' => odd_part p' (e + 1)
  | _ => (p, e)
  end.

(** [m * 2^e] in lowest terms. *)
Definition make (m e : Z) : pyfloat :=
  match m with
  | 0 => Fin 0 0
  | Zpos p => let (q, e') := odd_part p e in Fin (Zpos q) e'
  | Zneg p => let (q, e') := odd_part p e in Fin (Zneg q) e'
  end.

(** [2^k * a <= b], for an exponent [k] of either sign. *)
Definition scaled_leb (k a b : Z) : bool :=
  a * 2 ^ Z.max k 0 <=? b * 2 ^ Z.max (- k) 0.

(** The integer part of the binary logarithm of [n / d], for positive [n]
    and [d]. *)
Definition ilog2 (n d : Z) : Z :=
  let k := Z.log2 n - Z.log2 d in
  if scaled_leb k d n then k else k - 1.

(** The binary64 value nearest to [n / d] for positive [n] and [d], with
    the sign asked for: ties go to the even significand, a magnitude that
    rounds to [2^1024] or more is an infinity, and one that rounds below
    the smallest subnormal is zero. *)
Definition round (neg : bool) (n d : Z) : pyfloat :=
  let e := Z.max (ilog2 n d - (prec - 1)) emin in
  let n' := n * 2 ^ Z.max (- e) 0 in
  let d' := d * 2 ^ Z.max e 0 in
  let q := n' / d' in
  let r := n' mod d' in
  let m :=
    match 2 * r ?= d' with
    | Lt => q
    | Gt => q + 1
    | Eq => if Z.even q then q else q + 1
    end in
  if emax <? Z.log2 m + 1 + e
  then (if neg then NegInf else Inf)
  else make (if neg then - m else m) e.

(** The binary64 value nearest to [n / d], for [d > 0]. *)
Definition of_ratio (n d : Z) : pyfloat :=
  match n with
  | 0 => zero
  | Zpos _ => round false n d
  | Zneg p => round true (Zpos p) d
  end.

(** The value nearest to [m * 2^e], and the one nearest to [m * 10^e]. *)
Definition of_dyadic (m e : Z) : pyfloat :=
  of_ratio (m * 2 ^ Z.max e 0) (2 ^ Z.max (- e) 0).

Definition of_decimal (m e : Z) : pyfloat :=
  of_ratio (m * 10 ^ Z.max e 0) (10 ^ Z.max (- e) 0).

(** The value nearest to the integer [z]; an infinity where [float(z)]
    raises [OverflowError]. *)
Definition of_Z (z : Z) : pyfloat := of_ratio z 1.

Definition is_finite (x : pyfloat) : bool :=
  match x with Fin _ _ => true | _ => false end.

Definition eqb (x y : pyfloat) : bool :=
  match x, y with
  | Fin m1 e1, Fin m2 e2 => (m1 =? m2) && (e1 =? e2)
  | Inf, Inf | NegInf, NegInf => true
  | _, _ => false
  end.

(** [x < y]; every comparison with NaN is false. *)
Definition ltb (x y : pyfloat) : bool :=
  match x, y with
  | NaN, _ | _, NaN => false
  | Fin m1 e1, Fin m2 e2 =>
      let e := Z.min e1 e2 in
      m1 * 2 ^ (e1 - e) <? m2 * 2 ^ (e2 - e)
  | NegInf, NegInf => false
  | NegInf, _ => true
  | _, NegInf => false
  | Inf, _ => false
  | Fin _ _, Inf => true
  end.

Definition gtb (x y : pyfloat) : bool := ltb y x.

(** The sum of two finite values before it is rounded. *)
Definition exact_add (m1 e1 m2 e2 : Z) : Z * Z :=
  let e := Z.min e1 e2 in
  (m1 * 2 ^ (e1 - e) + m2 * 2 ^ (e2 - e), e).

Definition add (x y : pyfloat) : pyfloat :=
  match x, y with
  | NaN, _ | _, NaN => NaN
  | Fin m1 e1, Fin m2 e2 =>
      let (m, e) := exact_add m1 e1 m2 e2 in of_dyadic m e
  | Inf, NegInf | NegInf, Inf => NaN
  | Inf, _ | _, Inf => Inf
  | NegInf, _ | _, NegInf => NegInf
  end.

Definition opp (x : pyfloat) : pyfloat :=
  match x with
  | Fin m e => Fin (- m) e
  | Inf => NegInf
  | NegInf => Inf
  | NaN => NaN
  end.

(** The sign of a finite value decides what an infinity times it is. *)
Definition scale_inf (m : Z) (i : pyfloat) : pyfloat :=
  match m with
  | 0 => NaN
  | Zpos _ => i
  | Zneg _ => opp i
  end.

Definition mul (x y : pyfloat) : pyfloat :=
  match x, y with
  | NaN, _ | _, NaN => NaN
  | Fin m1 e1, Fin m2 e2 => of_dyadic (m1 * m2) (e1 + e2)
  | Fin m _, i => scale_inf m i
  | i, Fin m _ => scale_inf m i
  | Inf, Inf | NegInf, NegInf => Inf
  | Inf, NegInf | NegInf, Inf => NegInf
  end.

(** [x / d] for a positive integer [d] (the code only divides by 100). *)
Definition div_pos (x : pyfloat) (d : positive) : pyfloat :=
  match x with
  | Fin m e => of_ratio (m * 2 ^ Z.max e 0) (Zpos d * 2 ^ Z.max (- e) 0)
  | other => other
  end.

(** The sum of [xs] taken from left to right, starting from 0. *)
Definition sum (xs : list pyfloat) : pyfloat := fold_left add xs zero.

(** No addition of the sum from left to right is rounded: every partial
    sum is finite and is the exact sum of its two operands. *)
Definition exact_step (acc x : pyfloat) : bool :=
  match acc, x with
  | Fin m1 e1, Fin m2 e2 =>
      let (m, e) := exact_add m1 e1 m2 e2 in eqb (add acc x) (make m e)
  | _, _ => false
  end.

Fixpoint exact_from (acc : pyfloat) (xs : list pyfloat) : bool :=
  match xs with
  | [] => true
  | x :: rest => exact_step acc x && exact_from (add acc x) rest
  end.

Definition sums_exactly (xs : list pyfloat) : bool := exact_from zero xs.

(** *** [float(s)] for a string [s]

    CPython first checks underscores (each one must sit between two
    digits) and removes them, strips white space at both ends, reads an
    optional sign and then either one of the words inf, infinity, nan
    (any case) or a decimal literal
    [digits [. digits] [(e|E) [sign] digits]] with at least one digit in
    the mantissa; the literal is rounded to the nearest binary64 value.
    [None] stands for [ValueError]. *)

Definition is_underscore (c : ascii) : bool := Ascii.eqb c "_".

Fixpoint strip_underscores (prev : ascii) (s : string) : option string :=
  match s with
  | EmptyString => if is_underscore prev then None else Some EmptyString
  | String c t =>
      if is_underscore c then
        if Str.isdigit prev then strip_underscores c t else None
      else if is_underscore prev && negb (Str.isdigit c) then None
      else option_map (String c) (strip_underscores c t)
  end.

(** White space accepted around a float literal: TAB..CR, SPACE, and the
    two Latin-1 spaces NEL and NBSP (FS..US are not accepted here). *)
Definition float_space (c : ascii) : bool :=
  Str.in_range 9 13 c || (Str.code c =? 32)%N ||
  (Str.code c =? 133)%N || (Str.code c =? 160)%N.

Definition digit_value (c : ascii) : Z := Z.of_N (Str.code c) - 48.

Fixpoint digits_value_acc (acc : Z) (s : string) : Z :=
  match s with
  | EmptyString => acc
  | String c t => digits_value_acc (10 * acc + digit_value c) t
  end.

Definition digits_value (s : string) : Z := digits_value_acc 0 s.

Definition read_sign (s : string) : bool * string :=
  match s with
  | String "-" t => (true, t)
  | String "+" t => (false, t)
  | _ => (false, s)
  end.

(** The exponent part: empty, or [e|E], an optional sign and digits. *)
Definition read_exponent (s : string) : option Z :=
  match s with
  | EmptyString => Some 0
  | String c t =>
      if Ascii.eqb c "e" || Ascii.eqb c "E" then
        let (neg, t') := read_sign t in
        let (ds, rest) := Str.span Str.isdigit t' in
        if Str.is_empty ds || negb (Str.is_empty rest) then None
        else Some (if neg then - digits_value ds else digits_value ds)
      else None
  end.

(** An unsigned decimal literal, as the float nearest to it. *)
Definition read_decimal (s : string) : option pyfloat :=
  let (ip, r1) := Str.span Str.isdigit s in
  let (fp, r2) :=
    match r1 with
    | String "." t => Str.span Str.isdigit t
    | _ => (EmptyString, r1)
    end in
  if Str.is_empty ip && Str.is_empty fp then None
  else
    match read_exponent r2 with
    | None => None
    | Some e =>
        let mantissa := digits_value (ip ++ fp) in
        let ex := e - Z.of_nat (String.length fp) in
        Some (of_decimal mantissa ex)
    end.

Definition read_unsigned (s : string) : option pyfloat :=
  let w := Str.lower s in
  if String.eqb w "inf" || String.eqb w "infinity" then Some Inf
  else if String.eqb w "nan" then Some NaN
  else read_decimal s.

Definition of_string (s : string) : option pyfloat :=
  match strip_underscores Ascii.zero s with
  | None => None
  | Some s1 =>
      let body := Str.rstrip_by float_space (Str.lstrip_by float_space s1) in
      let (neg, rest) := read_sign body in
      match read_unsigned rest with
      | Some x => Some (if neg then opp x else x)
      | None => None
      end
  end.

End Float.

(** Rounding is evaluated on closed values only. *)
Arguments Float.round : simpl never.
Arguments Float.of_ratio : simpl never.

(* ================================================================== *)
(** ** Exceptions *)

Inductive exn : Type :=
| KeyError (labels : list string)
| IndexError
| ValueError (msg : string)
| TypeError
| OverflowError
| AttributeError.

(** The outcome of code that can raise.  [OutOfModel] marks inputs on
    which pandas leaves the fragment embedded here (repeated column
    labels other than the marker column, grouping by anything but the
    derived week column); nothing is stated about the code on such
    inputs. *)
Inductive result (A : Type) : Type :=
| Ok (a : A)
| Raise (e : exn)
| OutOfModel.

Arguments Ok {A} a.
Arguments Raise {A} e.
Arguments OutOfModel {A}.

Definition bind {A B : Type} (m : result A) (k : A -> result B) : result B :=
  match m with
  | Ok a => k a
  | Raise e => Raise e
  | OutOfModel => OutOfModel
  end.

Notation "x <- m ;; k" := (bind m (fun x => k))
  (at level 61, m at next level, right associativity).

(** [try: body / except: handler], the bare [except] that catches every
    exception. *)
Definition try_except {A : Type} (body handler : result A) : result A :=
  match body with
  | Raise _ => handler
  | other => other
  end.

(** [try: body / except (ValueError, TypeError): handler] *)
Definition try_except_value_type {A : Type} (body handler : result A)
  : result A :=
  match body with
  | Raise (ValueError _) | Raise TypeError => handler
  | other => other
  end.

(** [f] on every element in turn, up to the first that raises. *)
Fixpoint traverse {A B : Type} (f : A -> result B) (l : list A)
  : result (list B) :=
  match l with
  | [] => Ok []
  | a :: rest =>
      b <- f a ;;
      bs <- traverse f rest ;;
      Ok (b :: bs)
  end.

(* ================================================================== *)
(** ** Raw cells and value sanitization *)

(** A cell of an uploaded sheet.  The code looks at a raw cell only
    through [pd.isna]/[pd.notna] and [str()], so a float cell is
    represented by its printed text. *)
Inductive cell : Type :=
| CNaN
| CText (s : string)
| CInt (z : Z).

Definition isna (x : cell) : bool :=
  match x with CNaN => true | _ => false end.

Definition notna (x : cell) : bool := negb (isna x).

(** [str(x)] *)
Definition str (x : cell) : string :=
  match x with
  | CNaN => "nan"
  | CText s => s
  | CInt z => Str.of_Z z
  end.

(** [[^\d.-]] is the complement of this class. *)
Definition numeric_char (c : ascii) : bool :=
  Str.isdigit c || Ascii.eqb c "." || Ascii.eqb c "-".

(** [re.sub(r'[^\d.-]', '', s)] *)
Definition re_sub_non_numeric (s : string) : string := Str.filter numeric_char s.

(** [float(s)] for a string [s]. *)
Definition float_of_str (s : string) : result pyfloat :=
  match Float.of_string s with
  | Some x => Ok x
  | None => Raise (ValueError "could not convert string to float")
  end.

(** [UniversalExcelProcessor.clean_amount]; the nested [clean_amount] of
    [process_excel_file] has the same body.  The value is [None] or a
    float. *)
Definition clean_amount (amount_str : cell) : result (option pyfloat) :=
  if isna amount_str then Ok None
  else
    let amount_str := str amount_str in
    let cleaned := re_sub_non_numeric amount_str in
    try_except
      (if Str.is_empty cleaned then Ok None
       else x <- float_of_str cleaned ;; Ok (Some x))
      (Ok None).

(* ================================================================== *)
(** ** Python dictionaries with string keys *)

Module PyDict.

Definition t (V : Type) : Type := list (string * V).

Section Ops.
Context {V : Type}.

(** [d.get(k)] *)
Fixpoint get (d : t V) (k : string) : option V :=
  match d with
  | [] => None
  | (k', v) :: rest => if String.eqb k' k then Some v else get rest k
  end.

(** [k in d] *)
Definition mem (d : t V) (k : string) : bool :=
  match get d k with Some _ => true | None => false end.

(** [d[k] = v]: an existing key keeps its place, a new one goes last. *)
Fixpoint set (d : t V) (k : string) (v : V) : t V :=
  match d with
  | [] => [(k, v)]
  | (k', v') :: rest =>
      if String.eqb k' k then (k', v) :: rest else (k', v') :: set rest k v
  end.

Definition keys (d : t V) : list string := map fst d.

End Ops.
End PyDict.

(* ================================================================== *)
(** ** Tables *)

(** A [pandas.DataFrame] under the default [RangeIndex]: the index label
    of a row is its position in [rows].  A row lists its cells in the order
    of [columns]. *)
Record DataFrame : Type := mkDataFrame {
  columns : list string;
  rows : list (list cell)
}.

Definition string_in (s : string) (l : list string) : bool :=
  existsb (String.eqb s) l.

Fixpoint distinct (l : list string) : bool :=
  match l with
  | [] => true
  | x :: t => negb (string_in x t) && distinct t
  end.

Fixpoint position (label : string) (l : list string) : option nat :=
  match l with
  | [] => None
  | x :: t => if String.eqb x label then Some O
              else option_map S (position label t)
  end.

Definition cell_at (row : list cell) (i : nat) : cell := nth i row CNaN.

(** What [row[label]] finds: no such label (the access raises
    [KeyError]), one column (a cell), or several columns of that label (a
    [Series] of cells). *)
Inductive lookup : Type :=
| Absent
| Single (i : nat)
| Repeated.

Definition locate (label : string) (labels : list string) : lookup :=
  match position label labels with
  | None => Absent
  | Some i =>
      if string_in label (skipn (S i) labels) then Repeated else Single i
  end.

(** [df.columns = labels] *)
Definition set_columns (df : DataFrame) (labels : list string) : DataFrame :=
  mkDataFrame labels (rows df).

Fixpoint replace_nth {A : Type} (i : nat) (x : A) (l : list A) : list A :=
  match l, i with
  | [], _ => []
  | _ :: t, O => x :: t
  | y :: t, S j => y :: replace_nth j x t
  end.

(** [df[label] = values]: an existing column is overwritten where it
    stands, a new one is added on the right.  [values] has one entry per
    row. *)
Definition set_column (df : DataFrame) (label : string) (values : list cell)
  : DataFrame :=
  match position label (columns df) with
  | Some i =>
      mkDataFrame (columns df)
        (map (fun rv => replace_nth i (snd rv) (fst rv)) (combine (rows df) values))
  | None =>
      mkDataFrame (columns df ++ [label])%list
        (map (fun rv => (fst rv ++ [snd rv])%list) (combine (rows df) values))
  end.

(** The rows paired with their index labels. *)
Definition indexed (df : DataFrame) : list (nat * list cell) :=
  combine (seq 0 (length (rows df))) (rows df).

(** The labels of [wanted] that the table lacks. *)
Definition missing_labels (df : DataFrame) (wanted : list string) : list string :=
  filter (fun l => negb (string_in l (columns df))) wanted.

(* ================================================================== *)
(** ** Week segmentation *)

(** A match of [week\s*(\d+)] that starts at the first character of [s];
    the value is group 1.  White space and digits are disjoint classes, so
    the greedy [\s*] takes the whole run of white space and the greedy
    [\d+] the whole run of digits; taking less white space can never help. *)
Definition match_week_here (s : string) : option string :=
  match s with
  | String "w" (String "e" (String "e" (String "k" t))) =>
      let (ds, _) := Str.span Str.isdigit (Str.lstrip_by Str.isspace t) in
      if Str.is_empty ds then None else Some ds
  | _ => None
  end.

(** [re.search(r'week\s*(\d+)', s)]: the leftmost match. *)
Fixpoint re_search_week (s : string) : option string :=
  match match_week_here s with
  | Some ds => Some ds
  | None =>
      match s with
      | EmptyString => None
      | String _ t => re_search_week t
      end
  end.

(** [str(row[broker_column]).strip() if pd.notna(row[broker_column]) else ''] *)
Definition broker_val (c : cell) : string :=
  if notna c then Str.strip (str c) else "".

(** [re.search(r'week\s*(\d+)', broker_val.lower())], as group 1. *)
Definition week_match (c : cell) : option string :=
  re_search_week (Str.lower (broker_val c)).

(** One turn of the loop of [detect_week_markers]: the label in force
    after looking at the marker cell [c]. *)
Definition next_week (current_week : string) (c : cell) : string :=
  match week_match c with
  | Some digits => "Week " ++ digits
  | None => current_week
  end.

(** The pattern in words, to compare [re_search_week] with.  [s] begins
    with a match whose digits are [ds]: the word week, a run of white
    space, the digits, and no digit after them. *)
Definition week_pattern_here (s ds : string) : Prop :=
  exists ws post,
    s = "week" ++ ws ++ ds ++ post /\
    Str.forallb Str.isspace ws = true /\
    Str.forallb Str.isdigit ds = true /\
    ds <> EmptyString /\
    match post with
    | String c _ => Str.isdigit c = false
    | EmptyString => True
    end.

(** [ds] are the digits of the leftmost match in [s]. *)
Definition leftmost_week_pattern (s ds : string) : Prop :=
  exists pre suf,
    s = pre ++ suf /\ week_pattern_here suf ds /\
    forall pre' suf' ds',
      s = pre' ++ suf' -> (String.length pre' < String.length pre)%nat ->
      ~ week_pattern_here suf' ds'.

Definition no_week_pattern (s : string) : Prop :=
  forall pre suf ds, s = pre ++ suf -> ~ week_pattern_here suf ds.

(** The text of the [ValueError] that pandas raises when a [Series] is
    used as a condition. *)
Definition ambiguous_truth_value : string :=
  "The truth value of a Series is ambiguous. Use a.empty, a.bool(), a.item(), a.any() or a.all().".

(** The loop [for idx, row in df.iterrows()].  Where the label is
    repeated, [row[broker_column]] is a [Series], [pd.notna] of it is one
    too, and taking it as the condition raises. *)
Fixpoint week_loop (col : lookup) (broker_column : string)
    (current_week : string) (rs : list (list cell)) : result (list string) :=
  match rs with
  | [] => Ok []
  | row :: rest =>
      match col with
      | Absent => Raise (KeyError [broker_column])
      | Repeated => Raise (ValueError ambiguous_truth_value)
      | Single i =>
          let current_week := next_week current_week (cell_at row i) in
          week_list <- week_loop col broker_column current_week rest ;;
          Ok (current_week :: week_list)
      end
  end.

(** [UniversalExcelProcessor.detect_week_markers] *)
Definition detect_week_markers (df : DataFrame) (broker_column : string)
  : result (list string) :=
  week_loop (locate broker_column (columns df)) broker_column
    "Before Week 1" (rows df).

(* ================================================================== *)
(** ** What depends on the pandas release *)

(** Two things that the code leaves to pandas differ between releases.

    - [Series.astype(str)]: on a column of Python objects a missing value
      becomes the text nan; where text columns have the string dtype of
      their own, a missing value stays missing.
    - The sum of a group: the summation in use has been plain and
      compensated.  Both add no rounding of their own: when no addition
      from left to right is rounded, the group sum is that exact sum.
      Nothing else is assumed of it. *)
Record Pandas : Type := mkPandas {
  keeps_missing : bool;
  group_total : list pyfloat -> pyfloat;
  group_total_exact :
    forall xs, Float.sums_exactly xs = true -> group_total xs = Float.sum xs
}.

(** Summation from left to right, under either reading of [astype(str)]. *)
Definition plain_sums (keeps_missing : bool) : Pandas :=
  mkPandas keeps_missing Float.sum (fun _ _ => eq_refl).

(* ================================================================== *)
(** ** Cleaning *)

(** A row of the cleaned frame: its index label in the raw table, the
    entity ([None] when it is missing), one float per amount column, and
    the cell of the [Week] column once that column has been put back
    ([CNaN] before). *)
Record CleanRow : Type := mkCleanRow {
  cr_index : nat;
  cr_entity : option string;
  cr_amounts : list pyfloat;
  cr_week : cell
}.

Record CleanFrame : Type := mkCleanFrame {
  cf_entity_column : string;
  cf_amount_columns : list string;
  cf_has_week : bool;
  cf_rows : list CleanRow
}.

Definition cf_columns (df : CleanFrame) : list string :=
  (cf_entity_column df :: cf_amount_columns df ++
   (if cf_has_week df then ["Week"] else []))%list.

Definition float_notna (x : pyfloat) : bool :=
  match x with NaN => false | _ => true end.

(** A float column holds NaN where the function applied returned [None]. *)
Definition stored (v : option pyfloat) : pyfloat :=
  match v with
  | Some x => x
  | None => NaN
  end.

(** [Series.apply(clean_amount)] *)
Definition apply_clean_amount (values : list cell) : result (list pyfloat) :=
  traverse (fun c => v <- clean_amount c ;; Ok (stored v)) values.

Definition amount_positive (k : nat) (amounts : list pyfloat) : bool :=
  Float.gtb (nth k amounts NaN) Float.zero.

(** The raw and the sanitized row before the entity is normalized. *)
Record SelectedRow : Type := mkSelectedRow {
  sr_index : nat;
  sr_entity : cell;
  sr_raw_amounts : list cell
}.

Record NumericRow : Type := mkNumericRow {
  nr_index : nat;
  nr_entity : cell;
  nr_amounts : list pyfloat
}.

(** [for col in amount_columns: df_clean = df_clean[df_clean[col] > 0]] *)
Definition keep_positive (n : nat) (rs : list NumericRow) : list NumericRow :=
  fold_left
    (fun acc k => filter (fun r => amount_positive k (nr_amounts r)) acc)
    (seq 0 n) rs.

(** [Series.astype(str).str.strip()] on one value. *)
Definition as_text (P : Pandas) (c : cell) : option string :=
  if isna c && keeps_missing P then None
  else Some (Str.strip (str c)).

(** [column != text] on one value; a missing value differs from every
    text. *)
Definition differs (entity : option string) (text : string) : bool :=
  match entity with
  | Some s => negb (String.eqb s text)
  | None => true
  end.

(** [UniversalExcelProcessor.clean_dataframe].  The amounts are sanitized
    row by row here and column by column in the code; the order shows
    only in which cell would raise first. *)
Definition clean_dataframe (P : Pandas) (df : DataFrame)
    (entity_column : string) (amount_columns : list string)
  : result CleanFrame :=
  let cols_to_keep := entity_column :: amount_columns in
  if negb (distinct (columns df)) || negb (distinct cols_to_keep)
  then OutOfModel
  else
    match position entity_column (columns df),
          missing_labels df cols_to_keep with
    | Some e, [] =>
        let pos := map (fun c => match position c (columns df) with
                                 | Some i => i | None => O end)
                       amount_columns in
        (* df[cols_to_keep].copy() *)
        let df_clean :=
          map (fun ir => mkSelectedRow (fst ir) (cell_at (snd ir) e)
                           (map (cell_at (snd ir)) pos))
              (indexed df) in
        (* dropna(subset=amount_columns, how='all') *)
        let df_clean :=
          filter (fun r => existsb notna (sr_raw_amounts r)) df_clean in
        (* df_clean[col] = df_clean[col].apply(clean_amount) *)
        df_clean <-
          traverse (fun r =>
                      amounts <- apply_clean_amount (sr_raw_amounts r) ;;
                      Ok (mkNumericRow (sr_index r) (sr_entity r) amounts))
                   df_clean ;;
        (* dropna(subset=amount_columns, how='all') *)
        let df_clean :=
          filter (fun r => existsb float_notna (nr_amounts r)) df_clean in
        (* df_clean[df_clean[col] > 0], column by column *)
        let df_clean := keep_positive (length amount_columns) df_clean in
        (* astype(str).str.strip() *)
        let df_clean :=
          map (fun r => mkCleanRow (nr_index r) (as_text P (nr_entity r))
                          (nr_amounts r) CNaN)
              df_clean in
        (* != 'nan', != '' *)
        let df_clean := filter (fun r => differs (cr_entity r) "nan") df_clean in
        let df_clean := filter (fun r => differs (cr_entity r) "") df_clean in
        Ok (mkCleanFrame entity_column amount_columns false df_clean)
    | _, missing => Raise (KeyError missing)
    end.

(* ================================================================== *)
(** ** Categories and configuration *)

Inductive CalculationMethod : Type :=
| PERCENTAGE
| FLAT_RATE
| SUM_ONLY
| CUSTOM.

(** The concrete classes of [categories/]. *)
Inductive CategoryClass : Type :=
| DispatcherClass
| DriverClass
| BrokerClass.

(** [AnalysisCategory]; [description] and [confidence] play no role in the
    pipeline and are left out. *)
Record AnalysisCategory : Type := mkCategory {
  cat_class : CategoryClass;
  name : string;
  entity_column : string;
  amount_columns : list string;
  grouping_columns : list string;
  calculation_method : CalculationMethod;
  config_needed : bool
}.

(** [grouping_columns or []] *)
Definition or_empty (g : option (list string)) : list string :=
  match g with Some l => l | None => [] end.

Definition DispatcherAnalysis (entity_column : string)
    (amount_columns : list string) (grouping_columns : option (list string))
  : AnalysisCategory :=
  mkCategory DispatcherClass "Dispatcher Earnings" entity_column amount_columns
    (or_empty grouping_columns) PERCENTAGE true.

Definition DriverAnalysis (entity_column : string)
    (amount_columns : list string) (grouping_columns : option (list string))
  : AnalysisCategory :=
  mkCategory DriverClass "Driver Payments" entity_column amount_columns
    (or_empty grouping_columns) PERCENTAGE true.

Definition BrokerAnalysis (entity_column : string)
    (amount_columns : list string) (grouping_columns : option (list string))
  : AnalysisCategory :=
  mkCategory BrokerClass "Broker Performance" entity_column amount_columns
    (or_empty grouping_columns) SUM_ONLY false.

(** [AnalysisCategory.get_category_id] *)
Definition get_category_id (category : AnalysisCategory) : string :=
  Str.replace_char " " "_" (Str.lower (name category)).

(** The settings of one entity as the processor reads them: a dict that
    may hold a ['type'] and a numeric ['value']. *)
Record EntityConfig : Type := mkEntityConfig {
  cfg_type : option string;
  cfg_value : option pyfloat
}.

(** [settings.get('value', 0)] *)
Definition value_or_0 (settings : EntityConfig) : pyfloat :=
  match cfg_value settings with
  | Some v => v
  | None => Float.zero
  end.

Definition Config : Type := PyDict.t EntityConfig.

(* ================================================================== *)
(** ** Earnings *)

(** The dict built for one entity.  The keys differ between the branches
    of the code, so the optional ones are options here. *)
Record Earnings : Type := mkEarnings {
  entity_name : option string;
  total_amount : pyfloat;
  percentage : option pyfloat;
  flat_rate : option pyfloat;
  earnings : pyfloat
}.

(** The loop [for config_entity, config_data in config.items()] with its
    [break]: the first key equal to [entity] up to case. *)
Fixpoint find_config {C : Type} (entity : string) (items : PyDict.t C)
  : option (string * C) :=
  match items with
  | [] => None
  | (config_entity, config_data) :: rest =>
      if String.eqb (Str.lower entity) (Str.lower config_entity)
      then Some (config_entity, config_data)
      else find_config entity rest
  end.

Definition items_of {C : Type} (config : option (PyDict.t C)) : PyDict.t C :=
  match config with Some c => c | None => [] end.

(** [UniversalExcelProcessor._calculate_earnings] *)
Definition _calculate_earnings (entity : string) (total_amount : pyfloat)
    (category : AnalysisCategory) (config : option Config) : Earnings :=
  let found := find_config entity (items_of config) in
  let entity_config := option_map snd found in
  let matched_name :=
    match found with Some (config_entity, _) => config_entity | None => entity end in
  match calculation_method category with
  | SUM_ONLY =>
      mkEarnings (Some matched_name) total_amount (Some Float.zero) None
        total_amount
  | PERCENTAGE =>
      let percentage :=
        match entity_config with Some c => value_or_0 c | None => Float.zero end in
      let earnings :=
        Float.div_pos (Float.mul total_amount percentage) 100 in
      mkEarnings (Some matched_name) total_amount (Some percentage) None earnings
  | FLAT_RATE =>
      let flat_rate :=
        match entity_config with Some c => value_or_0 c | None => Float.zero end in
      mkEarnings (Some matched_name) total_amount None (Some flat_rate) flat_rate
  | CUSTOM =>
      mkEarnings (Some matched_name) total_amount None None Float.zero
  end.

(* ================================================================== *)
(** ** Grouped sums *)

Section GroupBy.
Variable P : Pandas.
Context {R K : Type}.
Variable eqb : K -> K -> bool.
Variable leb : K -> K -> bool.
Variable key : R -> K.
Variable val : R -> pyfloat.

(** [Series.unique()]: the values in order of first appearance. *)
Fixpoint unique (l : list K) : list K :=
  match l with
  | [] => []
  | x :: t => x :: filter (fun y => negb (eqb y x)) (unique t)
  end.

Fixpoint insert_sorted (k : K) (l : list K) : list K :=
  match l with
  | [] => [k]
  | x :: t => if leb k x then k :: l else x :: insert_sorted k t
  end.

Definition sort_keys (l : list K) : list K := fold_right insert_sorted [] l.

Definition group_sum (rs : list R) (k : K) : pyfloat :=
  group_total P (map val (filter (fun r => eqb (key r) k) rs)).

(** [df.groupby(keys)[col].sum()]: one entry per key that occurs, in
    sorted key order, with the sum of the group's values.  The rows
    handed over are those whose keys are all present; [groupby] leaves
    out the others. *)
Definition groupby_sum (rs : list R) : list (K * pyfloat) :=
  map (fun k => (k, group_sum rs k)) (sort_keys (unique (map key rs))).

End GroupBy.

(** A cleaned row as the aggregation reads it. *)
Record GroupRow : Type := mkGroupRow {
  g_week : string;
  g_entity : string;
  g_amount : pyfloat
}.

Definition pair_eqb (a b : string * string) : bool :=
  String.eqb (fst a) (fst b) && String.eqb (snd a) (snd b).

(** The order of the tuples (week, entity). *)
Definition pair_leb (a b : string * string) : bool :=
  match String.compare (fst a) (fst b) with
  | Lt => true
  | Gt => false
  | Eq => String.leb (snd a) (snd b)
  end.

(** [df.groupby([week, entity])[amount].sum().reset_index()] *)
Definition weekly_sums (P : Pandas) (rs : list GroupRow) : list GroupRow :=
  map (fun kv => mkGroupRow (fst (fst kv)) (snd (fst kv)) (snd kv))
      (groupby_sum P pair_eqb pair_leb (fun r => (g_week r, g_entity r))
         g_amount rs).

(** [df.groupby(entity)[amount].sum().to_dict()] *)
Definition entity_sums (P : Pandas) (rs : list GroupRow) : PyDict.t pyfloat :=
  groupby_sum P String.eqb String.leb g_entity g_amount rs.

(* ================================================================== *)
(** ** Aggregation and reconciliation *)

Record Results : Type := mkResults {
  weeks : option (PyDict.t (PyDict.t Earnings));
  overall : PyDict.t Earnings
}.

Definition name_of (e : Earnings) : string :=
  match entity_name e with Some n => n | None => "" end.

(** [results[earnings_data['entity_name']] = earnings_data] for every
    aggregate row. *)
Definition add_entities (category : AnalysisCategory) (config : option Config)
    (totals : list (string * pyfloat)) (results : PyDict.t Earnings)
  : PyDict.t Earnings :=
  fold_left
    (fun acc et =>
       let earnings_data := _calculate_earnings (fst et) (snd et) category config in
       PyDict.set acc (name_of earnings_data) earnings_data)
    totals results.

(** The entry made for a configured entity that has no result yet. *)
Definition zero_entry (settings : EntityConfig) : Earnings :=
  mkEarnings None Float.zero (Some (value_or_0 settings)) None Float.zero.

(** [if config: for config_entity in config.keys(): ...] *)
Definition add_missing_config (config : option Config)
    (results : PyDict.t Earnings) : PyDict.t Earnings :=
  fold_left
    (fun acc ce =>
       if PyDict.mem acc (fst ce) then acc
       else PyDict.set acc (fst ce) (zero_entry (snd ce)))
    (items_of config) results.

Definition scope_results (category : AnalysisCategory) (config : option Config)
    (totals : list (string * pyfloat)) : PyDict.t Earnings :=
  add_missing_config config (add_entities category config totals []).

(** The columns [_process_with_grouping] asks of the cleaned frame.  The
    model covers the grouping the pipeline itself sets up: the single
    derived column [Week], holding text. *)
Definition week_text (c : cell) : option string :=
  match c with CText s => Some s | _ => None end.

Definition all_text (rs : list CleanRow) : bool :=
  forallb (fun r => match week_text (cr_week r) with
                    | Some _ => true | None => false end) rs.

(** The rows whose entity is present: the others belong to no group. *)
Definition present (rs : list CleanRow) : list CleanRow :=
  filter (fun r => match cr_entity r with Some _ => true | None => false end)
         rs.

Definition group_row (p : nat) (r : CleanRow) : GroupRow :=
  mkGroupRow (match week_text (cr_week r) with Some w => w | None => "" end)
             (match cr_entity r with Some entity => entity | None => "" end)
             (nth p (cr_amounts r) NaN).

Definition missing_in (have wanted : list string) : list string :=
  filter (fun l => negb (string_in l have)) wanted.

(** [grouping_columns == ['Week']] *)
Definition week_only (grouping : list string) : bool :=
  match grouping with
  | [g] => String.eqb g "Week"
  | _ => false
  end.

Definition grouped_view (df : CleanFrame) (category : AnalysisCategory)
  : result (list GroupRow) :=
  let entity_col := entity_column category in
  match amount_columns category with
  | [] => Raise IndexError
  | amount_col :: _ =>
      let group_cols := (grouping_columns category ++ [entity_col])%list in
      match missing_in (cf_columns df) group_cols with
      | first_missing :: _ => Raise (KeyError [first_missing])
      | [] =>
          if negb (string_in amount_col (cf_columns df))
          then Raise (KeyError [amount_col])
          else
            match position amount_col (cf_amount_columns df) with
            | Some p =>
                if week_only (grouping_columns category)
                   && cf_has_week df
                   && String.eqb entity_col (cf_entity_column df)
                   && all_text (cf_rows df)
                then Ok (map (group_row p) (present (cf_rows df)))
                else OutOfModel
            | None => OutOfModel
            end
      end
  end.

(** [UniversalExcelProcessor._process_with_grouping] *)
Definition _process_with_grouping (P : Pandas) (df : CleanFrame)
    (category : AnalysisCategory) (config : option Config) : result Results :=
  rs <- grouped_view df category ;;
  let weekly_data := weekly_sums P rs in
  let weeks := unique String.eqb (map g_week weekly_data) in
  let week_dict :=
    fold_left
      (fun acc week =>
         let week_df :=
           filter (fun r => String.eqb (g_week r) week) weekly_data in
         let week_results :=
           scope_results category config
             (map (fun r => (g_entity r, g_amount r)) week_df) in
         PyDict.set acc week week_results)
      weeks [] in
  let overall_totals := entity_sums P rs in
  Ok (mkResults (Some week_dict) (scope_results category config overall_totals)).

Definition ungrouped_view (df : CleanFrame) (category : AnalysisCategory)
  : result (list GroupRow) :=
  let entity_col := entity_column category in
  match amount_columns category with
  | [] => Raise IndexError
  | amount_col :: _ =>
      if negb (string_in entity_col (cf_columns df))
      then Raise (KeyError [entity_col])
      else if negb (string_in amount_col (cf_columns df))
      then Raise (KeyError [amount_col])
      else
        match position amount_col (cf_amount_columns df) with
        | Some p =>
            if String.eqb entity_col (cf_entity_column df)
            then Ok (map (group_row p) (present (cf_rows df)))
            else OutOfModel
        | None => OutOfModel
        end
  end.

(** [UniversalExcelProcessor._process_without_grouping] *)
Definition _process_without_grouping (P : Pandas) (df : CleanFrame)
    (category : AnalysisCategory) (config : option Config) : result Results :=
  rs <- ungrouped_view df category ;;
  let entity_totals := entity_sums P rs in
  Ok (mkResults None (scope_results category config entity_totals)).

(* ================================================================== *)
(** ** The store of tables *)

(** [process_category] changes the table it is handed, then rebinds its
    local name to a copy.  The tables that the caller and the local name
    [df] of [process_category] can denote therefore live in a store and
    are named by references; [next_ref] is the first name not in use.  The
    frames that [clean_dataframe] builds are values of their own, which
    share nothing with a table of the store, and are not counted here. *)
Definition ref : Type := nat.

Record heap : Type := mkHeap {
  next_ref : ref;
  frame_at : ref -> DataFrame
}.

Definition read (h : heap) (r : ref) : DataFrame := frame_at h r.

Definition write (h : heap) (r : ref) (df : DataFrame) : heap :=
  mkHeap (next_ref h)
         (fun r' => if Nat.eqb r' r then df else frame_at h r').

(** [df = df.copy()]: the copy gets a name not in use. *)
Definition copy (h : heap) (r : ref) : heap * ref :=
  let fresh := next_ref h in
  (write (mkHeap (S fresh) (frame_at h)) fresh (read h r), fresh).

(* ================================================================== *)
(** ** [process_category] *)

Definition with_grouping (category : AnalysisCategory) (g : list string)
  : AnalysisCategory :=
  mkCategory (cat_class category) (name category) (entity_column category)
    (amount_columns category) g (calculation_method category)
    (config_needed category).

Definition nonempty {A : Type} (l : list A) : bool :=
  match l with [] => false | _ => true end.

(** The first column whose lower-cased label contains [broker]. *)
Definition find_broker_column (labels : list string) : option string :=
  find (fun col => Str.contains "broker" (Str.lower col)) labels.

(** [df_clean['Week'] = df.loc[df_clean.index, 'Week'].values] *)
Definition attach_week (df : DataFrame) (df_clean : CleanFrame) : CleanFrame :=
  match position "Week" (columns df) with
  | Some w =>
      mkCleanFrame (cf_entity_column df_clean) (cf_amount_columns df_clean) true
        (map (fun r => mkCleanRow (cr_index r) (cr_entity r) (cr_amounts r)
                         (cell_at (nth (cr_index r) (rows df) []) w))
             (cf_rows df_clean))
  | None => df_clean
  end.

(** The state after the week detection: the store, the table the local
    name [df] now denotes, and the category object. *)
Record Detected : Type := mkDetected {
  d_heap : heap;
  d_df : ref;
  d_category : AnalysisCategory;
  d_outcome : result unit
}.

Definition detect_weeks (h : heap) (df : ref) (category : AnalysisCategory)
  : Detected :=
  match find_broker_column (columns (read h df)),
        nonempty (grouping_columns category) with
  | Some broker_col, true =>
      (* df = df.copy() *)
      let (h, df) := copy h df in
      match detect_week_markers (read h df) broker_col with
      | Ok week_list =>
          (* df['Week'] = ... *)
          let h := write h df (set_column (read h df) "Week" (map CText week_list)) in
          let category :=
            if string_in "Week" (grouping_columns category) then category
            else with_grouping category (grouping_columns category ++ ["Week"])%list in
          mkDetected h df category (Ok tt)
      | Raise e => mkDetected h df category (Raise e)
      | OutOfModel => mkDetected h df category OutOfModel
      end
  | _, _ => mkDetected h df category (Ok tt)
  end.

(** [UniversalExcelProcessor.process_category].  The value is the store
    and the category object as the call leaves them, and what the call
    returns or raises. *)
Definition process_category (P : Pandas) (h : heap) (df : ref)
    (category : AnalysisCategory) (config : option Config)
  : heap * AnalysisCategory * result Results :=
  (* df.columns = df.columns.str.strip() *)
  let h := write h df (set_columns (read h df)
                         (map Str.strip (columns (read h df)))) in
  let d := detect_weeks h df category in
  let h := d_heap d in
  let df := d_df d in
  let category := d_category d in
  (h, category,
   _ <- d_outcome d ;;
   df_clean <- clean_dataframe P (read h df) (entity_column category)
                 (amount_columns category) ;;
   let df_clean :=
     if nonempty (grouping_columns category)
        && string_in "Week" (columns (read h df))
        && negb (string_in "Week" (cf_columns df_clean))
     then attach_week (read h df) df_clean
     else df_clean in
   if nonempty (grouping_columns category)
   then _process_with_grouping P df_clean category config
   else _process_without_grouping P df_clean category config).

(* ================================================================== *)
(** ** [process_excel_file], the dispatcher-only pipeline *)

(** The column loop keeps the last column that matches each role. *)
Definition last_match (p : string -> bool) (labels : list string)
  : option string :=
  fold_left (fun acc col => if p (Str.lower col) then Some col else acc)
            labels None.

Definition is_dispatch_label (col_lower : string) : bool :=
  Str.contains "dispatch" col_lower.

Definition is_amount_label (col_lower : string) : bool :=
  Str.contains "amount" col_lower || Str.contains "total" col_lower
  || Str.contains "revenue" col_lower.

Definition is_broker_label (col_lower : string) : bool :=
  Str.contains "broker" col_lower.

(** The entry of one dispatcher with data. *)
Definition dispatcher_entry (dispatcher : string) (total_amount : pyfloat)
    (dispatcher_percentages : PyDict.t pyfloat) : string * Earnings :=
  let found := find_config dispatcher dispatcher_percentages in
  let percentage :=
    match found with Some (_, p) => p | None => Float.zero end in
  let matched_name :=
    match found with Some (k, _) => k | None => dispatcher end in
  let earnings :=
    Float.div_pos (Float.mul total_amount percentage) 100 in
  (matched_name, mkEarnings None total_amount (Some percentage) None earnings).

Definition add_dispatchers (dispatcher_percentages : PyDict.t pyfloat)
    (totals : list (string * pyfloat)) (results : PyDict.t Earnings)
  : PyDict.t Earnings :=
  fold_left
    (fun acc dt =>
       let e := dispatcher_entry (fst dt) (snd dt) dispatcher_percentages in
       PyDict.set acc (fst e) (snd e))
    totals results.

(** Here a configured dispatcher counts as present when some result key
    equals it up to case. *)
Definition add_missing_dispatchers (dispatcher_percentages : PyDict.t pyfloat)
    (results : PyDict.t Earnings) : PyDict.t Earnings :=
  fold_left
    (fun acc cp =>
       let found :=
         existsb (fun result_dispatcher =>
                    String.eqb (Str.lower result_dispatcher) (Str.lower (fst cp)))
                 (PyDict.keys acc) in
       if found then acc
       else PyDict.set acc (fst cp)
              (mkEarnings None Float.zero (Some (snd cp)) None Float.zero))
    dispatcher_percentages results.

Definition dispatcher_results (dispatcher_percentages : PyDict.t pyfloat)
    (totals : list (string * pyfloat)) : PyDict.t Earnings :=
  add_missing_dispatchers dispatcher_percentages
    (add_dispatchers dispatcher_percentages totals []).

(** What [pd.read_excel(file_path)] meets: a file it cannot read, on which
    it raises, or a workbook whose first sheet is a table. *)
Inductive excel_file : Type :=
| Unreadable (e : exn)
| Workbook (df : DataFrame).

(** A row of the selection: the dispatcher cell, the amount and the cell
    of the week. *)
Record PickedRow (A : Type) : Type := mkPickedRow {
  pr_dispatch : cell;
  pr_amount : A;
  pr_week : cell
}.

Arguments mkPickedRow {A} _ _ _.
Arguments pr_dispatch {A} _.
Arguments pr_amount {A} _.
Arguments pr_week {A} _.

(** [process_excel_file].  One label can fill two roles, and the
    selection then has that label twice: where it is the amount column,
    [df[amount_col]] is a table and [clean_amount] is handed a whole
    column as soon as there is a row; where it is the dispatcher and the
    broker column, [df[dispatch_col]] is a table, which has no [.str]. *)
Definition process_excel_file (P : Pandas) (file : excel_file)
    (dispatcher_percentages : PyDict.t pyfloat) : result Results :=
  match file with
  | Unreadable e => Raise e
  | Workbook df =>
  let df := set_columns df (map Str.strip (columns df)) in
  match last_match is_dispatch_label (columns df),
        last_match is_amount_label (columns df),
        last_match is_broker_label (columns df) with
  | None, _, _ =>
      Raise (ValueError "Could not find 'Dispatch' column in Excel file")
  | _, None, _ =>
      Raise (ValueError "Could not find 'Amount' or 'Total' column in Excel file")
  | _, _, None =>
      Raise (ValueError "Could not find 'Broker' column in Excel file")
  | Some dispatch_col, Some amount_col, Some broker_col =>
      week_list <- week_loop (locate broker_col (columns df)) broker_col
                     "Before Week 1" (rows df) ;;
      (* df['Week'] = week_list *)
      let df := set_column df "Week" (map CText week_list) in
      match position dispatch_col (columns df),
            position amount_col (columns df),
            position "Week" (columns df) with
      | Some d, Some a, Some w =>
          if negb (distinct (columns df)) then OutOfModel
          else if String.eqb amount_col dispatch_col
                  || String.eqb amount_col broker_col
          then
            if existsb (fun row => notna (cell_at row a)) (rows df)
            then Raise (ValueError ambiguous_truth_value)
            else OutOfModel
          else if String.eqb dispatch_col broker_col
          then Raise AttributeError
          else
            (* df[[broker_col, dispatch_col, amount_col, 'Week']].copy() *)
            let rs := map (fun row => mkPickedRow (cell_at row d) (cell_at row a)
                                        (cell_at row w))
                          (rows df) in
            (* dropna(subset=[amount_col]) *)
            let rs := filter (fun r => notna (pr_amount r)) rs in
            (* df[amount_col].apply(clean_amount) *)
            amounts <- apply_clean_amount (map pr_amount rs) ;;
            let rs := map (fun ra => mkPickedRow (pr_dispatch (fst ra)) (snd ra)
                                       (pr_week (fst ra)))
                          (combine rs amounts) in
            (* dropna(subset=[amount_col]) *)
            let rs := filter (fun r => float_notna (pr_amount r)) rs in
            (* df[df[amount_col] > 0] *)
            let rs := filter (fun r => Float.gtb (pr_amount r) Float.zero) rs in
            (* astype(str).str.strip(), != 'nan', != '' *)
            let rs := map (fun r => (as_text P (pr_dispatch r), r)) rs in
            let rs := filter (fun er => differs (fst er) "nan") rs in
            let rs := filter (fun er => differs (fst er) "") rs in
            (* the rows without a dispatcher belong to no group *)
            let rs :=
              flat_map (fun er =>
                          match fst er with
                          | Some dispatcher =>
                              [mkGroupRow (str (pr_week (snd er))) dispatcher
                                 (pr_amount (snd er))]
                          | None => []
                          end)
                       rs in
            let weekly_data := weekly_sums P rs in
            let weeks := unique String.eqb (map g_week weekly_data) in
            let week_dict :=
              fold_left
                (fun acc week =>
                   let week_df :=
                     filter (fun r => String.eqb (g_week r) week) weekly_data in
                   PyDict.set acc week
                     (dispatcher_results dispatcher_percentages
                        (map (fun r => (g_entity r, g_amount r)) week_df)))
                weeks [] in
            let overall_totals := entity_sums P rs in
            Ok (mkResults (Some week_dict)
                  (dispatcher_results dispatcher_percentages overall_totals))
      | _, _, _ => OutOfModel
      end
  end
  end.

(* ================================================================== *)
(** ** Configuration submission *)

(** The values a submitted configuration can hold (what [json.load] or
    [parse_config_from_text] produce): a number is a Python [int] or a
    [float]. *)
#[local] Unset Elimination Schemes.
Inductive pyval : Type :=
| VNone
| VBool (b : bool)
| VInt (z : Z)
| VNum (x : pyfloat)
| VStr (s : string)
| VList (l : list pyval)
| VDict (d : list (string * pyval)).
#[local] Set Elimination Schemes.

(** [float(v)].  An [int] is rounded to the nearest float, and one that
    is beyond the range raises [OverflowError]. *)
Definition py_float (v : pyval) : result pyfloat :=
  match v with
  | VNum x => Ok x
  | VInt z =>
      match Float.of_Z z with
      | Inf | NegInf => Raise OverflowError
      | x => Ok x
      end
  | VBool b => Ok (if b then Float.of_Z 1 else Float.zero)
  | VStr s => float_of_str s
  | VNone | VList _ | VDict _ => Raise TypeError
  end.

Definition is_str (v : pyval) (s : string) : bool :=
  match v with VStr s' => String.eqb s' s | _ => false end.

(** The loop [for entity, settings in config.items()] of a
    [validate_config]: [entry_ok] is the body, [Ok false] where it
    returns [False]; the loop returns [True] when it runs out. *)
Fixpoint validate_entries (entry_ok : pyval -> result bool)
    (items : list (string * pyval)) : result bool :=
  match items with
  | [] => Ok true
  | (_, settings) :: rest =>
      ok <- entry_ok settings ;;
      if ok then validate_entries entry_ok rest else Ok false
  end.

(** The body of the loop of [DispatcherAnalysis.validate_config]. *)
Definition dispatcher_entry_ok (settings : pyval) : result bool :=
  match settings with
  | VDict settings =>
      match PyDict.get settings "type", PyDict.get settings "value" with
      | Some ty, Some v =>
          if negb (is_str ty "percentage") then Ok false
          else
            try_except_value_type
              (value <- py_float v ;;
               if Float.ltb value Float.zero
                  || Float.gtb value (Float.of_Z 100)
               then Ok false else Ok true)
              (Ok false)
      | _, _ => Ok false
      end
  | _ => Ok false
  end.

(** [DispatcherAnalysis.validate_config] *)
Definition dispatcher_validate_config (config : PyDict.t pyval) : result bool :=
  if negb (nonempty config) then Ok false
  else validate_entries dispatcher_entry_ok config.

(** The body of the loop of [DriverAnalysis.validate_config]. *)
Definition driver_entry_ok (settings : pyval) : result bool :=
  match settings with
  | VDict settings =>
      match PyDict.get settings "type", PyDict.get settings "value" with
      | Some ty, Some v =>
          if negb (is_str ty "percentage" || is_str ty "flat_rate") then Ok false
          else
            try_except_value_type
              (value <- py_float v ;;
               if Float.ltb value Float.zero then Ok false
               else if is_str ty "percentage"
                       && Float.gtb value (Float.of_Z 100)
               then Ok false else Ok true)
              (Ok false)
      | _, _ => Ok false
      end
  | _ => Ok false
  end.

(** [DriverAnalysis.validate_config] *)
Definition driver_validate_config (config : PyDict.t pyval) : result bool :=
  if negb (nonempty config) then Ok false
  else validate_entries driver_entry_ok config.

(** [category.validate_config(config)], by the class of [category];
    [BrokerAnalysis] accepts everything. *)
Definition validate_config (category : AnalysisCategory)
    (config : PyDict.t pyval) : result bool :=
  match cat_class category with
  | DispatcherClass => dispatcher_validate_config config
  | DriverClass => driver_validate_config config
  | BrokerClass => Ok true
  end.

(** [ConfigManager]: the configuration in memory and the document last
    written to [config_file] ([None] while the file does not exist).
    Failures of the file system are not modelled. *)
Record ConfigManager : Type := mkConfigManager {
  config_file : string;
  config : PyDict.t (PyDict.t pyval);
  on_disk : option (PyDict.t (PyDict.t pyval))
}.

(** [ConfigManager.save_config] *)
Definition save_config (self : ConfigManager) : ConfigManager :=
  mkConfigManager (config_file self) (config self) (Some (config self)).

(** [ConfigManager.get_category_config] *)
Definition get_category_config (self : ConfigManager)
    (category : AnalysisCategory) : option (PyDict.t pyval) :=
  PyDict.get (config self) (get_category_id category).

(** [ConfigManager.set_category_config] *)
Definition set_category_config (self : ConfigManager)
    (category : AnalysisCategory) (cfg : PyDict.t pyval) : ConfigManager :=
  let category_id := get_category_id category in
  save_config
    (mkConfigManager (config_file self)
       (PyDict.set (config self) category_id cfg) (on_disk self)).

(** [ConfigManager.validate_and_save]: the manager afterwards and the
    value returned; what [validate_config] raises goes on to the caller. *)
Definition validate_and_save (self : ConfigManager)
    (category : AnalysisCategory) (cfg : PyDict.t pyval)
  : ConfigManager * result bool :=
  match validate_config category cfg with
  | Ok valid =>
      if negb valid then (self, Ok false)
      else (set_category_config self category cfg, Ok true)
  | Raise e => (self, Raise e)
  | OutOfModel => (self, OutOfModel)
  end.

(** [s.split(sep)] for a one-character separator. *)
Fixpoint split_on (sep : ascii) (s : string) : list string :=
  match s with
  | EmptyString => [EmptyString]
  | String c t =>
      if Ascii.eqb c sep then EmptyString :: split_on sep t
      else
        match split_on sep t with
        | h :: r => String c h :: r
        | [] => [String c EmptyString]
        end
  end.

(** [s.split(sep, 1)] for a string that contains [sep]. *)
Fixpoint split_first (sep : ascii) (s : string) : string * string :=
  match s with
  | EmptyString => (EmptyString, EmptyString)
  | String c t =>
      if Ascii.eqb c sep then (EmptyString, t)
      else let (a, b) := split_first sep t in (String c a, b)
  end.

(** [.replace('%', '').replace('$', '').replace(',', '')] *)
Definition drop_symbols (s : string) : string :=
  Str.filter (fun c => negb (Ascii.eqb c "%" || Ascii.eqb c "$"
                             || Ascii.eqb c ","))
             s.

Definition method_type (m : CalculationMethod) : string :=
  match m with
  | PERCENTAGE => "percentage"
  | FLAT_RATE => "flat_rate"
  | SUM_ONLY | CUSTOM => "value"
  end.

(** [ConfigManager.parse_config_from_text]: lines [EntityName: Value];
    a line without a colon or with an unreadable value is skipped. *)
Definition parse_config_from_text (text : string)
    (category : AnalysisCategory) : PyDict.t pyval :=
  fold_left
    (fun config line =>
       if negb (Str.contains ":" line) then config
       else
         let (name_part, value_part) := split_first ":" line in
         let entity_name := Str.strip name_part in
         let value_str := Str.strip (drop_symbols (Str.strip value_part)) in
         match Float.of_string value_str with
         | Some value =>
             PyDict.set config entity_name
               (VDict [("type", VStr (method_type (calculation_method category)));
                       ("value", VNum value)])
         | None => config
         end)
    (split_on "010" (Str.strip text)) [].

(* ================================================================== *)
(** ** Statements used below *)

(** The labels follow the markers: one label per marker cell, each being
    the week the cell announces or else the label of the row before
    ([Before Week 1] for the first row). *)
Definition labels_follow_markers (markers : list cell) (labels : list string)
  : Prop :=
  length labels = length markers /\
  forall n c, nth_error markers n = Some c ->
    nth_error labels n =
    Some (match week_match c with
          | Some digits => "Week " ++ digits
          | None => match n with
                    | O => "Before Week 1"
                    | S m => nth m labels "Before Week 1"
                    end
          end).

(** What [week_match] finds in a cell, in the words of the pattern. *)
Definition week_match_meets_pattern (c : cell) : Prop :=
  match week_match c with
  | Some digits => leftmost_week_pattern (Str.lower (broker_val c)) digits
  | None => no_week_pattern (Str.lower (broker_val c))
  end.

Definition marker_column (df : DataFrame) (i : nat) : list cell :=
  map (fun row => cell_at row i) (rows df).

Definition three_row_table : DataFrame :=
  mkDataFrame ["Broker"]
    [[CText ""]; [CText "Week 4 starts"]; [CText ""]].

(** [k] is the first key of [items] equal to [entity] up to case, and
    [settings] is what it maps to. *)
Definition first_match {C : Type} (entity : string) (items : PyDict.t C)
    (k : string) (settings : C) : Prop :=
  exists pre post,
    items = (pre ++ (k, settings) :: post)%list /\
    Str.lower entity = Str.lower k /\
    forall k', In k' (PyDict.keys pre) -> Str.lower entity <> Str.lower k'.

(** No key of [items] equals [entity] up to case. *)
Definition no_match {C : Type} (entity : string) (items : PyDict.t C) : Prop :=
  forall k, In k (PyDict.keys items) -> Str.lower entity <> Str.lower k.

Definition percent (v : Z) : EntityConfig :=
  mkEntityConfig (Some "percentage") (Some (Float.of_Z v)).

Definition flat (v : Z) : EntityConfig :=
  mkEntityConfig (Some "flat_rate") (Some (Float.of_Z v)).

Definition flat_category : AnalysisCategory :=
  mkCategory DriverClass "Driver Payments" "Driver" ["Amount"] [] FLAT_RATE true.

(** [0 <= x <= 100] *)
Definition in_percent_range (x : pyfloat) : bool :=
  negb (Float.ltb x Float.zero) && negb (Float.gtb x (Float.of_Z 100))
  && float_notna x.

Definition percentage_settings (v : pyval) : pyval :=
  VDict [("type", VStr "percentage"); ("value", v)].

(** What [parse_config_from_text] builds from the line [Ali: nan]. *)
Definition nan_submission : PyDict.t pyval :=
  [("Ali", percentage_settings (VNum NaN))].

Definition fresh_manager : ConfigManager :=
  mkConfigManager "analysis_config.json" [] None.

Definition dispatcher_category : AnalysisCategory :=
  DispatcherAnalysis "Dispatch" ["Amount"] None.

(** What the amount column holds for the cell [c] once [clean_amount]
    has been applied. *)
Definition cleaned_cell (c : cell) : pyfloat :=
  match clean_amount c with
  | Ok v => stored v
  | Raise _ | OutOfModel => NaN
  end.

(** The sanitized amounts of a raw row, column by column. *)
Definition amounts_of (row : list cell) (pos : list nat) : list pyfloat :=
  map (fun p => cleaned_cell (cell_at row p)) pos.

(** The positions of the amount columns in the table. *)
Definition amount_positions (df : DataFrame) (amount_columns : list string)
  : list nat :=
  map (fun c => match position c (columns df) with
                | Some i => i | None => O end)
      amount_columns.

(** [r] is what cleaning keeps of the raw row at its index: the entity as
    text, which is neither empty nor the text nan, and the sanitized
    amounts, every one of them above zero. *)
Definition retained_from (P : Pandas) (df : DataFrame) (e : nat)
    (pos : list nat) (r : CleanRow) : Prop :=
  exists row,
    nth_error (rows df) (cr_index r) = Some row /\
    cr_entity r = as_text P (cell_at row e) /\
    cr_amounts r = amounts_of row pos /\
    cr_week r = CNaN /\
    (forall p, In p pos ->
       Float.gtb (cleaned_cell (cell_at row p)) Float.zero = true) /\
    cr_entity r <> Some "nan" /\
    cr_entity r <> Some "".

(** The rows of the cleaned frame, from the positions of the entity
    column and of the amount columns. *)
Definition cleaned_rows (P : Pandas) (df : DataFrame) (e : nat)
    (pos : list nat) : list CleanRow :=
  filter (fun r => differs (cr_entity r) "")
    (filter (fun r => differs (cr_entity r) "nan")
       (map (fun r => mkCleanRow (nr_index r) (as_text P (nr_entity r))
                        (nr_amounts r) CNaN)
          (keep_positive (length pos)
             (filter (fun r => existsb float_notna (nr_amounts r))
                (map (fun r => mkNumericRow (sr_index r) (sr_entity r)
                                 (map cleaned_cell (sr_raw_amounts r)))
                   (filter (fun r => existsb notna (sr_raw_amounts r))
                      (map (fun ir => mkSelectedRow (fst ir)
                                        (cell_at (snd ir) e)
                                        (map (cell_at (snd ir)) pos))
                         (indexed df)))))))).

Definition two_amount_table : DataFrame :=
  mkDataFrame ["Driver"; "Pay"; "Bonus"]
    [[CText "Ann"; CText "$100"; CText "20"];
     [CText "Bob"; CText "$200"; CNaN];
     [CText "Cid"; CText "$300"; CText "n/a"];
     [CText "Dee"; CText "$400"; CText "-5"]].

Definition two_amount_frame : CleanFrame :=
  mkCleanFrame "Driver" ["Pay"; "Bonus"] false
    [mkCleanRow 0 (Some "Ann") [Float.of_Z 100; Float.of_Z 20] CNaN].

(** The name under which an entity is filed. *)
Definition filed_as (config : option Config) (entity : string) : string :=
  match find_config entity (items_of config) with
  | Some (k, _) => k
  | None => entity
  end.

(** The sum of the amounts of the rows of week [w] and entity [e]. *)
Definition week_entity_sum (P : Pandas) (rs : list GroupRow) (w e : string)
  : pyfloat :=
  group_sum P pair_eqb (fun r => (g_week r, g_entity r)) g_amount rs (w, e).

(** The sum of the amounts of the rows of entity [e]. *)
Definition entity_sum (P : Pandas) (rs : list GroupRow) (e : string) : pyfloat :=
  group_sum P String.eqb g_entity g_amount rs e.

(** The totals handed to the calculation for week [w]. *)
Definition week_totals (P : Pandas) (rs : list GroupRow) (w : string)
  : list (string * pyfloat) :=
  map (fun r => (g_entity r, g_amount r))
      (filter (fun r => String.eqb (g_week r) w) (weekly_sums P rs)).

(** The data entities of an aggregation scope: the entities of all rows
    for the overall scope ([None]), of the rows labelled [w] for the week
    [w].  A row without an entity belongs to no group. *)
Definition in_scope (df : CleanFrame) (scope : option string)
    (entity : string) : Prop :=
  exists r,
    In r (cf_rows df) /\ cr_entity r = Some entity /\
    match scope with
    | Some w => cr_week r = CText w
    | None => True
    end.

(** The result dictionary of a scope. *)
Definition scope_dict (res : Results) (scope : option string)
    (d : PyDict.t Earnings) : Prop :=
  match scope with
  | Some w => exists wd, weeks res = Some wd /\ PyDict.get wd w = Some d
  | None => overall res = d
  end.

(** The entry of an entity without configuration: whatever rate it
    reports is 0, and each method reports what it does at rate 0.  Under
    the percentage method that is the total times 0 over 100: 0 for a
    finite total, NaN for an infinite one. *)
Definition zero_rate_entry (category : AnalysisCategory) (er : Earnings)
  : Prop :=
  (forall p, percentage er = Some p -> p = Float.zero)
  /\ (forall f, flat_rate er = Some f -> f = Float.zero)
  /\ match calculation_method category with
     | PERCENTAGE => percentage er = Some Float.zero
                     /\ earnings er
                        = (if Float.is_finite (total_amount er)
                           then Float.zero else NaN)
     | FLAT_RATE => flat_rate er = Some Float.zero
                    /\ earnings er = Float.zero
     | SUM_ONLY => percentage er = Some Float.zero
                   /\ earnings er = total_amount er
     | CUSTOM => percentage er = None /\ flat_rate er = None
                 /\ earnings er = Float.zero
     end.

(** Both halves of the reconciliation, in every scope of [res]. *)
Definition reconciled (category : AnalysisCategory) (config : option Config)
    (df : CleanFrame) (res : Results) : Prop :=
  forall scope d, scope_dict res scope d ->
    (forall c,
        In c (PyDict.keys (items_of config)) ->
        (forall entity, in_scope df scope entity ->
                        Str.lower entity <> Str.lower c) ->
        exists er, PyDict.get d c = Some er
                   /\ total_amount er = Float.zero
                   /\ earnings er = Float.zero)
    /\
    (forall entity,
        in_scope df scope entity ->
        no_match entity (items_of config) ->
        exists er, PyDict.get d entity = Some er
                   /\ zero_rate_entry category er).

(** A cleaned frame with the week column put back: Bob has no
    configuration, and the configured Ali has no row before week 2. *)
Definition reconcile_frame : CleanFrame :=
  mkCleanFrame "Dispatch" ["Amount"] true
    [mkCleanRow 0 (Some "Bob") [Float.of_Z 100] (CText "Before Week 1");
     mkCleanRow 2 (Some "Ali") [Float.of_Z 300] (CText "Week 2")].

Definition week_category : AnalysisCategory :=
  DispatcherAnalysis "Dispatch" ["Amount"] (Some ["Week"]).

Definition ali_config : option Config := Some [("Ali", percent 10)].

Definition reconcile_results : Results :=
  mkResults
    (Some
       [("Before Week 1",
         [("Bob", mkEarnings (Some "Bob") (Float.of_Z 100)
                    (Some Float.zero) None Float.zero);
          ("Ali", mkEarnings None Float.zero (Some (Float.of_Z 10)) None
                    Float.zero)]);
        ("Week 2",
         [("Ali", mkEarnings (Some "Ali") (Float.of_Z 300)
                    (Some (Float.of_Z 10)) None (Float.of_Z 30))])])
    [("Ali", mkEarnings (Some "Ali") (Float.of_Z 300)
               (Some (Float.of_Z 10)) None (Float.of_Z 30));
     ("Bob", mkEarnings (Some "Bob") (Float.of_Z 100)
               (Some Float.zero) None Float.zero)].

(** What the run without grouping returns on [reconcile_frame]. *)
Definition reconcile_overall : Results :=
  mkResults None (overall reconcile_results).

(** The second half of the reconciliation as it is worded for the
    percentage method: a data entity without configuration has an entry
    with rate 0 and earnings 0. *)
Definition unconfigured_earn_nothing (config : option Config)
    (df : CleanFrame) (res : Results) : Prop :=
  forall scope d entity,
    scope_dict res scope d ->
    in_scope df scope entity ->
    no_match entity (items_of config) ->
    exists er,
      PyDict.get d entity = Some er
      /\ percentage er = Some Float.zero
      /\ earnings er = Float.zero.

(** A run of [n] zeros. *)
Fixpoint zeros (n : nat) : string :=
  match n with
  | O => EmptyString
  | S m => String "0" (zeros m)
  end.

(** A sheet on which Bob, who has no configuration, has one amount of 310
    digits: 1 followed by 309 zeros, which is beyond the largest float. *)
Definition overflow_table : DataFrame :=
  mkDataFrame ["Dispatch"; "Amount"]
    [[CText "Bob"; CText (String "1" (zeros 309))]].

Definition overflow_frame : CleanFrame :=
  mkCleanFrame "Dispatch" ["Amount"] false
    [mkCleanRow 0 (Some "Bob") [Inf] CNaN].

Definition overflow_results : Results :=
  mkResults None
    [("Bob", mkEarnings (Some "Bob") Inf (Some Float.zero) None NaN);
     ("Ali", mkEarnings None Float.zero (Some (Float.of_Z 10)) None Float.zero)].

(** Whether the marker column makes the loop over the rows raise: the
    table has a row and the label is there more than once. *)
Definition marker_raises (df : DataFrame) (broker_col : string) : bool :=
  nonempty (rows df)
  && match locate broker_col (columns df) with
     | Repeated => true
     | _ => false
     end.

(** A sheet on which one label, Dispatch Total, holds both dispatch and
    total. *)
Definition two_roles_table : DataFrame :=
  mkDataFrame ["Broker"; "Dispatcher"; "Dispatch Total"]
    [[CText ""; CText "Ali"; CText "100"]].

(** The table after the call is the table before it, or that table with
    the [Week] column set. *)
Definition unchanged_but_for_week (before after : DataFrame) : Prop :=
  after = before \/
  exists week_values,
    length week_values = length (rows before) /\
    after = set_column before "Week" week_values.

(** A sheet whose headers carry stray blanks. *)
Definition padded_table : DataFrame :=
  mkDataFrame ["Broker"; " Dispatch"; "Amount "]
    [[CText ""; CText "Ali"; CText "$500"];
     [CText "Week 2"; CNaN; CNaN];
     [CText ""; CText "Ali"; CText "300"]].

Definition padded_heap : heap := mkHeap 1%nat (fun _ => padded_table).

(** The table the caller holds once [process_category] is done. *)
Definition table_after (P : Pandas) (h : heap) (df : ref)
    (category : AnalysisCategory) (config : option Config) : DataFrame :=
  read (fst (fst (process_category P h df category config))) df.

Definition trimmed (df : DataFrame) : DataFrame :=
  set_columns df (map Str.strip (columns df)).

(** The table of the end-to-end scenario. *)
Definition scenario_table : DataFrame :=
  mkDataFrame ["Broker"; "Dispatch"; "Amount"]
    [[CText ""; CText "Ali"; CText "$500"];
     [CText "Week 2"; CText ""; CText ""];
     [CText ""; CText "Ali"; CText "300"];
     [CText ""; CText "Sara"; CText "$-10"]].

Definition scenario_heap : heap := mkHeap 1%nat (fun _ => scenario_table).

(** An entry of the results: the name it carries, its total, rate and
    earnings. *)
Definition percent_entry (entity : option string) (total rate earned : Z)
  : Earnings :=
  mkEarnings entity (Float.of_Z total) (Some (Float.of_Z rate)) None
    (Float.of_Z earned).

Definition scenario_results (entity : option string) : Results :=
  mkResults
    (Some [("Before Week 1", [("Ali", percent_entry entity 500 10 50)]);
           ("Week 2", [("Ali", percent_entry entity 300 10 30)])])
    [("Ali", percent_entry entity 800 10 80)].

(** The dictionaries of all periods of a result. *)
Definition period_dicts (res : Results) : list (PyDict.t Earnings) :=
  match weeks res with
  | Some wd => map snd wd
  | None => []
  end.

(** The total filed under [n] in a scope, 0 when the scope has no such
    entry. *)
Definition entry_total (d : PyDict.t Earnings) (n : string) : pyfloat :=
  match PyDict.get d n with
  | Some er => total_amount er
  | None => Float.zero
  end.

(** The sum over the weeks of the totals filed under [n]. *)
Definition weeks_total (res : Results) (n : string) : pyfloat :=
  Float.sum (map (fun d => entry_total d n) (period_dicts res)).

(** The sum invariant for a result. *)
Definition sum_invariant (res : Results) : Prop :=
  forall n, In n (PyDict.keys (overall res)) ->
    entry_total (overall res) n = weeks_total res n.

(** A sheet that spells one dispatcher in two ways. *)
Definition two_spellings_table : DataFrame :=
  mkDataFrame ["Broker"; "Dispatch"; "Amount"]
    [[CText ""; CText "ALI"; CText "100"];
     [CText "Week 2"; CNaN; CNaN];
     [CText ""; CText "ali"; CText "200"]].

Definition two_spellings_heap : heap :=
  mkHeap 1%nat (fun _ => two_spellings_table).

Definition two_spellings_results (entity : option string) : Results :=
  mkResults
    (Some [("Before Week 1", [("Ali", percent_entry entity 100 10 10)]);
           ("Week 2", [("Ali", percent_entry entity 200 10 20)])])
    [("Ali", percent_entry entity 200 10 20)].

(* ================================================================== *)
(** ** The other operations of [ConfigManager] *)

(** [del d[k]]; the code only reaches it after checking [k in d]. *)
Definition del_key {V : Type} (d : PyDict.t V) (k : string) : PyDict.t V :=
  filter (fun kv => negb (String.eqb (fst kv) k)) d.

(** [ConfigManager.has_category_config]:
    [category_id in self.config and bool(self.config[category_id])] *)
Definition has_category_config (self : ConfigManager)
    (category : AnalysisCategory) : bool :=
  let category_id := get_category_id category in
  match PyDict.get (config self) category_id with
  | Some cfg => nonempty cfg
  | None => false
  end.

(** [ConfigManager.delete_category_config] *)
Definition delete_category_config (self : ConfigManager)
    (category : AnalysisCategory) : ConfigManager :=
  let category_id := get_category_id category in
  if PyDict.mem (config self) category_id
  then save_config
         (mkConfigManager (config_file self)
            (del_key (config self) category_id) (on_disk self))
  else self.

(** [ConfigManager.get_all_categories] *)
Definition get_all_categories (self : ConfigManager) : list string :=
  PyDict.keys (config self).

(** What [migrate_legacy_config] meets at [legacy_file]: no file, a file
    that [json.load] rejects, or a JSON document. *)
Inductive legacy_file : Type :=
| NoSuchFile
| NotJson
| Json (document : pyval).

(** The loop [for dispatcher, percentage in legacy_config.items()]. *)
Definition migrate_entries (legacy_config : list (string * pyval))
  : PyDict.t pyval :=
  fold_left
    (fun new_config dp =>
       PyDict.set new_config (fst dp)
         (VDict [("type", VStr "percentage"); ("value", snd dp)]))
    legacy_config [].

(** [ConfigManager.migrate_legacy_config].  Every exception inside the
    [try] is caught and only printed: the one of [json.load], and the
    [AttributeError] of [.items()] on a document that is not an object. *)
Definition migrate_legacy_config (self : ConfigManager) (legacy : legacy_file)
  : ConfigManager :=
  match legacy with
  | NoSuchFile => self
  | NotJson => self
  | Json (VDict legacy_config) =>
      let new_config := migrate_entries legacy_config in
      save_config
        (mkConfigManager (config_file self)
           (PyDict.set (config self) "dispatcher_earnings" new_config)
           (on_disk self))
  | Json _ => self
  end.

(* ================================================================== *)
(** ** Rule-based detection and the categories built from its rules *)

(** [any(keyword in col.lower() for keyword in keywords)] *)
Definition any_keyword (keywords : list string) (col : string) : bool :=
  existsb (fun keyword => Str.contains keyword (Str.lower col)) keywords.

(** Of the structure that [analyze_excel_structure] returns, the two
    entries that the rule-based detection reads. *)
Record Structure : Type := mkStructure {
  potential_amount_columns : list string;
  potential_entity_columns : list string
}.

(** [AIExcelAnalyzer.analyze_excel_structure], from the column labels. *)
Definition analyze_excel_structure (columns : list string) : Structure :=
  let potential_amount_cols :=
    filter (any_keyword ["amount"; "total"; "revenue"; "pay"; "earning";
                         "salary"; "rate"]) columns in
  let potential_entity_cols :=
    filter (any_keyword ["name"; "dispatch"; "driver"; "broker"; "customer";
                         "vendor"]) columns in
  mkStructure potential_amount_cols potential_entity_cols.

(** A detected category as [create_category_from_dict] reads it: a dict
    that may lack any of the three keys.  [description] and [confidence]
    are left out, as in [AnalysisCategory]. *)
Record CategoryData : Type := mkCategoryData {
  cd_name : option string;
  cd_entity_column : option string;
  cd_amount_columns : option (list string)
}.

(** [AIExcelAnalyzer._fallback_detection] *)
Definition _fallback_detection (structure : Structure) : list CategoryData :=
  let rules (category_name : string) (keywords : list string) :=
    map (fun col =>
           mkCategoryData (Some category_name) (Some col)
             (Some (firstn 1 (potential_amount_columns structure))))
        (filter (any_keyword keywords) (potential_entity_columns structure)) in
  (rules "Dispatcher Earnings" ["dispatch"]
   ++ rules "Driver Payments" ["driver"]
   ++ rules "Broker Performance" ["broker"; "customer"; "client"])%list.

(** The arguments every branch of [create_category_from_dict] passes:
    [cat_data['entity_column']] and [cat_data['amount_columns']], and no
    grouping columns. *)
Definition category_arguments (cat_data : CategoryData)
    (cls : string -> list string -> option (list string) -> AnalysisCategory)
  : result AnalysisCategory :=
  match cd_entity_column cat_data with
  | None => Raise (KeyError ["entity_column"])
  | Some entity_column =>
      match cd_amount_columns cat_data with
      | None => Raise (KeyError ["amount_columns"])
      | Some amount_columns => Ok (cls entity_column amount_columns None)
      end
  end.

(** [create_category_from_dict] of [bot_enhanced.py] *)
Definition create_category_from_dict (cat_data : CategoryData)
  : result AnalysisCategory :=
  let name :=
    Str.lower (match cd_name cat_data with Some n => n | None => "" end) in
  if Str.contains "dispatch" name
  then category_arguments cat_data DispatcherAnalysis
  else if Str.contains "driver" name
  then category_arguments cat_data DriverAnalysis
  else if Str.contains "broker" name
  then category_arguments cat_data BrokerAnalysis
  else category_arguments cat_data DispatcherAnalysis.

(** The test of [process_next_category]: the bot asks for a configuration
    before it runs the analysis. *)
Definition asks_for_config (self : ConfigManager) (category : AnalysisCategory)
  : bool :=
  config_needed category && negb (has_category_config self category).

(** The lines [parse_config_from_text] goes through, and the text it hands
    to [float] for a line that has a colon. *)
Definition config_lines (text : string) : list string :=
  split_on "010" (Str.strip text).

Definition value_text (line : string) : string :=
  Str.strip (drop_symbols (Str.strip (snd (split_first ":" line)))).

(** A label that names a week: the word Week, a blank and a non-empty run
    of digits. *)
Definition week_label (label : string) : Prop :=
  exists digits,
    label = "Week " ++ digits /\ digits <> EmptyString
    /\ Str.forallb Str.isdigit digits = true.

(** The configuration of the dispatcher-only pipeline, a percentage per
    dispatcher, as the settings the universal pipeline reads. *)
Definition percent_config (dispatcher_percentages : PyDict.t pyfloat) : Config :=
  map (fun cp => (fst cp, mkEntityConfig (Some "percentage") (Some (snd cp))))
      dispatcher_percentages.

(** What a line of a typed configuration contributes: the entity before
    the first colon with the record of the value after it, or nothing
    when the line has no colon or no value that [float] reads. *)
Definition line_entry (category : AnalysisCategory) (line : string)
  : option (string * pyval) :=
  if Str.contains ":" line then
    match Float.of_string (value_text line) with
    | Some value =>
        Some (Str.strip (fst (split_first ":" line)),
              VDict [("type", VStr (method_type (calculation_method category)));
                     ("value", VNum value)])
    | None => None
    end
  else None.

(* ================================================================== *)
(** * Properties *)

(** ** Numbers *)








(** ** Characters kept by the sanitizer *)






Lemma lstrip_forallb (p q : ascii -> bool) (s : string) :
  Str.forallb q s = true -> Str.forallb q (Str.lstrip_by p s) = true.
Proof.
  induction s as [|c t IH]; simpl; [easy|].
  intro H. destruct (p c); [|exact H].
  apply andb_prop in H as [_ Ht]. auto.
Qed.

Lemma rstrip_forallb (p q : ascii -> bool) (s : string) :
  Str.forallb q s = true -> Str.forallb q (Str.rstrip_by p s) = true.
Proof.
  induction s as [|c t IH]; simpl; [easy|].
  intro H. apply andb_prop in H as [Hc Ht]. specialize (IH Ht).
  destruct (Str.rstrip_by p t) eqn:E.
  - destruct (p c); simpl; [reflexivity|now rewrite Hc].
  - simpl. rewrite Hc. exact IH.
Qed.





(** [clean_amount] returns on every cell: what [float] raises is caught. *)
Lemma clean_amount_returns (x : cell) :
  clean_amount x
  = Ok (if isna x then None
        else if Str.is_empty (re_sub_non_numeric (str x)) then None
        else Float.of_string (re_sub_non_numeric (str x))).
Proof.
  unfold clean_amount. destruct (isna x); [reflexivity | ].
  destruct (Str.is_empty _); [reflexivity | ].
  unfold float_of_str. now destruct (Float.of_string _).
Qed.


(** ** Printed integers read back *)
















(** ** Value sanitization *)


(** ** Week segmentation *)

Lemma span_split (p : ascii -> bool) (s a b : string) :
  Str.span p s = (a, b) ->
  s = a ++ b /\ Str.forallb p a = true /\
  match b with String c _ => p c = false | EmptyString => True end.
Proof.
  revert a b. induction s as [|c t IH]; simpl; intros a b H.
  - inversion H. auto.
  - destruct (p c) eqn:Hc.
    + destruct (Str.span p t) as [a' b'] eqn:E. inversion H; subst.
      destruct (IH a' b eq_refl) as (-> & Ha & Hb).
      simpl. rewrite Hc. auto.
    + inversion H; subst. simpl. auto.
Qed.

Lemma span_app (p : ascii -> bool) (a b : string) :
  Str.forallb p a = true ->
  match b with String c _ => p c = false | EmptyString => True end ->
  Str.span p (a ++ b) = (a, b).
Proof.
  induction a as [|c t IH]; simpl; intros Ha Hb.
  - destruct b as [|c b]; simpl; [reflexivity|now rewrite Hb].
  - apply andb_prop in Ha as [Hc Ht]. now rewrite Hc, (IH Ht Hb).
Qed.

Lemma lstrip_split (p : ascii -> bool) (s : string) :
  exists ws, s = ws ++ Str.lstrip_by p s /\ Str.forallb p ws = true.
Proof.
  induction s as [|c t (ws & Hs & Hw)]; simpl.
  - now exists EmptyString.
  - destruct (p c) eqn:Hc.
    + exists (String c ws). simpl. rewrite Hc. split; [now f_equal|assumption].
    + now exists EmptyString.
Qed.

Lemma lstrip_app (p : ascii -> bool) (ws s : string) :
  Str.forallb p ws = true ->
  match s with String c _ => p c = false | EmptyString => True end ->
  Str.lstrip_by p (ws ++ s) = s.
Proof.
  induction ws as [|c t IH]; simpl; intros Hw Hs.
  - destruct s as [|c s]; simpl; [reflexivity|now rewrite Hs].
  - apply andb_prop in Hw as [Hc Ht]. rewrite Hc. auto.
Qed.

Lemma digit_not_space (c : ascii) : Str.isdigit c = true -> Str.isspace c = false.
Proof.
  destruct c as [[] [] [] [] [] [] [] []]; intro H;
    solve [discriminate H | reflexivity].
Qed.

Lemma match_week_here_sound (s ds : string) :
  match_week_here s = Some ds -> week_pattern_here s ds.
Proof.
  unfold match_week_here.
  destruct s as [|c0 [|c1 [|c2 [|c3 t]]]]; try discriminate;
    try (destruct c0 as [[] [] [] [] [] [] [] []]; discriminate);
    try (destruct c0 as [[] [] [] [] [] [] [] []]; try discriminate;
         destruct c1 as [[] [] [] [] [] [] [] []]; discriminate);
    try (destruct c0 as [[] [] [] [] [] [] [] []]; try discriminate;
         destruct c1 as [[] [] [] [] [] [] [] []]; try discriminate;
         destruct c2 as [[] [] [] [] [] [] [] []]; discriminate).
  destruct c0 as [[] [] [] [] [] [] [] []]; try discriminate;
  destruct c1 as [[] [] [] [] [] [] [] []]; try discriminate;
  destruct c2 as [[] [] [] [] [] [] [] []]; try discriminate;
  destruct c3 as [[] [] [] [] [] [] [] []]; try discriminate.
  destruct (Str.span Str.isdigit (Str.lstrip_by Str.isspace t)) as [a b] eqn:E.
  destruct a as [|d a]; [discriminate|]. intro H. inversion H; subst ds.
  destruct (span_split _ _ _ _ E) as (Hs & Ha & Hb).
  destruct (lstrip_split Str.isspace t) as (ws & Ht & Hw).
  exists ws, b. repeat split; try assumption; try discriminate.
  change ("week" ++ ws ++ String d a ++ b) with
    (String "w" (String "e" (String "e" (String "k" (ws ++ (String d a ++ b)))))).
  now rewrite <- Hs, <- Ht.
Qed.

Lemma match_week_here_complete (s ds : string) :
  week_pattern_here s ds -> match_week_here s = Some ds.
Proof.
  intros (ws & post & -> & Hw & Hd & Hne & Hp).
  change (match_week_here ("week" ++ ws ++ ds ++ post)) with
    (let (a, _) := Str.span Str.isdigit
                     (Str.lstrip_by Str.isspace (ws ++ ds ++ post)) in
     if Str.is_empty a then None else Some a).
  rewrite lstrip_app; [|assumption|].
  - rewrite (span_app _ _ _ Hd Hp). now destruct ds.
  - destruct ds as [|d ds]; [contradiction|]. simpl in *.
    apply andb_prop in Hd as [Hd _]. now apply digit_not_space.
Qed.

(** [re_search_week] finds the digits of the leftmost match of the
    pattern, and finds nothing only when the pattern occurs nowhere. *)
Lemma re_search_week_spec (s : string) :
  match re_search_week s with
  | Some ds => leftmost_week_pattern s ds
  | None => no_week_pattern s
  end.
Proof.
  induction s as [|c t IH].
  - simpl. intros pre suf ds H Hm.
    destruct pre; [|discriminate]. simpl in H. subst suf.
    apply match_week_here_complete in Hm. discriminate.
  - cbn [re_search_week].
    destruct (match_week_here (String c t)) as [ds|] eqn:E.
    + exists EmptyString, (String c t). split; [reflexivity|].
      split; [now apply match_week_here_sound|].
      intros pre' suf' ds' _ Hl. simpl in Hl. lia.
    + destruct (re_search_week t) as [ds|].
      * destruct IH as (pre & suf & -> & Hm & Hleft).
        exists (String c pre), suf. split; [reflexivity|]. split; [assumption|].
        intros pre' suf' ds' Hs Hl Hm'.
        destruct pre' as [|c' pre'].
        -- simpl in Hs. subst suf'.
           apply match_week_here_complete in Hm'. congruence.
        -- simpl in Hs, Hl. inversion Hs; subst.
           apply (Hleft pre' suf' ds'); [assumption|lia|assumption].
      * intros pre suf ds Hs Hm.
        destruct pre as [|c' pre].
        -- simpl in Hs. subst suf.
           apply match_week_here_complete in Hm. congruence.
        -- simpl in Hs. inversion Hs; subst.
           now apply (IH pre suf ds).
Qed.

Lemma week_loop_spec (i : nat) (broker_column : string) (rs : list (list cell)) :
  forall current_week,
  exists labels,
    week_loop (Single i) broker_column current_week rs = Ok labels /\
    length labels = length rs /\
    forall n row, nth_error rs n = Some row ->
      nth_error labels n =
      Some (match week_match (cell_at row i) with
            | Some digits => "Week " ++ digits
            | None => match n with
                      | O => current_week
                      | S m => nth m labels current_week
                      end
            end).
Proof.
  induction rs as [|row rest IH]; intro cur.
  - exists []. repeat split. intros [|n] r H; discriminate H.
  - cbn [week_loop].
    destruct (IH (next_week cur (cell_at row i))) as (labels & -> & Hlen & Hnth).
    exists (next_week cur (cell_at row i) :: labels). cbn [bind].
    split; [reflexivity|]. split; [simpl; now rewrite Hlen|].
    intros [|n] r H.
    + simpl in H. inversion H; subst r. reflexivity.
    + simpl in H. cbn [nth_error]. rewrite (Hnth n r H).
      destruct (week_match (cell_at r i)); [reflexivity|].
      destruct n as [|m]; [reflexivity|].
      f_equal. cbn [nth]. apply nth_indep. rewrite Hlen.
      assert (Hm : (S m < length rest)%nat) by (apply nth_error_Some; congruence).
      lia.
Qed.

Lemma week_loop_no_marker (i : nat) (broker_column : string)
    (rs : list (list cell)) (current_week : string) :
  (forall row, In row rs -> week_match (cell_at row i) = None) ->
  week_loop (Single i) broker_column current_week rs
  = Ok (repeat current_week (length rs)).
Proof.
  induction rs as [|row rest IH]; intro H; [reflexivity|].
  cbn [week_loop]. unfold next_week. rewrite (H row (or_introl eq_refl)).
  rewrite IH by (intros r Hr; apply H; now right). reflexivity.
Qed.

(** C3.  When the table has the marker column, and has it once,
    [detect_week_markers] returns one label per row, in row order.  The label of a row whose marker text
    (stripped, lower-cased) contains the pattern is [Week] followed by the
    digits of the leftmost match, taken as they stand; the label of any
    other row is the label of the row before it, and [Before Week 1] for
    the first row.  A table without markers is labelled [Before Week 1]
    throughout, and the markers "", "Week 4 starts", "" give
    Before Week 1, Week 4, Week 4. *)
Theorem detect_week_markers_labels (df : DataFrame) (broker_column : string)
    (i : nat) (Hcol : locate broker_column (columns df) = Single i) :
  (exists labels,
      detect_week_markers df broker_column = Ok labels /\
      labels_follow_markers (marker_column df i) labels /\
      ((forall c, In c (marker_column df i) -> week_match c = None) ->
       labels = repeat "Before Week 1" (length (rows df))))
  /\ (forall c, week_match_meets_pattern c)
  /\ detect_week_markers three_row_table "Broker"
     = Ok ["Before Week 1"; "Week 4"; "Week 4"].
Proof.
  split; [|split; [|reflexivity]].
  - unfold detect_week_markers. rewrite Hcol.
    destruct (week_loop_spec i broker_column (rows df) "Before Week 1")
      as (labels & Hl & Hlen & Hnth).
    exists labels. split; [assumption|]. split; [split|].
    + unfold marker_column. now rewrite length_map.
    + intros n c Hc. unfold marker_column in Hc.
      rewrite nth_error_map in Hc.
      destruct (nth_error (rows df) n) as [row|] eqn:E; [|discriminate].
      inversion Hc; subst c. apply (Hnth n row E).
    + intro Hnone.
      rewrite week_loop_no_marker in Hl.
      * now inversion Hl.
      * intros row Hr. apply Hnone. unfold marker_column.
        now apply in_map with (f := fun row => cell_at row i).
  - intro c. unfold week_match_meets_pattern, week_match.
    apply re_search_week_spec.
Qed.

(** The segmentation theorem at the three-row table. *)
Lemma detect_week_markers_labels_witness :
  locate "Broker" (columns three_row_table) = Single O /\
  exists labels,
    detect_week_markers three_row_table "Broker" = Ok labels /\
    labels_follow_markers (marker_column three_row_table O) labels.
Proof.
  split; [reflexivity|].
  destruct (detect_week_markers_labels three_row_table "Broker" O eq_refl)
    as [(labels & H1 & H2 & _) _].
  exists labels. split; assumption.
Defined.

(** ** Matching an entity with its configuration *)

Lemma find_config_none {C : Type} (entity : string) (items : PyDict.t C) :
  find_config entity items = None <-> no_match entity items.
Proof.
  unfold no_match. induction items as [|[k v] rest IH]; simpl.
  - split; [intros _ k []|reflexivity].
  - destruct (String.eqb_spec (Str.lower entity) (Str.lower k)) as [E|E].
    + split; [discriminate|]. intro H. exfalso. apply (H k); auto.
    + rewrite IH. split.
      * intros H k' [<-|Hin]; auto.
      * intros H k' Hin. apply H. now right.
Qed.

Lemma find_config_first {C : Type} (entity : string) (items : PyDict.t C)
    (k : string) (settings : C) :
  find_config entity items = Some (k, settings)
  <-> first_match entity items k settings.
Proof.
  unfold first_match. induction items as [|[k0 v0] rest IH]; simpl.
  - split; [discriminate|]. intros (pre & post & H & _). now destruct pre.
  - destruct (String.eqb_spec (Str.lower entity) (Str.lower k0)) as [E|E].
    + split.
      * intro H. inversion H; subst. exists [], rest.
        split; [reflexivity|]. split; [assumption|]. intros k' [].
      * intros (pre & post & H & Hk & Hpre).
        destruct pre as [|[k1 v1] pre]; simpl in H; inversion H; subst; auto.
        exfalso. apply (Hpre _ (or_introl eq_refl)). exact E.
    + rewrite IH. split.
      * intros (pre & post & -> & Hk & Hpre).
        exists ((k0, v0) :: pre), post. repeat split; auto.
        intros k' [<-|Hin]; auto.
      * intros (pre & post & H & Hk & Hpre).
        destruct pre as [|[k1 v1] pre]; simpl in H; inversion H; subst.
        -- contradiction.
        -- exists pre, post. repeat split; auto.
           intros k' Hin. apply Hpre. simpl. now right.
Qed.

Lemma entity_name_calculate (entity : string) (total : pyfloat)
    (category : AnalysisCategory) (config : option Config) :
  entity_name (_calculate_earnings entity total category config)
  = Some (match find_config entity (items_of config) with
          | Some (k, _) => k
          | None => entity
          end).
Proof.
  unfold _calculate_earnings.
  destruct (calculation_method category); reflexivity.
Qed.

(** C6.  [_calculate_earnings] compares the entity with the configuration
    keys after lower-casing both.  The result is named after the first key
    that is equal up to case, in the spelling of the configuration, and
    after the entity as the data spells it when no key is; whenever some
    key is equal up to case the name is such a key.  The data entity "ali"
    under the key "Ali" is reported as "Ali". *)
Theorem calculate_earnings_config_casing (entity : string) (total : pyfloat)
    (category : AnalysisCategory) (config : option Config) :
  (forall k settings,
      first_match entity (items_of config) k settings ->
      entity_name (_calculate_earnings entity total category config) = Some k)
  /\ (no_match entity (items_of config) ->
      entity_name (_calculate_earnings entity total category config)
      = Some entity)
  /\ ((exists k, In k (PyDict.keys (items_of config))
                 /\ Str.lower entity = Str.lower k) ->
      exists k, entity_name (_calculate_earnings entity total category config)
                = Some k
                /\ In k (PyDict.keys (items_of config))
                /\ Str.lower entity = Str.lower k)
  /\ entity_name (_calculate_earnings "ali" total category
                    (Some [("Ali", percent 10)])) = Some "Ali".
Proof.
  rewrite !entity_name_calculate. repeat split.
  - intros k settings H. apply find_config_first in H. now rewrite H.
  - intro H. apply find_config_none in H. now rewrite H.
  - intros (k & Hin & Hk).
    destruct (find_config entity (items_of config)) as [[k' v']|] eqn:E.
    + apply find_config_first in E as (pre & post & Hi & Hl & _).
      exists k'. repeat split; auto.
      rewrite Hi. unfold PyDict.keys. rewrite map_app. apply in_or_app.
      right. now left.
    + apply find_config_none in E. exfalso. now apply (E k).
Qed.

(** C7.  Under FLAT_RATE the earnings are the configured value of the
    first matching entry, whatever the total: the result reports that
    value as its rate, two calls that differ only in the total give the
    same earnings, and without a matching entry both are 0.  A total of
    1000 under a configured value of 300 earns 300. *)
Theorem flat_rate_ignores_total (entity : string) (total : pyfloat)
    (category : AnalysisCategory) (config : option Config)
    (Hflat : calculation_method category = FLAT_RATE) :
  (forall k settings v,
      first_match entity (items_of config) k settings ->
      cfg_value settings = Some v ->
      earnings (_calculate_earnings entity total category config) = v
      /\ flat_rate (_calculate_earnings entity total category config) = Some v)
  /\ (forall total',
      earnings (_calculate_earnings entity total' category config)
      = earnings (_calculate_earnings entity total category config))
  /\ (no_match entity (items_of config) ->
      earnings (_calculate_earnings entity total category config) = Float.zero
      /\ flat_rate (_calculate_earnings entity total category config)
         = Some Float.zero)
  /\ total_amount (_calculate_earnings entity total category config) = total
  /\ earnings (_calculate_earnings "Ali" (Float.of_Z 1000) category
                 (Some [("Ali", flat 300)])) = Float.of_Z 300.
Proof.
  unfold _calculate_earnings. rewrite Hflat.
  cbn [earnings flat_rate total_amount].
  split; [|split; [|split; [|split]]]; try reflexivity.
  - intros k settings v Hm Hv. apply find_config_first in Hm.
    rewrite Hm. cbn [option_map snd]. unfold value_or_0. rewrite Hv.
    split; reflexivity.
  - intro Hno. apply find_config_none in Hno. rewrite Hno.
    split; reflexivity.
Qed.

(** The flat-rate theorem at a category whose method is FLAT_RATE. *)
Lemma flat_rate_ignores_total_witness :
  calculation_method flat_category = FLAT_RATE /\
  forall total',
    earnings (_calculate_earnings "Ali" total' flat_category
                (Some [("Ali", flat 300)]))
    = earnings (_calculate_earnings "Ali" (Float.of_Z 1000) flat_category
                  (Some [("Ali", flat 300)])).
Proof.
  split; [reflexivity|].
  exact (proj1 (proj2 (flat_rate_ignores_total "Ali" (Float.of_Z 1000)
                         flat_category (Some [("Ali", flat 300)]) eq_refl))).
Defined.

(** ** Dictionaries *)

Lemma get_set_eq {V : Type} (d : PyDict.t V) (k : string) (v : V) :
  PyDict.get (PyDict.set d k v) k = Some v.
Proof.
  induction d as [|[k' v'] rest IH]; simpl.
  - now rewrite String.eqb_refl.
  - destruct (String.eqb k' k) eqn:E; simpl; rewrite E; auto.
Qed.

Lemma get_set_ne {V : Type} (d : PyDict.t V) (k k' : string) (v : V) :
  k <> k' -> PyDict.get (PyDict.set d k v) k' = PyDict.get d k'.
Proof.
  intro Hne. induction d as [|[k0 v0] rest IH]; simpl.
  - apply String.eqb_neq in Hne. now rewrite Hne.
  - destruct (String.eqb_spec k0 k) as [->|E]; simpl.
    + apply String.eqb_neq in Hne. now rewrite Hne.
    + now rewrite IH.
Qed.

Lemma get_none_keys {V : Type} (d : PyDict.t V) (k : string) :
  PyDict.get d k = None <-> ~ In k (PyDict.keys d).
Proof.
  induction d as [|[k0 v0] rest IH]; simpl.
  - tauto.
  - destruct (String.eqb_spec k0 k) as [->|E].
    + split; [discriminate|]. intro H. exfalso. auto.
    + rewrite IH. tauto.
Qed.

(** ** Configuration submission *)

Lemma validate_and_save_rejected (self : ConfigManager)
    (category : AnalysisCategory) (cfg : PyDict.t pyval) :
  validate_config category cfg = Ok false ->
  validate_and_save self category cfg = (self, Ok false).
Proof. unfold validate_and_save. now intros ->. Qed.

Lemma validate_and_save_accepted (self : ConfigManager)
    (category : AnalysisCategory) (cfg : PyDict.t pyval) :
  validate_config category cfg = Ok true ->
  let after := fst (validate_and_save self category cfg) in
  snd (validate_and_save self category cfg) = Ok true /\
  get_category_config after category = Some cfg /\
  on_disk after = Some (config after) /\
  forall other, other <> get_category_id category ->
    PyDict.get (config after) other = PyDict.get (config self) other.
Proof.
  unfold validate_and_save. intros ->. cbn.
  repeat split.
  - unfold get_category_config. cbn. apply get_set_eq.
  - intros other Hne. apply get_set_ne. congruence.
Qed.

(** The call stores the whole submission and returns [True], or leaves
    the manager untouched: nothing in between. *)
Lemma validate_and_save_all_or_nothing (self : ConfigManager)
    (category : AnalysisCategory) (cfg : PyDict.t pyval) :
  validate_and_save self category cfg
  = (set_category_config self category cfg, Ok true)
  \/ (fst (validate_and_save self category cfg) = self
      /\ snd (validate_and_save self category cfg) <> Ok true).
Proof.
  unfold validate_and_save.
  destruct (validate_config category cfg) as [[ | ] | e | ]; cbn;
    [now left | right | right | right]; split; congruence.
Qed.

(** The acceptance of a submission is the acceptance of every entry. *)
Lemma validate_entries_true (entry_ok : pyval -> result bool)
    (items : list (string * pyval)) :
  validate_entries entry_ok items = Ok true <->
  forall k settings, In (k, settings) items -> entry_ok settings = Ok true.
Proof.
  induction items as [ | [k0 s0] rest IH]; cbn [validate_entries].
  - split; [intros _ k s [] | reflexivity].
  - destruct (entry_ok s0) as [[ | ] | e | ] eqn:E; cbn [bind].
    + rewrite IH. split.
      * intros H k s [G | G]; [injection G as <- <-; exact E | now apply (H k)].
      * intros H k s G. apply (H k). now right.
    + split; [discriminate | ]. intro H.
      rewrite (H k0 s0 (or_introl eq_refl)) in E. discriminate.
    + split; [discriminate | ]. intro H.
      rewrite (H k0 s0 (or_introl eq_refl)) in E. discriminate.
    + split; [discriminate | ]. intro H.
      rewrite (H k0 s0 (or_introl eq_refl)) in E. discriminate.
Qed.

(** What the dispatcher check accepts, entry by entry. *)
Lemma dispatcher_entry_ok_iff (settings : pyval) :
  dispatcher_entry_ok settings = Ok true <->
  exists d v x,
    settings = VDict d /\
    (exists ty, PyDict.get d "type" = Some ty /\ is_str ty "percentage" = true) /\
    PyDict.get d "value" = Some v /\
    py_float v = Ok x /\
    Float.ltb x Float.zero = false /\
    Float.gtb x (Float.of_Z 100) = false.
Proof.
  unfold dispatcher_entry_ok. split.
  - destruct settings as [ |b|z|x|s|l|d]; try discriminate.
    destruct (PyDict.get d "type") as [ty|] eqn:Et; [|discriminate].
    destruct (PyDict.get d "value") as [v|] eqn:Ev; [|discriminate].
    destruct (is_str ty "percentage") eqn:Es; [|discriminate]. cbn [negb].
    destruct (py_float v) as [x| [] |] eqn:Ef; try discriminate.
    cbn [bind try_except_value_type].
    destruct (Float.ltb x Float.zero) eqn:El; [discriminate|].
    destruct (Float.gtb x (Float.of_Z 100)) eqn:Eg; [discriminate|].
    intros _. exists d, v, x. repeat split; eauto.
  - intros (d & v & x & -> & (ty & Et & Es) & Ev & Ef & El & Eg).
    now rewrite Et, Ev, Es, Ef; cbn [negb bind]; rewrite El, Eg.
Qed.

Lemma dispatcher_validate_config_iff (cfg : PyDict.t pyval) :
  dispatcher_validate_config cfg = Ok true <->
  cfg <> [] /\
  forall k settings, In (k, settings) cfg ->
    dispatcher_entry_ok settings = Ok true.
Proof.
  unfold dispatcher_validate_config.
  destruct cfg as [|e rest];
    [cbn; split; [discriminate|intros [H _]; now elim H]|].
  cbn [nonempty negb]. rewrite validate_entries_true.
  split; [intro H; split; [discriminate | exact H] | now intros [_ H]].
Qed.

(** What does hold of a dispatcher submission that is stored: it is
    non-empty and every entry is a record of type percentage whose value
    converts to a float that lies in [0, 100] or is NaN.  Otherwise the
    manager is left untouched. *)
Lemma validate_and_save_as_a_unit (self : ConfigManager)
    (category : AnalysisCategory) (cfg : PyDict.t pyval) :
  cat_class category = DispatcherClass ->
  (fst (validate_and_save self category cfg) = self
   /\ snd (validate_and_save self category cfg) <> Ok true)
  \/ (validate_and_save self category cfg
      = (set_category_config self category cfg, Ok true)
      /\ cfg <> []
      /\ forall k settings, In (k, settings) cfg ->
           exists d v x,
             settings = VDict d
             /\ PyDict.get d "type" = Some (VStr "percentage")
             /\ PyDict.get d "value" = Some v
             /\ py_float v = Ok x
             /\ (in_percent_range x = true \/ x = NaN)).
Proof.
  intro Hclass. unfold validate_and_save, validate_config. rewrite Hclass.
  destruct (dispatcher_validate_config cfg) as [[ | ] | e | ] eqn:E;
    cbn [negb fst snd]; [right | left | left | left];
    try (split; congruence).
  apply dispatcher_validate_config_iff in E as [Hne Hall].
  split; [reflexivity|]. split; [assumption|].
  intros k settings Hin.
  apply Hall, dispatcher_entry_ok_iff in Hin
    as (d & v & x & -> & (ty & Hty & Hstr) & Hv & Hf & Hlt & Hgt).
  exists d, v, x. repeat split; try assumption.
  - destruct ty as [ |b|z|y|s|l|dd]; try discriminate Hstr.
    cbn in Hstr. apply String.eqb_eq in Hstr. now subst.
  - unfold in_percent_range. rewrite Hlt, Hgt. cbn.
    destruct x; cbn; auto.
Qed.

(** C8 (divergence).  The submission that [parse_config_from_text] builds
    from the line [Ali: nan] holds a value outside [0, 100]; both
    comparisons of the range check are false on it, so
    [validate_and_save] returns [True] and stores the submission in memory
    and in the file. *)
Theorem validate_and_save_accepts_nan :
  parse_config_from_text "Ali: nan" dispatcher_category = nan_submission /\
  in_percent_range NaN = false /\
  validate_and_save fresh_manager dispatcher_category nan_submission
  = (mkConfigManager "analysis_config.json"
       [("dispatcher_earnings", nan_submission)]
       (Some [("dispatcher_earnings", nan_submission)]),
     Ok true).
Proof. repeat split. Qed.

(** ** Cleaning *)

Lemma in_combine_seq {A : Type} (l : list A) (s i : nat) (x : A) :
  In (i, x) (combine (seq s (length l)) l)
  <-> (s <= i)%nat /\ nth_error l (i - s) = Some x.
Proof.
  revert s. induction l as [|y t IH]; intro s; simpl.
  - split; [easy|]. intros [_ H]. now destruct (i - s)%nat.
  - rewrite IH. split.
    + intros [H|[Hle Hn]].
      * inversion H; subst. rewrite Nat.sub_diag. auto.
      * split; [lia|]. replace (i - s)%nat with (S (i - S s)) by lia. exact Hn.
    + intros [Hle Hn]. destruct (i - s)%nat as [|m] eqn:E.
      * left. inversion Hn; subst. f_equal. lia.
      * right. split; [lia|]. replace (i - S s)%nat with m by lia. exact Hn.
Qed.

Lemma in_indexed (df : DataFrame) (i : nat) (row : list cell) :
  In (i, row) (indexed df) <-> nth_error (rows df) i = Some row.
Proof.
  unfold indexed. rewrite in_combine_seq, Nat.sub_0_r.
  split; [tauto|]. intro H. split; [lia|assumption].
Qed.

Lemma in_filter_chain {A : Type} (f : nat -> A -> bool) (ks : list nat)
    (rs : list A) (x : A) :
  In x (fold_left (fun acc k => filter (f k) acc) ks rs)
  <-> In x rs /\ forall k, In k ks -> f k x = true.
Proof.
  revert rs. induction ks as [|k ks IH]; intro rs; simpl.
  - split; [intro H; split; [assumption|intros k []]|tauto].
  - rewrite IH, filter_In. split.
    + intros [[Hin Hk] Hks]. split; [assumption|].
      intros k' [<-|Hin']; auto.
    + intros [Hin H]. repeat split; auto.
Qed.

Lemma in_keep_positive (n : nat) (rs : list NumericRow) (r : NumericRow) :
  In r (keep_positive n rs)
  <-> In r rs /\ forall k, (k < n)%nat -> amount_positive k (nr_amounts r) = true.
Proof.
  unfold keep_positive.
  rewrite (in_filter_chain (fun k r => amount_positive k (nr_amounts r))).
  split; intros [Hin H]; (split; [assumption|]); intros k Hk; apply H.
  - apply in_seq. lia.
  - apply in_seq in Hk. lia.
Qed.

Lemma string_in_In (s : string) (l : list string) :
  string_in s l = true <-> In s l.
Proof.
  unfold string_in. rewrite existsb_exists. split.
  - intros (x & Hin & Hx). apply String.eqb_eq in Hx. now subst.
  - intro H. exists s. split; [assumption|apply String.eqb_refl].
Qed.

Lemma position_Some_In (label : string) (l : list string) :
  (exists i, position label l = Some i) <-> In label l.
Proof.
  induction l as [|x t IH]; simpl.
  - split; [intros [i H]; discriminate|easy].
  - destruct (String.eqb_spec x label) as [->|E].
    + split; eauto.
    + rewrite <- IH. split.
      * intros [i H]. destruct (position label t); [eauto|discriminate].
      * intros [H|[i H]]; [contradiction|]. rewrite H. simpl. eauto.
Qed.

Lemma positive_is_number (x : pyfloat) :
  Float.gtb x Float.zero = true -> float_notna x = true.
Proof. now destruct x. Qed.


Lemma traverse_ok {A B : Type} (f : A -> result B) (g : A -> B) (l : list A) :
  (forall a, f a = Ok (g a)) -> traverse f l = Ok (map g l).
Proof.
  intro H. induction l as [ | a rest IH]; [reflexivity | ].
  cbn [traverse map]. now rewrite H, IH.
Qed.

(** No cell makes [Series.apply(clean_amount)] raise. *)
Lemma apply_clean_amount_ok (values : list cell) :
  apply_clean_amount values = Ok (map cleaned_cell values).
Proof.
  unfold apply_clean_amount. apply traverse_ok. intro c.
  unfold cleaned_cell. now rewrite clean_amount_returns.
Qed.

Lemma cleaned_positive_notna (c : cell) :
  Float.gtb (cleaned_cell c) Float.zero = true -> notna c = true.
Proof.
  unfold cleaned_cell. rewrite clean_amount_returns.
  now destruct c.
Qed.

(** [clean_dataframe] without the exceptions that cannot come. *)
Lemma clean_dataframe_cases (P : Pandas) (df : DataFrame)
    (entity_column : string) (amount_columns : list string) :
  clean_dataframe P df entity_column amount_columns
  = if negb (distinct (columns df))
       || negb (distinct (entity_column :: amount_columns))
    then OutOfModel
    else
      match position entity_column (columns df),
            missing_labels df (entity_column :: amount_columns) with
      | Some e, [] =>
          Ok (mkCleanFrame entity_column amount_columns false
                (cleaned_rows P df e (amount_positions df amount_columns)))
      | _, missing => Raise (KeyError missing)
      end.
Proof.
  unfold clean_dataframe. cbv zeta.
  destruct (negb (distinct (columns df)) || _); [reflexivity | ].
  destruct (position entity_column (columns df)) as [e | ]; [ | reflexivity].
  destruct (missing_labels df (entity_column :: amount_columns));
    [ | reflexivity].
  rewrite (traverse_ok _
             (fun r => mkNumericRow (sr_index r) (sr_entity r)
                         (map cleaned_cell (sr_raw_amounts r)))).
  - cbn [bind]. unfold cleaned_rows, amount_positions.
    now rewrite length_map.
  - intro r. now rewrite apply_clean_amount_ok.
Qed.

Lemma missing_none_positions (df : DataFrame) (wanted : list string) :
  missing_labels df wanted = [] ->
  Forall2 (fun c p => position c (columns df) = Some p) wanted
    (map (fun c => match position c (columns df) with
                   | Some i => i | None => O end) wanted).
Proof.
  unfold missing_labels. induction wanted as [|c t IH]; simpl; intro H.
  - constructor.
  - destruct (string_in c (columns df)) eqn:E; [|discriminate].
    simpl in H. constructor; [|auto].
    apply string_in_In, position_Some_In in E as [i Hi]. now rewrite Hi.
Qed.

Lemma nth_amounts_of (row : list cell) (pos : list nat) (k : nat) :
  (k < length pos)%nat ->
  nth k (map cleaned_cell (map (cell_at row) pos)) NaN
  = cleaned_cell (cell_at row (nth k pos O)).
Proof.
  intro Hk. rewrite map_map.
  rewrite (nth_indep _ NaN (cleaned_cell (cell_at row O)))
    by (now rewrite length_map).
  apply (map_nth (fun p => cleaned_cell (cell_at row p))).
Qed.

(** The rows of the cleaned frame, for at least one amount column. *)
Lemma clean_dataframe_rows (P : Pandas) (df : DataFrame)
    (entity_column : string) (amount_columns : list string)
    (frame : CleanFrame) :
  (1 <= length amount_columns)%nat ->
  clean_dataframe P df entity_column amount_columns = Ok frame ->
  exists e pos,
    position entity_column (columns df) = Some e /\
    Forall2 (fun c p => position c (columns df) = Some p) amount_columns pos /\
    cf_entity_column frame = entity_column /\
    cf_amount_columns frame = amount_columns /\
    cf_has_week frame = false /\
    forall r, In r (cf_rows frame) <-> retained_from P df e pos r.
Proof.
  intros Hmany Hclean.
  rewrite clean_dataframe_cases in Hclean.
  destruct (negb (distinct (columns df)) || _); [discriminate|].
  destruct (position entity_column (columns df)) as [e|] eqn:Ee;
    [|discriminate].
  destruct (missing_labels df (entity_column :: amount_columns)) eqn:Em;
    [|discriminate].
  assert (Em' : missing_labels df amount_columns = []).
  { unfold missing_labels in *. simpl in Em.
    destruct (negb (string_in entity_column (columns df))); [discriminate|].
    exact Em. }
  pose proof (missing_none_positions df amount_columns Em') as Hpos.
  fold (amount_positions df amount_columns) in Hpos.
  set (pos := amount_positions df amount_columns) in *.
  assert (Hlen : length pos = length amount_columns)
    by (unfold pos; apply length_map).
  inversion Hclean as [Hf]. clear Hclean.
  cbn [cf_rows cf_entity_column cf_amount_columns cf_has_week].
  assert (Hdiff : forall (entity : option string) (text : string),
             differs entity text = true <-> entity <> Some text).
  { intros [s | ] text; cbn [differs]; [ | split; [discriminate | reflexivity]].
    rewrite Bool.negb_true_iff, String.eqb_neq. split; congruence. }
  assert (Hchar : forall r,
    In r (cleaned_rows P df e pos) <-> retained_from P df e pos r).
  { intro r. unfold cleaned_rows. rewrite !filter_In, in_map_iff. split.
    - intros [[(nr & <- & Hnr) Hnan] Hempty].
      apply in_keep_positive in Hnr as [Hnr Hall].
      apply filter_In in Hnr as [Hnr _].
      apply in_map_iff in Hnr as (sr & <- & Hsr).
      apply filter_In in Hsr as [Hsr _].
      apply in_map_iff in Hsr as ([i row] & <- & Hir).
      apply in_indexed in Hir. cbn in *.
      exists row. repeat split; try assumption; try reflexivity.
      + unfold amounts_of. now rewrite map_map.
      + intros p Hp.
        destruct (In_nth _ _ O Hp) as (k & Hk & <-).
        rewrite <- nth_amounts_of by assumption.
        apply Hall. lia.
      + now apply Hdiff.
      + now apply Hdiff.
    - intros (row & Hrow & Hent & Ham & Hweek & Hall & Hnan & Hempty).
      assert (Hgt : forall k, (k < length pos)%nat ->
                 Float.gtb (cleaned_cell (cell_at row (nth k pos O))) Float.zero
                 = true).
      { intros k Hk. apply Hall. now apply nth_In. }
      assert (Hfirst : exists p0 rest, pos = p0 :: rest).
      { destruct pos as [|p0 rest]; [simpl in Hlen; lia|eauto]. }
      destruct Hfirst as (p0 & rest & Hp0).
      assert (Hg0 : Float.gtb (cleaned_cell (cell_at row p0)) Float.zero = true).
      { specialize (Hgt O). rewrite Hp0 in Hgt. apply Hgt. simpl. lia. }
      repeat split.
      + exists (mkNumericRow (cr_index r) (cell_at row e)
                  (map cleaned_cell (map (cell_at row) pos))).
        split.
        * destruct r as [ri re ra rw]. cbn in *. subst.
          unfold amounts_of. now rewrite map_map.
        * apply in_keep_positive. split.
          -- apply filter_In. split.
             ++ apply in_map_iff.
                exists (mkSelectedRow (cr_index r) (cell_at row e)
                          (map (cell_at row) pos)).
                split; [reflexivity|]. apply filter_In. split.
                ** apply in_map_iff. exists (cr_index r, row).
                   split; [reflexivity|now apply in_indexed].
                ** cbn. rewrite Hp0. cbn.
                   now rewrite (cleaned_positive_notna _ Hg0).
             ++ cbn. rewrite Hp0. cbn.
                now rewrite (positive_is_number _ Hg0).
          -- intros k Hk. cbn. unfold amount_positive.
             rewrite nth_amounts_of by lia. apply Hgt. lia.
      + now apply Hdiff.
      + now apply Hdiff. }
  exists e, pos. repeat split; try assumption; apply Hchar.
Qed.

(** C10.  With two or more amount columns, the rows of the cleaned frame
    are exactly the raw rows in which every listed amount column
    sanitizes to a float above zero and whose entity, as text, is neither
    empty nor nan.  A raw row with one amount column missing, unreadable,
    zero or negative leaves no row in the frame, however positive its
    first amount column is. *)
Theorem clean_dataframe_needs_every_amount_positive (P : Pandas)
    (df : DataFrame) (entity_column : string) (amount_columns : list string)
    (frame : CleanFrame)
    (Hmany : (2 <= length amount_columns)%nat)
    (Hclean : clean_dataframe P df entity_column amount_columns = Ok frame) :
  exists e pos,
    position entity_column (columns df) = Some e /\
    Forall2 (fun c p => position c (columns df) = Some p) amount_columns pos /\
    (forall r, In r (cf_rows frame) <-> retained_from P df e pos r) /\
    (forall i row p,
        nth_error (rows df) i = Some row -> In p pos ->
        Float.gtb (cleaned_cell (cell_at row p)) Float.zero = false ->
        forall r, In r (cf_rows frame) -> cr_index r <> i).
Proof.
  destruct (clean_dataframe_rows P df entity_column amount_columns frame
              ltac:(lia) Hclean) as (e & pos & He & Hpos & _ & _ & _ & Hchar).
  exists e, pos. split; [exact He|]. split; [exact Hpos|]. split.
  - exact Hchar.
  - intros i row p Hrow Hp Hneg r Hr Hi. subst i.
    apply Hchar in Hr as (row' & Hrow' & _ & _ & _ & Hall & _).
    rewrite Hrow in Hrow'. inversion Hrow'; subst row'.
    rewrite (Hall p Hp) in Hneg. discriminate.
Qed.

(** The cleaning theorem at a table with two amount columns: only the
    first row has both amounts above zero. *)
Lemma clean_dataframe_needs_every_amount_positive_witness :
  ((2 <= length ["Pay"; "Bonus"])%nat /\
   clean_dataframe (plain_sums false) two_amount_table "Driver" ["Pay"; "Bonus"]
   = Ok two_amount_frame) /\
  exists e pos,
    position "Driver" (columns two_amount_table) = Some e /\
    Forall2 (fun c p => position c (columns two_amount_table) = Some p)
      ["Pay"; "Bonus"] pos /\
    (forall r, In r (cf_rows two_amount_frame)
               <-> retained_from (plain_sums false) two_amount_table e pos r).
Proof.
  assert (Hrun : clean_dataframe (plain_sums false) two_amount_table "Driver"
                   ["Pay"; "Bonus"]
                 = Ok two_amount_frame).
  { reflexivity. }
  split; [split; [simpl; lia|exact Hrun]|].
  destruct (clean_dataframe_needs_every_amount_positive (plain_sums false)
              two_amount_table
              "Driver" ["Pay"; "Bonus"] two_amount_frame
              (le_n 2) Hrun) as (e & pos & H1 & H2 & H3 & _).
  exists e, pos. auto.
Defined.

(** ** Filling a dictionary in a loop *)

Lemma find_app {A : Type} (p : A -> bool) (l1 l2 : list A) :
  find p (l1 ++ l2)%list
  = match find p l1 with Some x => Some x | None => find p l2 end.
Proof.
  induction l1 as [|x t IH]; simpl; [reflexivity|].
  now destruct (p x).
Qed.

(** After [for x in l: d[kf x] = vf x] the entry under [n] comes from the
    last [x] whose key is [n], and is the old entry when there is none. *)
Lemma get_fold_set {A V : Type} (kf : A -> string) (vf : A -> V)
    (l : list A) (d : PyDict.t V) (n : string) :
  PyDict.get (fold_left (fun acc x => PyDict.set acc (kf x) (vf x)) l d) n
  = match find (fun x => String.eqb (kf x) n) (rev l) with
    | Some x => Some (vf x)
    | None => PyDict.get d n
    end.
Proof.
  revert d. induction l as [|x t IH]; intro d; simpl; [reflexivity|].
  rewrite IH, find_app. simpl.
  destruct (find _ (rev t)); [reflexivity|].
  destruct (String.eqb_spec (kf x) n) as [<-|E].
  - apply get_set_eq.
  - now apply get_set_ne.
Qed.

Lemma find_rev_some {A : Type} (p : A -> bool) (l : list A) (x : A) :
  find p (rev l) = Some x -> In x l /\ p x = true.
Proof.
  intro H. apply find_some in H as [Hin Hp]. split; [|assumption].
  now apply in_rev.
Qed.

Lemma find_rev_none {A : Type} (p : A -> bool) (l : list A) :
  find p (rev l) = None -> forall x, In x l -> p x = false.
Proof.
  intros H x Hin. apply (find_none _ _ H). now apply -> in_rev.
Qed.

Lemma find_rev_exists {A : Type} (p : A -> bool) (l : list A) (x : A) :
  In x l -> p x = true -> exists y, find p (rev l) = Some y.
Proof.
  intros Hin Hp. destruct (find p (rev l)) as [y|] eqn:E; [eauto|].
  rewrite (find_rev_none _ _ E x Hin) in Hp. discriminate.
Qed.

(** ** Reconciliation with the configuration *)

Lemma name_of_calculate (entity : string) (total : pyfloat)
    (category : AnalysisCategory) (config : option Config) :
  name_of (_calculate_earnings entity total category config)
  = filed_as config entity.
Proof.
  unfold name_of. now rewrite entity_name_calculate.
Qed.

Lemma total_of_calculate (entity : string) (total : pyfloat)
    (category : AnalysisCategory) (config : option Config) :
  total_amount (_calculate_earnings entity total category config) = total.
Proof.
  unfold _calculate_earnings. now destruct (calculation_method category).
Qed.

Lemma filed_as_lower (config : option Config) (entity : string) :
  Str.lower (filed_as config entity) = Str.lower entity.
Proof.
  unfold filed_as.
  destruct (find_config entity (items_of config)) as [[k v]|] eqn:E;
    [|reflexivity].
  apply find_config_first in E as (_ & _ & _ & H & _). now symmetry.
Qed.

Lemma filed_as_unmatched (config : option Config) (entity : string) :
  no_match entity (items_of config) -> filed_as config entity = entity.
Proof.
  intro H. apply find_config_none in H. unfold filed_as. now rewrite H.
Qed.

Lemma get_add_entities (category : AnalysisCategory) (config : option Config)
    (totals : list (string * pyfloat)) (d : PyDict.t Earnings) (n : string) :
  PyDict.get (add_entities category config totals d) n
  = match find (fun et => String.eqb (filed_as config (fst et)) n) (rev totals) with
    | Some et => Some (_calculate_earnings (fst et) (snd et) category config)
    | None => PyDict.get d n
    end.
Proof.
  unfold add_entities.
  rewrite (get_fold_set
             (fun et => name_of (_calculate_earnings (fst et) (snd et) category config))
             (fun et => _calculate_earnings (fst et) (snd et) category config)).
  assert (Hext : forall l,
    find (fun x => String.eqb
                     (name_of (_calculate_earnings (fst x) (snd x) category config)) n) l
    = find (fun et => String.eqb (filed_as config (fst et)) n) l).
  { induction l as [|x t IHl]; simpl; [reflexivity|].
    now rewrite name_of_calculate, IHl. }
  now rewrite Hext.
Qed.

(** Entries already present survive the pass over the configuration. *)
Lemma add_missing_keeps (items : PyDict.t EntityConfig)
    (d : PyDict.t Earnings) (n : string) (r : Earnings) :
  PyDict.get d n = Some r ->
  PyDict.get
    (fold_left (fun acc ce => if PyDict.mem acc (fst ce) then acc
                              else PyDict.set acc (fst ce) (zero_entry (snd ce)))
       items d) n = Some r.
Proof.
  revert d. induction items as [|[k s] rest IH]; intros d H; simpl; [assumption|].
  apply IH. unfold PyDict.mem.
  destruct (PyDict.get d k) eqn:E; [assumption|].
  rewrite get_set_ne; [assumption|]. intros ->. congruence.
Qed.

(** A configured name without an entry gets a zero entry. *)
Lemma add_missing_fills (items : PyDict.t EntityConfig)
    (d : PyDict.t Earnings) (n : string) :
  PyDict.get d n = None -> In n (PyDict.keys items) ->
  exists settings,
    In (n, settings) items /\
    PyDict.get
      (fold_left (fun acc ce => if PyDict.mem acc (fst ce) then acc
                                else PyDict.set acc (fst ce) (zero_entry (snd ce)))
         items d) n = Some (zero_entry settings).
Proof.
  revert d. induction items as [|[k s] rest IH]; intros d Hnone Hin; simpl.
  - destruct Hin.
  - destruct (string_dec k n) as [->|Hne].
    + exists s. split; [now left|]. apply add_missing_keeps.
      unfold PyDict.mem. cbn [fst snd]. rewrite Hnone. apply get_set_eq.
    + destruct Hin as [H|Hin]; [contradiction|].
      destruct (IH (if PyDict.mem d k then d
                    else PyDict.set d k (zero_entry s))) as (s' & Hs' & Hg).
      * destruct (PyDict.mem d k); [assumption|].
        now rewrite get_set_ne.
      * assumption.
      * exists s'. split; [now right|exact Hg].
Qed.

Lemma add_missing_absent (items : PyDict.t EntityConfig)
    (d : PyDict.t Earnings) (n : string) :
  PyDict.get d n = None -> ~ In n (PyDict.keys items) ->
  PyDict.get
    (fold_left (fun acc ce => if PyDict.mem acc (fst ce) then acc
                              else PyDict.set acc (fst ce) (zero_entry (snd ce)))
       items d) n = None.
Proof.
  revert d. induction items as [|[k s] rest IH]; intros d Hnone Hin; simpl;
    [assumption|].
  apply IH.
  - destruct (PyDict.mem d k); [assumption|].
    rewrite get_set_ne; [assumption|]. intros ->. apply Hin. now left.
  - intro H. apply Hin. now right.
Qed.

(** No aggregate row of the scope is filed under [c] when none equals [c]
    up to case. *)
Lemma nothing_filed_as (config : option Config)
    (totals : list (string * pyfloat)) (c : string) :
  (forall et, In et totals -> Str.lower (fst et) <> Str.lower c) ->
  find (fun et => String.eqb (filed_as config (fst et)) c) (rev totals) = None.
Proof.
  intro H.
  destruct (find _ (rev totals)) as [et|] eqn:E; [|reflexivity].
  apply find_rev_some in E as [Hin Hc]. apply String.eqb_eq in Hc.
  exfalso. apply (H et Hin). rewrite <- Hc. symmetry. apply filed_as_lower.
Qed.

(** Zero filling, for one scope. *)
Lemma scope_zero_fill (category : AnalysisCategory) (config : option Config)
    (totals : list (string * pyfloat)) (c : string) :
  In c (PyDict.keys (items_of config)) ->
  (forall et, In et totals -> Str.lower (fst et) <> Str.lower c) ->
  exists settings,
    In (c, settings) (items_of config) /\
    PyDict.get (scope_results category config totals) c
    = Some (zero_entry settings).
Proof.
  intros Hc Hnone. unfold scope_results, add_missing_config.
  apply add_missing_fills; [|assumption].
  rewrite get_add_entities, (nothing_filed_as config totals c Hnone).
  reflexivity.
Qed.

(** A data entity without configuration keeps its own entry. *)
Lemma scope_unmatched (category : AnalysisCategory) (config : option Config)
    (totals : list (string * pyfloat)) (e : string) (t : pyfloat) :
  NoDup (map fst totals) -> In (e, t) totals ->
  no_match e (items_of config) ->
  PyDict.get (scope_results category config totals) e
  = Some (_calculate_earnings e t category config).
Proof.
  intros Hnd Hin Hno. unfold scope_results, add_missing_config.
  apply add_missing_keeps. rewrite get_add_entities.
  destruct (find_rev_exists
              (fun et => String.eqb (filed_as config (fst et)) e) totals (e, t) Hin)
    as ([e' t'] & Hf).
  { cbn. rewrite (filed_as_unmatched _ _ Hno). apply String.eqb_refl. }
  rewrite Hf. apply find_rev_some in Hf as [Hin' He']. cbn in He'.
  apply String.eqb_eq in He'.
  assert (e' = e).
  { unfold filed_as in He'.
    destruct (find_config e' (items_of config)) as [[k v]|] eqn:E;
      [|assumption].
    subst k. apply find_config_first in E as (pre & post & Hi & Hl & _).
    exfalso. apply (Hno e); [|reflexivity].
    rewrite Hi. unfold PyDict.keys. rewrite map_app. apply in_or_app.
    right. now left. }
  subst e'. cbn [fst snd]. f_equal. f_equal.
  clear - Hnd Hin Hin'. induction totals as [|[k v] rest IH]; [destruct Hin|].
  simpl in Hnd. inversion Hnd as [|? ? Hk Hrest]; subst.
  destruct Hin as [H|H], Hin' as [H'|H'].
  - congruence.
  - inversion H; subst. exfalso. apply Hk.
    change e with (fst (e, t')). now apply in_map.
  - inversion H'; subst. exfalso. apply Hk.
    change e with (fst (e, t)). now apply in_map.
  - now apply IH.
Qed.

(** ** Grouped sums *)

Lemma NoDup_filter {A : Type} (p : A -> bool) (l : list A) :
  NoDup l -> NoDup (filter p l).
Proof.
  induction 1 as [|x t Hx Hnd IH]; simpl; [constructor|].
  destruct (p x); [|assumption].
  constructor; [|assumption]. intro H. apply filter_In in H. tauto.
Qed.

Section UniqueFacts.
Context {K : Type}.
Variable eqb : K -> K -> bool.
Hypothesis eqb_eq : forall a b, eqb a b = true <-> a = b.

Lemma in_unique (l : list K) (x : K) : In x (unique eqb l) <-> In x l.
Proof.
  induction l as [|y t IH]; simpl; [tauto|].
  rewrite filter_In, IH. split.
  - intros [H|[H _]]; auto.
  - intros [H|H]; [now left|].
    destruct (eqb x y) eqn:E.
    + left. symmetry. now apply eqb_eq.
    + right. auto.
Qed.

Lemma NoDup_unique (l : list K) : NoDup (unique eqb l).
Proof.
  induction l as [|y t IH]; simpl; constructor.
  - intro H. apply filter_In in H as [_ H].
    assert (E : eqb y y = true) by now apply eqb_eq.
    rewrite E in H. discriminate.
  - now apply NoDup_filter.
Qed.

End UniqueFacts.

Section GroupByFacts.
Variable P : Pandas.
Context {R K : Type}.
Variable eqb : K -> K -> bool.
Variable leb : K -> K -> bool.
Variable key : R -> K.
Variable val : R -> pyfloat.
Hypothesis eqb_eq : forall a b, eqb a b = true <-> a = b.

Lemma insert_sorted_perm (k : K) (l : list K) :
  Permutation (insert_sorted leb k l) (k :: l).
Proof.
  induction l as [|x t IH]; simpl; [reflexivity|].
  destruct (leb k x); [reflexivity|].
  rewrite IH. apply perm_swap.
Qed.

Lemma sort_keys_perm (l : list K) : Permutation (sort_keys leb l) l.
Proof.
  induction l as [|x t IH]; simpl; [reflexivity|].
  rewrite insert_sorted_perm. now constructor.
Qed.

Lemma in_groupby_sum (rs : list R) (k : K) (v : pyfloat) :
  In (k, v) (groupby_sum P eqb leb key val rs)
  <-> In k (map key rs) /\ v = group_sum P eqb key val rs k.
Proof.
  unfold groupby_sum. rewrite in_map_iff. split.
  - intros (k' & H & Hin). inversion H; subst. split; [|reflexivity].
    apply (in_unique eqb eqb_eq). eapply Permutation_in; [apply sort_keys_perm|eassumption].
  - intros [Hin ->]. exists k. split; [reflexivity|].
    eapply Permutation_in; [symmetry; apply sort_keys_perm|].
    now apply (in_unique eqb eqb_eq).
Qed.

Lemma NoDup_groupby_sum (rs : list R) :
  NoDup (map fst (groupby_sum P eqb leb key val rs)).
Proof.
  unfold groupby_sum. rewrite map_map. cbn [fst]. rewrite map_id.
  eapply Permutation_NoDup; [symmetry; apply sort_keys_perm|].
  apply (NoDup_unique eqb eqb_eq).
Qed.

End GroupByFacts.

Lemma pair_eqb_eq (a b : string * string) : pair_eqb a b = true <-> a = b.
Proof.
  destruct a as [a1 a2], b as [b1 b2]. unfold pair_eqb. cbn.
  rewrite andb_true_iff, !String.eqb_eq. split.
  - now intros [-> ->].
  - intro H. now inversion H.
Qed.

Lemma in_weekly_sums (P : Pandas) (rs : list GroupRow) (w e : string) (t : pyfloat) :
  In (mkGroupRow w e t) (weekly_sums P rs)
  <-> (exists r, In r rs /\ g_week r = w /\ g_entity r = e)
      /\ t = week_entity_sum P rs w e.
Proof.
  unfold weekly_sums. rewrite in_map_iff. split.
  - intros ([[w' e'] t'] & H & Hin). cbn in H. inversion H; subst.
    apply (in_groupby_sum _ _ _ _ _ pair_eqb_eq) in Hin as [Hk ->].
    split; [|reflexivity].
    apply in_map_iff in Hk as (r & Hr & Hin). inversion Hr. eauto.
  - intros [(r & Hin & <- & <-) ->].
    exists ((g_week r, g_entity r), week_entity_sum P rs (g_week r) (g_entity r)).
    split; [reflexivity|].
    apply (in_groupby_sum _ _ _ _ _ pair_eqb_eq). split; [|reflexivity].
    now apply in_map with (f := fun r => (g_week r, g_entity r)).
Qed.

Lemma in_week_totals (P : Pandas) (rs : list GroupRow) (w e : string) (t : pyfloat) :
  In (e, t) (week_totals P rs w)
  <-> (exists r, In r rs /\ g_week r = w /\ g_entity r = e)
      /\ t = week_entity_sum P rs w e.
Proof.
  unfold week_totals. rewrite in_map_iff. split.
  - intros ([w' e' t'] & H & Hin). cbn in H. inversion H; subst.
    apply filter_In in Hin as [Hin Hw]. cbn in Hw.
    apply String.eqb_eq in Hw. subst w'. now apply in_weekly_sums.
  - intro H. exists (mkGroupRow w e t). split; [reflexivity|].
    apply filter_In. split; [now apply in_weekly_sums|].
    cbn. apply String.eqb_refl.
Qed.

Lemma NoDup_map_inj {A B : Type} (f : A -> B) (l : list A) :
  (forall x y, In x l -> In y l -> f x = f y -> x = y) ->
  NoDup l -> NoDup (map f l).
Proof.
  intros Hinj Hnd. induction Hnd as [|x t Hx Hnd IH]; simpl; constructor.
  - intro H. apply in_map_iff in H as (y & Hy & Hin).
    assert (y = x) by (apply Hinj; simpl; auto). now subst.
  - apply IH. intros a b Ha Hb. apply Hinj; simpl; auto.
Qed.

Lemma NoDup_map_back {A B : Type} (f : A -> B) (l : list A) :
  NoDup (map f l) -> NoDup l.
Proof.
  induction l as [|x t IH]; simpl; intro H; constructor;
    inversion H as [|? ? Hx Ht]; subst.
  - intro Hin. apply Hx. now apply in_map.
  - auto.
Qed.

Lemma NoDup_weekly_sums (P : Pandas) (rs : list GroupRow) : NoDup (weekly_sums P rs).
Proof.
  unfold weekly_sums. apply NoDup_map_inj.
  - intros [[a b] c] [[a' b'] c'] _ _ H. now inversion H.
  - eapply NoDup_map_back. apply (NoDup_groupby_sum _ _ _ _ _ pair_eqb_eq).
Qed.

Lemma NoDup_week_totals (P : Pandas) (rs : list GroupRow) (w : string) :
  NoDup (map fst (week_totals P rs w)).
Proof.
  unfold week_totals. rewrite map_map. cbn [fst].
  apply NoDup_map_inj.
  - intros [w1 e1 t1] [w2 e2 t2] H1 H2 He. cbn in He. subst e2.
    apply filter_In in H1 as [H1 Hw1], H2 as [H2 Hw2]. cbn in Hw1, Hw2.
    apply String.eqb_eq in Hw1, Hw2. subst w1 w2.
    apply in_weekly_sums in H1 as [_ ->], H2 as [_ ->]. reflexivity.
  - apply NoDup_filter, NoDup_weekly_sums.
Qed.

Lemma in_entity_sums (P : Pandas) (rs : list GroupRow) (e : string) (t : pyfloat) :
  In (e, t) (entity_sums P rs)
  <-> (exists r, In r rs /\ g_entity r = e) /\ t = entity_sum P rs e.
Proof.
  unfold entity_sums. rewrite (in_groupby_sum _ _ _ _ _ String.eqb_eq).
  rewrite in_map_iff. unfold entity_sum. split.
  - intros [(r & <- & Hin) ->]. eauto.
  - intros [(r & Hin & <-) ->]. eauto.
Qed.

Lemma NoDup_entity_sums (P : Pandas) (rs : list GroupRow) : NoDup (map fst (entity_sums P rs)).
Proof. apply (NoDup_groupby_sum _ _ _ _ _ String.eqb_eq). Qed.

(** The weeks that get a dictionary are the weeks of the rows. *)
Lemma in_weeks (P : Pandas) (rs : list GroupRow) (w : string) :
  In w (unique String.eqb (map g_week (weekly_sums P rs)))
  <-> exists r, In r rs /\ g_week r = w.
Proof.
  rewrite (in_unique _ String.eqb_eq), in_map_iff. split.
  - intros ([w' e t] & <- & Hin). apply in_weekly_sums in Hin as [(r & H) _].
    exists r. cbn. tauto.
  - intros (r & Hin & <-).
    exists (mkGroupRow (g_week r) (g_entity r)
              (week_entity_sum P rs (g_week r) (g_entity r))).
    split; [reflexivity|]. apply in_weekly_sums. eauto.
Qed.

(** The dictionary of a week, as the loop over the weeks leaves it. *)
Lemma get_week_dict {V : Type} (f : string -> V) (ws : list string) (w : string) :
  PyDict.get (fold_left (fun acc week => PyDict.set acc week (f week)) ws []) w
  = if string_in w ws then Some (f w) else None.
Proof.
  rewrite (get_fold_set (fun week => week) f).
  destruct (string_in w ws) eqn:E.
  - apply string_in_In in E.
    destruct (find_rev_exists (fun x => String.eqb x w) ws w E
                (String.eqb_refl w)) as (y & Hy).
    rewrite Hy. apply find_rev_some in Hy as [_ Hy].
    apply String.eqb_eq in Hy. now subst.
  - destruct (find _ (rev ws)) as [y|] eqn:Ef; [|reflexivity].
    apply find_rev_some in Ef as [Hin Hy]. apply String.eqb_eq in Hy. subst y.
    apply string_in_In in Hin. congruence.
Qed.

(** ** Finite totals *)
Lemma position_bound (label : string) (l : list string) (p : nat) :
  position label l = Some p -> (p < length l)%nat.
Proof.
  revert p. induction l as [|x t IH]; simpl; intros p H; [discriminate|].
  destruct (String.eqb x label).
  - inversion H. lia.
  - destruct (position label t) as [q|]; [|discriminate].
    inversion H. specialize (IH q eq_refl). lia.
Qed.

(** ** What the views return *)

Lemma in_present (rs : list CleanRow) (r : CleanRow) :
  In r (present rs) <-> In r rs /\ exists entity, cr_entity r = Some entity.
Proof.
  unfold present. rewrite filter_In.
  destruct (cr_entity r) as [s | ]; split; intros [H G]; split; eauto;
    try discriminate.
  now destruct G.
Qed.

Lemma grouped_view_ok (df : CleanFrame) (category : AnalysisCategory)
    (rs : list GroupRow) :
  grouped_view df category = Ok rs ->
  exists p,
    (p < length (cf_amount_columns df))%nat /\
    rs = map (group_row p) (present (cf_rows df)) /\
    all_text (cf_rows df) = true.
Proof.
  unfold grouped_view.
  destruct (amount_columns category) as [|amount_col rest]; [discriminate|].
  destruct (missing_in _ _); [|discriminate].
  destruct (negb (string_in amount_col (cf_columns df))); [discriminate|].
  destruct (position amount_col (cf_amount_columns df)) as [p|] eqn:Ep;
    [|discriminate].
  destruct (week_only _ && _ && _ && all_text (cf_rows df)) eqn:E;
    [|discriminate].
  apply andb_prop in E as [_ Et].
  intro H. inversion H. exists p.
  split; [now apply position_bound in Ep|]. split; [reflexivity|assumption].
Qed.

Lemma in_cf_columns (df : CleanFrame) (label : string) :
  In label (cf_columns df)
  <-> label = cf_entity_column df \/ In label (cf_amount_columns df)
      \/ (cf_has_week df = true /\ label = "Week").
Proof.
  unfold cf_columns. cbn [In]. rewrite in_app_iff.
  destruct (cf_has_week df); cbn [In]; intuition congruence.
Qed.

(** The view without grouping exists as soon as the frame has the entity
    column and the first amount column of the category. *)
Lemma ungrouped_view_total (df : CleanFrame) (category : AnalysisCategory)
    (amount_col : string) (others : list string) :
  entity_column category = cf_entity_column df ->
  amount_columns category = amount_col :: others ->
  In amount_col (cf_amount_columns df) ->
  exists p, ungrouped_view df category
            = Ok (map (group_row p) (present (cf_rows df))).
Proof.
  intros He Ha Hin. unfold ungrouped_view. rewrite Ha, He.
  assert (H1 : string_in (cf_entity_column df) (cf_columns df) = true).
  { apply string_in_In, in_cf_columns. now left. }
  assert (H2 : string_in amount_col (cf_columns df) = true).
  { apply string_in_In, in_cf_columns. right. now left. }
  rewrite H1, H2. cbn [negb].
  apply position_Some_In in Hin as [p Hp]. rewrite Hp, String.eqb_refl.
  now exists p.
Qed.

(** The view by week exists when, besides, the category groups by the
    week and the frame has its week column back, with text in it. *)
Lemma grouped_view_total (df : CleanFrame) (category : AnalysisCategory)
    (amount_col : string) (others : list string) :
  entity_column category = cf_entity_column df ->
  amount_columns category = amount_col :: others ->
  In amount_col (cf_amount_columns df) ->
  grouping_columns category = ["Week"] ->
  cf_has_week df = true ->
  all_text (cf_rows df) = true ->
  exists p, grouped_view df category
            = Ok (map (group_row p) (present (cf_rows df))).
Proof.
  intros He Ha Hin Hg Hw Ht. unfold grouped_view. rewrite Ha, He, Hg.
  assert (H0 : string_in "Week" (cf_columns df) = true).
  { apply string_in_In, in_cf_columns. right. right. now split. }
  assert (H1 : string_in (cf_entity_column df) (cf_columns df) = true).
  { apply string_in_In, in_cf_columns. now left. }
  assert (H2 : string_in amount_col (cf_columns df) = true).
  { apply string_in_In, in_cf_columns. right. now left. }
  unfold missing_in. cbn [app filter]. rewrite H0, H1, H2. cbn [negb].
  apply position_Some_In in Hin as [p Hp].
  rewrite Hp, Hw, Ht, String.eqb_refl. now exists p.
Qed.

(** ** Reconciliation *)

(** A total taken at rate 0: nothing for a finite total, NaN otherwise. *)
Lemma zero_percent_earnings (total : pyfloat) :
  Float.div_pos (Float.mul total Float.zero) 100
  = if Float.is_finite total then Float.zero else NaN.
Proof.
  destruct total as [m e | | | ]; try reflexivity.
  unfold Float.mul, Float.zero, Float.of_dyadic. rewrite Z.mul_0_r.
  reflexivity.
Qed.

Lemma unmatched_entry (e : string) (total : pyfloat)
    (category : AnalysisCategory) (config : option Config) :
  no_match e (items_of config) ->
  zero_rate_entry category (_calculate_earnings e total category config).
Proof.
  intro H. apply find_config_none in H.
  unfold zero_rate_entry, _calculate_earnings.
  rewrite H. cbn [option_map].
  destruct (calculation_method category);
    cbn [percentage flat_rate earnings total_amount];
    repeat split; try discriminate; try congruence.
  apply zero_percent_earnings.
Qed.

(** Both halves for one scope, given the totals the scope is built from. *)
Lemma scope_reconciled (category : AnalysisCategory) (config : option Config)
    (in_this_scope : string -> Prop) (totals : list (string * pyfloat)) :
  NoDup (map fst totals) ->
  (forall et, In et totals -> in_this_scope (fst et)) ->
  (forall entity, in_this_scope entity -> exists t, In (entity, t) totals) ->
  (forall c,
      In c (PyDict.keys (items_of config)) ->
      (forall entity, in_this_scope entity -> Str.lower entity <> Str.lower c) ->
      exists er, PyDict.get (scope_results category config totals) c = Some er
                 /\ total_amount er = Float.zero
                 /\ earnings er = Float.zero)
  /\
  (forall entity,
      in_this_scope entity ->
      no_match entity (items_of config) ->
      exists er,
        PyDict.get (scope_results category config totals) entity = Some er
        /\ zero_rate_entry category er).
Proof.
  intros Hnd Hback Hfwd. split.
  - intros c Hc Hnone.
    destruct (scope_zero_fill category config totals c Hc) as (s & _ & Hg).
    + intros et Het. apply Hnone, Hback, Het.
    + exists (zero_entry s). now rewrite Hg.
  - intros entity Hr Hno. destruct (Hfwd entity Hr) as (t & Ht).
    exists (_calculate_earnings entity t category config).
    split; [now apply scope_unmatched|].
    now apply unmatched_entry.
Qed.

Lemma week_label_of_row (df : CleanFrame) (p : nat) (r : CleanRow) (w : string) :
  all_text (cf_rows df) = true -> In r (cf_rows df) ->
  (g_week (group_row p r) = w <-> cr_week r = CText w).
Proof.
  intros Ht Hr. unfold all_text in Ht. rewrite forallb_forall in Ht.
  specialize (Ht r Hr). cbn. destruct (cr_week r); cbn in *; try discriminate.
  split; congruence.
Qed.

(** The entities of the grouped rows are the entities of the frame. *)
Lemma group_rows_entities (df : CleanFrame) (p : nat) (entity : string) :
  (exists g, In g (map (group_row p) (present (cf_rows df)))
             /\ g_entity g = entity)
  <-> in_scope df None entity.
Proof.
  unfold in_scope. split.
  - intros (g & Hg & He). apply in_map_iff in Hg as (r & <- & Hr).
    apply in_present in Hr as [Hr (s & Hs)]. exists r.
    cbn [group_row g_entity] in He. rewrite Hs in He. subst s. auto.
  - intros (r & Hr & He & _). exists (group_row p r). split.
    + apply in_map, in_present. eauto.
    + cbn [group_row g_entity]. now rewrite He.
Qed.

Lemma group_rows_week_entities (df : CleanFrame) (p : nat) (w entity : string) :
  all_text (cf_rows df) = true ->
  (exists g, In g (map (group_row p) (present (cf_rows df)))
             /\ g_week g = w /\ g_entity g = entity)
  <-> in_scope df (Some w) entity.
Proof.
  intro Ht. unfold in_scope. split.
  - intros (g & Hg & Hw & He). apply in_map_iff in Hg as (r & <- & Hr).
    apply in_present in Hr as [Hr (s & Hs)]. exists r.
    cbn [group_row g_entity] in He. rewrite Hs in He. subst s.
    repeat split; try assumption. now apply (week_label_of_row df p).
  - intros (r & Hr & He & Hw). exists (group_row p r). repeat split.
    + apply in_map, in_present. eauto.
    + now apply (week_label_of_row df p).
    + cbn [group_row g_entity]. now rewrite He.
Qed.

(** The overall scope of a result built from the grouped rows. *)
Lemma overall_reconciled (P : Pandas) (df : CleanFrame) (p : nat)
    (category : AnalysisCategory) (config : option Config) :
  let totals := entity_sums P (map (group_row p) (present (cf_rows df))) in
  (forall c,
      In c (PyDict.keys (items_of config)) ->
      (forall entity, in_scope df None entity ->
                      Str.lower entity <> Str.lower c) ->
      exists er, PyDict.get (scope_results category config totals) c = Some er
                 /\ total_amount er = Float.zero
                 /\ earnings er = Float.zero)
  /\
  (forall entity,
      in_scope df None entity ->
      no_match entity (items_of config) ->
      exists er,
        PyDict.get (scope_results category config totals) entity = Some er
        /\ zero_rate_entry category er).
Proof.
  cbv zeta. apply scope_reconciled.
  - apply NoDup_entity_sums.
  - intros [e t] Het. apply in_entity_sums in Het as [Hg _].
    now apply (group_rows_entities df p).
  - intros entity Hin. eexists. apply in_entity_sums. split; [ | reflexivity].
    now apply (group_rows_entities df p).
Qed.

(** C5.  Both functions return on a frame that has the entity column and
    the first amount column of the category (and, for the one that groups
    by week, the week column with text in it), and in every scope of what
    they return (each week with a row, and the overall scope; the overall
    scope alone without grouping) a configured entity that no data entity
    of the scope equals up to case is present with total 0 and earnings
    0; and a data entity of the scope that no configuration key equals up
    to case is present under its own name, every rate its entry reports
    is 0 and, under the percentage method, the rate is reported as 0 and
    the earnings are the total times 0 over 100: 0 for a finite total,
    NaN for an infinite one (flat rate: rate 0 and earnings 0; sum only:
    rate 0 and earnings equal to the total; custom: no rate and earnings
    0).  The calculation never fails for want of a configuration entry. *)
Theorem reconciliation_is_outer_join (P : Pandas) (df : CleanFrame)
    (category : AnalysisCategory) (config : option Config)
    (amount_col : string) (others : list string)
    (Hentity : entity_column category = cf_entity_column df)
    (Hamounts : amount_columns category = amount_col :: others)
    (Hamount : In amount_col (cf_amount_columns df)) :
  (exists res,
      _process_without_grouping P df category config = Ok res
      /\ weeks res = None
      /\ reconciled category config df res)
  /\ (grouping_columns category = ["Week"] ->
      cf_has_week df = true ->
      all_text (cf_rows df) = true ->
      exists res,
        _process_with_grouping P df category config = Ok res
        /\ reconciled category config df res
        /\ forall w entity, in_scope df (Some w) entity ->
             exists d, scope_dict res (Some w) d).
Proof.
  split.
  - destruct (ungrouped_view_total df category amount_col others
                Hentity Hamounts Hamount) as (p & Hv).
    unfold _process_without_grouping. rewrite Hv. cbn [bind].
    eexists. split; [reflexivity | ]. split; [reflexivity | ].
    intros [w | ] d Hd.
    + destruct Hd as (wd & Hwd & _). discriminate.
    + cbn in Hd. subst d. apply overall_reconciled.
  - intros Hg Hw Ht.
    destruct (grouped_view_total df category amount_col others
                Hentity Hamounts Hamount Hg Hw Ht) as (p & Hv).
    unfold _process_with_grouping. rewrite Hv. cbn [bind].
    set (rs := map (group_row p) (present (cf_rows df))).
    assert (Hweekdict : forall w,
      PyDict.get
        (fold_left
           (fun acc week =>
              PyDict.set acc week
                (scope_results category config
                   (map (fun r => (g_entity r, g_amount r))
                      (filter (fun r => String.eqb (g_week r) week)
                         (weekly_sums P rs)))))
           (unique String.eqb (map g_week (weekly_sums P rs))) []) w
      = if string_in w (unique String.eqb (map g_week (weekly_sums P rs)))
        then Some (scope_results category config (week_totals P rs w))
        else None).
    { intro w. apply (get_week_dict
                        (fun week => scope_results category config
                                       (week_totals P rs week))). }
    eexists. split; [reflexivity | ]. split.
    + intros [w|] d Hd.
      * destruct Hd as (wd & Hwd & Hget). cbn in Hwd. inversion Hwd; subst wd.
        rewrite Hweekdict in Hget.
        destruct (string_in w _); [|discriminate]. inversion Hget; subst d.
        apply (scope_reconciled category config (in_scope df (Some w))).
        -- apply NoDup_week_totals.
        -- intros [e t] Het. apply in_week_totals in Het as [Hin _].
           now apply (group_rows_week_entities df p).
        -- intros entity Hin. eexists. apply in_week_totals.
           split; [ | reflexivity].
           now apply (group_rows_week_entities df p).
      * cbn in Hd. subst d. apply overall_reconciled.
    + intros w entity Hin. unfold scope_dict. cbn [weeks].
      exists (scope_results category config (week_totals P rs w)).
      eexists. split; [reflexivity|]. rewrite Hweekdict.
      assert (Hin' : In w (unique String.eqb (map g_week (weekly_sums P rs)))).
      { apply in_weeks.
        apply (group_rows_week_entities df p w entity Ht) in Hin
          as (g & Hg' & Hw' & _).
        now exists g. }
      apply string_in_In in Hin'. rewrite Hin'. reflexivity.
Qed.

(** The reconciliation theorem at a frame where Ali is configured but
    idle before week 2 and Bob has no configuration, with and without
    grouping. *)
Lemma reconciliation_is_outer_join_witness :
  (entity_column week_category = cf_entity_column reconcile_frame
   /\ amount_columns week_category = ["Amount"]
   /\ In "Amount" (cf_amount_columns reconcile_frame))
  /\ _process_without_grouping (plain_sums false) reconcile_frame
       week_category ali_config = Ok reconcile_overall
  /\ reconciled week_category ali_config reconcile_frame reconcile_overall
  /\ _process_with_grouping (plain_sums false) reconcile_frame
       week_category ali_config = Ok reconcile_results
  /\ reconciled week_category ali_config reconcile_frame reconcile_results.
Proof.
  split; [repeat split; now left | ].
  destruct (reconciliation_is_outer_join (plain_sums false) reconcile_frame
              week_category ali_config "Amount" [] eq_refl eq_refl
              (or_introl eq_refl))
    as [(res1 & Hrun1 & _ & Hrec1) Hweek].
  destruct (Hweek eq_refl eq_refl eq_refl) as (res2 & Hrun2 & Hrec2 & _).
  assert (E1 : _process_without_grouping (plain_sums false) reconcile_frame
                 week_category ali_config = Ok reconcile_overall)
    by reflexivity.
  assert (E2 : _process_with_grouping (plain_sums false) reconcile_frame
                 week_category ali_config = Ok reconcile_results)
    by reflexivity.
  rewrite E1 in Hrun1. injection Hrun1 as <-.
  rewrite E2 in Hrun2. injection Hrun2 as <-.
  split; [exact E1 | split; [exact Hrec1 | split; [exact E2 | exact Hrec2]]].
Defined.

(** C5 as written fails for an amount beyond the largest float: the
    total of Bob, who has no configuration, is an infinity, and an
    infinity times the rate 0 is NaN, not 0. *)
Lemma unconfigured_total_beyond_range :
  clean_dataframe (plain_sums false) overflow_table "Dispatch" ["Amount"]
  = Ok overflow_frame
  /\ _process_without_grouping (plain_sums false) overflow_frame
       dispatcher_category ali_config = Ok overflow_results
  /\ ~ unconfigured_earn_nothing ali_config overflow_frame overflow_results.
Proof.
  split; [vm_compute; reflexivity | ].
  split; [vm_compute; reflexivity | ].
  intro H.
  destruct (H None (overall overflow_results) "Bob" eq_refl)
    as (er & Hget & _ & Hzero).
  - exists (mkCleanRow 0 (Some "Bob") [Inf] CNaN).
    split; [now left | now split].
  - intros k [<- | []]. discriminate.
  - vm_compute in Hget. injection Hget as <-. discriminate Hzero.
Qed.

(** ** The caller's table *)

Lemma read_write_same (h : heap) (r : ref) (df : DataFrame) :
  read (write h r df) r = df.
Proof. unfold read, write. cbn. now rewrite Nat.eqb_refl. Qed.

Lemma read_write_other (h : heap) (r r' : ref) (df : DataFrame) :
  r' <> r -> read (write h r df) r' = read h r'.
Proof.
  intro H. unfold read, write. cbn.
  apply Nat.eqb_neq in H. now rewrite H.
Qed.

(** The week detection leaves every table that existed before untouched:
    it writes to the copy only. *)
Lemma detect_weeks_frame (h : heap) (df : ref) (category : AnalysisCategory)
    (r : ref) :
  (r < next_ref h)%nat ->
  read (d_heap (detect_weeks h df category)) r = read h r.
Proof.
  intro Hr. unfold detect_weeks.
  destruct (find_broker_column _) as [b|]; [|reflexivity].
  destruct (nonempty _); [|reflexivity].
  unfold copy.
  destruct (detect_week_markers _ b); cbn [d_heap];
    rewrite ?read_write_other by lia; reflexivity.
Qed.

(** C9 as written fails: a header with a stray blank is rewritten in the
    caller's table, which is then neither the table handed in nor that
    table with a [Week] column. *)
Lemma process_category_renames_columns :
  ~ unchanged_but_for_week (read padded_heap O)
      (table_after (plain_sums false) padded_heap O week_category ali_config).
Proof.
  intros [H|(vs & _ & H)].
  - apply (f_equal columns) in H. vm_compute in H. discriminate H.
  - apply (f_equal columns) in H. vm_compute in H. discriminate H.
Qed.

(** C9, amended.  [process_category] changes the caller's table in one
    way only: every column label is replaced by its trimmed form.  Rows
    and cells stay as they were, a table whose labels are already trimmed
    is left exactly as it was, and no [Week] column is added to it: the
    derived column goes to a private copy.  Every other table in the store
    is untouched. *)
Theorem process_category_frame (P : Pandas) (h : heap) (df : ref)
    (category : AnalysisCategory) (config : option Config)
    (Hlive : (df < next_ref h)%nat) :
  table_after P h df category config = trimmed (read h df)
  /\ rows (table_after P h df category config) = rows (read h df)
  /\ (map Str.strip (columns (read h df)) = columns (read h df) ->
      table_after P h df category config = read h df)
  /\ (forall r, (r < next_ref h)%nat -> r <> df ->
        read (fst (fst (process_category P h df category config))) r
        = read h r).
Proof.
  assert (Hdf : table_after P h df category config = trimmed (read h df)).
  { unfold table_after, process_category. cbn [fst].
    rewrite detect_weeks_frame by exact Hlive.
    apply read_write_same. }
  repeat split.
  - exact Hdf.
  - now rewrite Hdf.
  - intro Hs. rewrite Hdf. unfold trimmed, set_columns. rewrite Hs.
    now destruct (read h df).
  - intros r Hr Hne. unfold process_category. cbn [fst].
    rewrite detect_weeks_frame by exact Hr.
    now apply read_write_other.
Qed.

(** The frame theorem at the sheet with padded headers. *)
Lemma process_category_frame_witness :
  (O < next_ref padded_heap)%nat /\
  table_after (plain_sums false) padded_heap O week_category ali_config
  = trimmed (read padded_heap O).
Proof.
  split; [unfold padded_heap; simpl; lia|].
  exact (proj1 (process_category_frame (plain_sums false) padded_heap O
                  week_category ali_config (le_n 1))).
Defined.

(** ** The pipelines on concrete sheets *)

(** Runs a pipeline on a closed sheet: everything is evaluated but the
    sums of the groups and the arithmetic on them; the sums, all exact
    here, are then the sums from left to right. *)
Ltac run_pipeline P :=
  cbv - [group_total Float.mul Float.div_pos];
  repeat rewrite (group_total_exact P) by (vm_compute; reflexivity);
  vm_compute; reflexivity.

(** C1.  On the four-row table with Ali configured at 10 percent, both
    pipelines give the period Before Week 1 with Ali at total 500 and
    earnings 50, the period Week 2 with Ali at total 300 and earnings 30,
    and overall Ali at total 800 and earnings 80.  Ali is the only key of
    every period and of the overall scope: neither Sara's negative row nor
    the row without a dispatcher shows up anywhere. *)
Theorem end_to_end_scenario (P : Pandas) :
  snd (process_category P scenario_heap O week_category ali_config)
  = Ok (scenario_results (Some "Ali"))
  /\ process_excel_file P (Workbook scenario_table) [("Ali", Float.of_Z 10)]
     = Ok (scenario_results None)
  /\ (forall entity d,
        In d (overall (scenario_results entity)
              :: period_dicts (scenario_results entity)) ->
        PyDict.keys d = ["Ali"]
        /\ PyDict.get d "Sara" = None /\ PyDict.get d "" = None).
Proof.
  split; [|split].
  - run_pipeline P.
  - run_pipeline P.
  - intros entity d [<-|[<-|[<-|[]]]]; repeat split.
Qed.

(** C4 (divergence).  On a sheet that spells one dispatcher ALI before
    week 2 and ali in week 2, with Ali configured, both spellings are
    filed under Ali and the later one replaces the earlier: the overall
    total of Ali is 200, while the weeks hold 100 and 200, which add up
    to 300.  Both pipelines do this. *)
Theorem overall_total_drops_a_spelling (P : Pandas) :
  snd (process_category P two_spellings_heap O week_category ali_config)
  = Ok (two_spellings_results (Some "Ali"))
  /\ process_excel_file P (Workbook two_spellings_table)
       [("Ali", Float.of_Z 10)]
     = Ok (two_spellings_results None)
  /\ (forall entity,
        entry_total (overall (two_spellings_results entity)) "Ali"
        = Float.of_Z 200
        /\ weeks_total (two_spellings_results entity) "Ali" = Float.of_Z 300
        /\ ~ sum_invariant (two_spellings_results entity)).
Proof.
  split; [|split].
  - run_pipeline P.
  - run_pipeline P.
  - intro entity. split; [reflexivity|]. split; [vm_compute; reflexivity|].
    intro H. specialize (H "Ali" (or_introl eq_refl)).
    vm_compute in H. discriminate H.
Qed.

(** ** Filing under a name *)

Lemma set_fresh {V : Type} (d : PyDict.t V) (k : string) (v : V) :
  ~ In k (PyDict.keys d) -> PyDict.set d k v = (d ++ [(k, v)])%list.
Proof.
  induction d as [|[k' v'] rest IH]; simpl; intro H; [reflexivity|].
  destruct (String.eqb_spec k' k) as [->|Hne].
  - exfalso. apply H. now left.
  - rewrite IH; [reflexivity|]. intro Hin. apply H. now right.
Qed.

(* ================================================================== *)
(** ** The configuration store *)

Lemma mem_get {V : Type} (d : PyDict.t V) (k : string) :
  PyDict.mem d k = true <-> PyDict.get d k <> None.
Proof.
  unfold PyDict.mem. destruct (PyDict.get d k); split; congruence.
Qed.

Lemma mem_keys {V : Type} (d : PyDict.t V) (k : string) :
  PyDict.mem d k = true <-> In k (PyDict.keys d).
Proof.
  rewrite mem_get. pose proof (get_none_keys d k) as H.
  destruct (PyDict.get d k); split; intro G; try congruence.
  - destruct (in_dec string_dec k (PyDict.keys d)) as [i | n]; [exact i | ].
    apply H in n. discriminate.
  - exfalso. apply (proj1 H eq_refl), G.
Qed.

Lemma get_del_eq {V : Type} (d : PyDict.t V) (k : string) :
  PyDict.get (del_key d k) k = None.
Proof.
  induction d as [ | [k' v] d IH]; [reflexivity | ].
  unfold del_key in *. cbn [filter fst].
  destruct (String.eqb k' k) eqn:E; cbn [negb]; [exact IH | ].
  cbn [PyDict.get]. rewrite E. exact IH.
Qed.

Lemma get_del_ne {V : Type} (d : PyDict.t V) (k k' : string) :
  k <> k' -> PyDict.get (del_key d k) k' = PyDict.get d k'.
Proof.
  intro N. induction d as [ | [k0 v] d IH]; [reflexivity | ].
  unfold del_key in *. cbn [filter fst].
  destruct (String.eqb k0 k) eqn:E; cbn [negb PyDict.get].
  - apply String.eqb_eq in E. subst k0.
    destruct (String.eqb k k') eqn:E'; [ | exact IH].
    apply String.eqb_eq in E'. contradiction.
  - destruct (String.eqb k0 k'); [reflexivity | exact IH].
Qed.

Lemma keys_del {V : Type} (d : PyDict.t V) (k : string) :
  PyDict.keys (del_key d k)
  = filter (fun k' => negb (String.eqb k' k)) (PyDict.keys d).
Proof.
  unfold PyDict.keys, del_key.
  induction d as [ | [k0 v] d IH]; [reflexivity | ].
  cbn [filter map fst]. destruct (String.eqb k0 k); cbn [negb map fst];
    now rewrite IH.
Qed.

Lemma del_absent {V : Type} (d : PyDict.t V) (k : string) :
  ~ In k (PyDict.keys d) -> del_key d k = d.
Proof.
  unfold del_key, PyDict.keys.
  induction d as [ | [k0 v] d IH]; [reflexivity | ].
  cbn [map fst In filter]. intro N.
  destruct (String.eqb k0 k) eqn:E.
  - apply String.eqb_eq in E. exfalso. apply N. now left.
  - cbn [negb]. f_equal. apply IH. intro i. apply N. now right.
Qed.

Lemma keys_set {V : Type} (d : PyDict.t V) (k : string) (v : V) :
  PyDict.keys (PyDict.set d k v)
  = if PyDict.mem d k then PyDict.keys d else (PyDict.keys d ++ [k])%list.
Proof.
  unfold PyDict.keys, PyDict.mem.
  induction d as [ | [k0 v0] d IH]; [reflexivity | ].
  cbn [PyDict.set PyDict.get map fst].
  destruct (String.eqb k0 k); [reflexivity | ].
  cbn [map fst]. rewrite IH.
  destruct (PyDict.get d k); reflexivity.
Qed.

Lemma NoDup_keys_set {V : Type} (d : PyDict.t V) (k : string) (v : V) :
  NoDup (PyDict.keys d) -> NoDup (PyDict.keys (PyDict.set d k v)).
Proof.
  intro H. rewrite keys_set. destruct (PyDict.mem d k) eqn:E; [exact H | ].
  assert (N : ~ In k (PyDict.keys d)).
  { intro i. apply mem_keys in i. congruence. }
  clear E. induction (PyDict.keys d) as [ | x l IH].
  - constructor; [intros [] | constructor].
  - inversion H as [ | ? ? Hx Hl]; subst. cbn [app]. constructor.
    + rewrite in_app_iff. intros [i | [e | []]]; [now apply Hx | ].
      apply N. left. now symmetry.
    + apply IH; [exact Hl | ]. intro i. apply N. now right.
Qed.

(** X1.  [set_category_config] followed by [get_category_config]: a
    category whose id is the one written reads the configuration just
    stored, every other category reads what it read before, and the file
    holds the configuration that is in memory. *)
Theorem set_then_get_category_config (self : ConfigManager)
    (category other : AnalysisCategory) (cfg : PyDict.t pyval) :
  get_category_config (set_category_config self category cfg) other
  = (if String.eqb (get_category_id category) (get_category_id other)
     then Some cfg else get_category_config self other)
  /\ on_disk (set_category_config self category cfg)
     = Some (config (set_category_config self category cfg))
  /\ config_file (set_category_config self category cfg) = config_file self.
Proof.
  unfold get_category_config, set_category_config, save_config.
  cbn [config on_disk config_file]. repeat split.
  destruct (String.eqb (get_category_id category) (get_category_id other)) eqn:E.
  - apply String.eqb_eq in E. rewrite <- E. apply get_set_eq.
  - apply String.eqb_neq in E. now apply get_set_ne.
Qed.

(** X2.  [delete_category_config]: afterwards the category has no
    configuration and is not reported as configured, every category with
    another id reads what it read before, and deleting twice is deleting
    once.  When the category had no entry nothing happens at all, the file
    is not even written; when it had one, the file holds the new state. *)
Theorem delete_category_config_removes (self : ConfigManager)
    (category : AnalysisCategory) :
  let after := delete_category_config self category in
  get_category_config after category = None
  /\ has_category_config after category = false
  /\ (forall other,
        get_category_id other <> get_category_id category ->
        get_category_config after other = get_category_config self other)
  /\ (get_category_config self category = None -> after = self)
  /\ (get_category_config self category <> None ->
      on_disk after = Some (config after))
  /\ delete_category_config after category = after.
Proof.
  cbv zeta.
  assert (G : get_category_config (delete_category_config self category) category
              = None).
  { unfold delete_category_config, get_category_config, save_config.
    destruct (PyDict.mem (config self) (get_category_id category)) eqn:E;
      cbn [config].
    - apply get_del_eq.
    - unfold PyDict.mem in E.
      now destruct (PyDict.get (config self) (get_category_id category)). }
  split; [exact G | ].
  split; [unfold has_category_config; unfold get_category_config in G;
          now rewrite G | ].
  split; [ | split; [ | split]].
  - intros other N.
    unfold delete_category_config, get_category_config, save_config.
    destruct (PyDict.mem (config self) (get_category_id category));
      cbn [config]; [ | reflexivity].
    apply get_del_ne. congruence.
  - unfold get_category_config, delete_category_config, PyDict.mem.
    now intros ->.
  - unfold get_category_config, delete_category_config, PyDict.mem.
    destruct (PyDict.get (config self) (get_category_id category));
      [reflexivity | congruence].
  - unfold get_category_config in G.
    unfold delete_category_config at 1. unfold PyDict.mem. now rewrite G.
Qed.

(** X3.  A configuration that [validate_and_save] accepts for a
    dispatcher or driver category is afterwards the one
    [get_category_config] returns, [has_category_config] reports it, and
    the bot no longer asks for it.  For a broker category, which accepts
    every configuration, [has_category_config] is true only when the saved
    configuration is not empty. *)
Theorem accepted_config_is_reported (self : ConfigManager)
    (category : AnalysisCategory) (cfg : PyDict.t pyval)
    (Haccepted : snd (validate_and_save self category cfg) = Ok true) :
  let after := fst (validate_and_save self category cfg) in
  get_category_config after category = Some cfg
  /\ has_category_config after category
     = match cat_class category with
       | BrokerClass => nonempty cfg
       | DispatcherClass | DriverClass => true
       end
  /\ (cat_class category <> BrokerClass -> asks_for_config after category = false).
Proof.
  cbv zeta. unfold validate_and_save in *.
  destruct (validate_config category cfg) as [[ | ] | e | ] eqn:V;
    cbn [negb fst snd] in *; try discriminate.
  assert (G : get_category_config (set_category_config self category cfg) category
              = Some cfg).
  { unfold get_category_config, set_category_config, save_config. cbn [config].
    apply get_set_eq. }
  assert (N : cat_class category <> BrokerClass -> nonempty cfg = true).
  { unfold validate_config, dispatcher_validate_config, driver_validate_config in V.
    destruct (cat_class category); [ | | congruence]; intros _;
      now destruct (nonempty cfg). }
  assert (H : has_category_config (set_category_config self category cfg) category
              = nonempty cfg).
  { unfold has_category_config. unfold get_category_config in G. now rewrite G. }
  split; [exact G | ]. split.
  - rewrite H. destruct (cat_class category); try reflexivity;
      apply N; discriminate.
  - intro B. unfold asks_for_config. rewrite H, (N B).
    apply andb_false_r.
Qed.

Lemma accepted_config_is_reported_witness :
  snd (validate_and_save fresh_manager dispatcher_category
         [("Ali", percentage_settings (VNum (Float.of_Z 10)))]) = Ok true
  /\ has_category_config
       (fst (validate_and_save fresh_manager dispatcher_category
               [("Ali", percentage_settings (VNum (Float.of_Z 10)))]))
       dispatcher_category = true.
Proof.
  split; [reflexivity | ].
  exact (proj1 (proj2 (accepted_config_is_reported fresh_manager
                         dispatcher_category
                         [("Ali", percentage_settings (VNum (Float.of_Z 10)))]
                         eq_refl))).
Defined.

(** X4.  The list of configured ids: [set_category_config] leaves it as it
    is when the id is already there and puts a new id last, so no id is
    ever listed twice; [delete_category_config] takes out exactly the id
    of the category. *)
Theorem get_all_categories_after_update (self : ConfigManager)
    (category : AnalysisCategory) (cfg : PyDict.t pyval) :
  get_all_categories (set_category_config self category cfg)
  = (if PyDict.mem (config self) (get_category_id category)
     then get_all_categories self
     else (get_all_categories self ++ [get_category_id category])%list)
  /\ (NoDup (get_all_categories self) ->
      NoDup (get_all_categories (set_category_config self category cfg)))
  /\ get_all_categories (delete_category_config self category)
     = filter (fun id => negb (String.eqb id (get_category_id category)))
         (get_all_categories self).
Proof.
  unfold get_all_categories, set_category_config, save_config. cbn [config].
  split; [apply keys_set | ]. split; [apply NoDup_keys_set | ].
  unfold delete_category_config, save_config.
  destruct (PyDict.mem (config self) (get_category_id category)) eqn:E;
    cbn [config]; [apply keys_del | ].
  rewrite <- keys_del. symmetry. f_equal. apply del_absent.
  intro i. apply mem_keys in i. congruence.
Qed.

(** ** Migration of the old configuration file *)

Lemma fold_set_pairs_fresh {A V : Type} (g : A -> V) (l : list (string * A))
    (d : PyDict.t V) :
  NoDup (map fst l) -> (forall k, In k (map fst l) -> ~ In k (PyDict.keys d)) ->
  fold_left (fun acc dp => PyDict.set acc (fst dp) (g (snd dp))) l d
  = (d ++ map (fun dp => (fst dp, g (snd dp))) l)%list.
Proof.
  revert d. induction l as [ | [k a] l IH]; intros d Hn Hd.
  - cbn. now rewrite app_nil_r.
  - cbn [fold_left map fst snd] in *. inversion Hn as [ | ? ? Hk Hl]; subst.
    rewrite set_fresh by (apply Hd; now left).
    rewrite IH; [now rewrite <- app_assoc | exact Hl | ].
    intros k' i. unfold PyDict.keys. rewrite map_app, in_app_iff.
    intros [j | [e | []]].
    + apply (Hd k'); [now right | exact j].
    + cbn in e. subst k'. contradiction.
Qed.

Lemma set_nonempty {V : Type} (d : PyDict.t V) (k : string) (v : V) :
  PyDict.set d k v <> [].
Proof.
  destruct d as [ | [k' v'] d]; cbn; [discriminate | ].
  destruct (String.eqb k' k); discriminate.
Qed.

Lemma migrate_entries_nonempty (d : list (string * pyval)) :
  nonempty (migrate_entries d) = nonempty d.
Proof.
  unfold migrate_entries.
  destruct d as [ | dp d] using rev_ind; [reflexivity | ].
  rewrite fold_left_app. cbn [fold_left].
  match goal with |- nonempty (PyDict.set ?a ?b ?c) = _ =>
    pose proof (set_nonempty a b c) as H; destruct (PyDict.set a b c) end;
    [congruence | ].
  now destruct d.
Qed.

(** X5.  [migrate_legacy_config] on a JSON object: the converted entries
    are stored, in memory and in the file, under the id that every
    [DispatcherAnalysis] looks up, whatever that id held before; the
    category is reported as configured exactly when the old file listed a
    dispatcher; categories with another id are not touched.  A missing
    file, a file that is not JSON, and a JSON document that is not an
    object leave the manager as it was. *)
Theorem migrate_legacy_config_lands (self : ConfigManager)
    (legacy_config : list (string * pyval))
    (entity_column : string) (amount_columns : list string)
    (grouping_columns : option (list string)) :
  let dispatcher :=
    DispatcherAnalysis entity_column amount_columns grouping_columns in
  let after := migrate_legacy_config self (Json (VDict legacy_config)) in
  get_category_config after dispatcher = Some (migrate_entries legacy_config)
  /\ on_disk after = Some (config after)
  /\ has_category_config after dispatcher = nonempty legacy_config
  /\ (forall other,
        get_category_id other <> get_category_id dispatcher ->
        get_category_config after other = get_category_config self other)
  /\ migrate_legacy_config self NoSuchFile = self
  /\ migrate_legacy_config self NotJson = self
  /\ (forall document,
        (forall d, document <> VDict d) ->
        migrate_legacy_config self (Json document) = self).
Proof.
  cbv zeta.
  assert (G : get_category_config
                (migrate_legacy_config self (Json (VDict legacy_config)))
                (DispatcherAnalysis entity_column amount_columns grouping_columns)
              = Some (migrate_entries legacy_config)).
  { unfold get_category_config, migrate_legacy_config, save_config.
    cbn [config]. apply get_set_eq. }
  split; [exact G | ]. split; [reflexivity | ]. split.
  { unfold has_category_config. unfold get_category_config in G. rewrite G.
    apply migrate_entries_nonempty. }
  split.
  { intros other N.
    unfold get_category_config, migrate_legacy_config, save_config.
    cbn [config]. apply get_set_ne. intro E. apply N. now rewrite <- E. }
  split; [reflexivity | ]. split; [reflexivity | ].
  intros document N. destruct document as [ | b | z | x | s | l | d]; try reflexivity.
  now elim (N d).
Qed.

Lemma percentage_entry_ok (p : pyval) :
  dispatcher_entry_ok (VDict [("type", VStr "percentage"); ("value", p)])
  = Ok true
  <-> exists x, py_float p = Ok x
                /\ Float.ltb x Float.zero = false
                /\ Float.gtb x (Float.of_Z 100) = false.
Proof.
  rewrite dispatcher_entry_ok_iff. split.
  - intros (d & v & x & E & _ & Hv & Hf & Hl & Hg).
    injection E as <-. cbn in Hv. injection Hv as <-. now exists x.
  - intros (x & Hf & Hl & Hg).
    exists [("type", VStr "percentage"); ("value", p)], p, x.
    repeat split; try assumption. now exists (VStr "percentage").
Qed.

(** X6.  What the migration stores, for an old file with one entry per
    dispatcher: one percentage record per dispatcher, in the order of the
    file, holding the old value as it is.  The migration does not validate:
    the stored configuration is one that [DispatcherAnalysis.validate_config]
    accepts exactly when the old file lists a dispatcher and every old
    value converts to a float that is neither below 0 nor above 100. *)
Theorem migrated_config_validity (legacy_config : list (string * pyval))
    (Hkeys : NoDup (map fst legacy_config)) :
  migrate_entries legacy_config
  = map (fun dp => (fst dp, VDict [("type", VStr "percentage");
                                   ("value", snd dp)])) legacy_config
  /\ (dispatcher_validate_config (migrate_entries legacy_config) = Ok true
      <-> legacy_config <> []
          /\ forall dispatcher percentage,
               In (dispatcher, percentage) legacy_config ->
               exists x, py_float percentage = Ok x
                         /\ Float.ltb x Float.zero = false
                         /\ Float.gtb x (Float.of_Z 100) = false).
Proof.
  assert (E : migrate_entries legacy_config
              = map (fun dp => (fst dp, VDict [("type", VStr "percentage");
                                               ("value", snd dp)])) legacy_config).
  { unfold migrate_entries.
    rewrite (fold_set_pairs_fresh
               (fun p => VDict [("type", VStr "percentage"); ("value", p)]));
      [reflexivity | exact Hkeys | intros k _ []]. }
  split; [exact E | ].
  rewrite dispatcher_validate_config_iff, E. split.
  - intros [N H]. split; [now destruct legacy_config | ].
    intros k p i. apply percentage_entry_ok. apply (H k).
    apply in_map_iff. now exists (k, p).
  - intros [N H]. split; [now destruct legacy_config | ].
    intros k s i. apply in_map_iff in i. destruct i as ([k' p] & e & i).
    injection e as <- <-. apply percentage_entry_ok. now apply (H k').
Qed.

Lemma migrated_config_validity_witness :
  NoDup (map fst [("Ali", VNum (Float.of_Z 150))])
  /\ migrate_entries [("Ali", VNum (Float.of_Z 150))]
     = [("Ali", VDict [("type", VStr "percentage");
                       ("value", VNum (Float.of_Z 150))])].
Proof.
  assert (H : NoDup (map fst [("Ali", VNum (Float.of_Z 150))])).
  { constructor; [intros [] | constructor]. }
  split; [exact H | ].
  exact (proj1 (migrated_config_validity [("Ali", VNum (Float.of_Z 150))] H)).
Defined.

(** ** Configuration typed as text *)

Lemma rstrip_idem (p : ascii -> bool) (s : string) :
  Str.rstrip_by p (Str.rstrip_by p s) = Str.rstrip_by p s.
Proof.
  induction s as [ | c t IH]; [reflexivity | ].
  cbn [Str.rstrip_by]. destruct (Str.rstrip_by p t) as [ | a b] eqn:E.
  - destruct (p c) eqn:Pc; [reflexivity | ].
    cbn [Str.rstrip_by]. now rewrite Pc.
  - cbn [Str.rstrip_by] in *. now rewrite IH.
Qed.

Lemma rstrip_head (p : ascii -> bool) (c : ascii) (t : string) :
  p c = false -> exists t', Str.rstrip_by p (String c t) = String c t'.
Proof.
  intro Pc. cbn [Str.rstrip_by]. destruct (Str.rstrip_by p t) as [ | a b].
  - rewrite Pc. now exists EmptyString.
  - now exists (String a b).
Qed.

Lemma lstrip_cases (p : ascii -> bool) (s : string) :
  Str.lstrip_by p s = EmptyString
  \/ exists c t, Str.lstrip_by p s = String c t /\ p c = false.
Proof.
  induction s as [ | c t IH]; [now left | ].
  cbn [Str.lstrip_by]. destruct (p c) eqn:Pc; [exact IH | ].
  right. now exists c, t.
Qed.

Lemma strip_idem (s : string) : Str.strip (Str.strip s) = Str.strip s.
Proof.
  unfold Str.strip.
  destruct (lstrip_cases Str.isspace s) as [E | (c & t & E & Pc)]; rewrite E.
  - reflexivity.
  - destruct (rstrip_head Str.isspace c t Pc) as [t' E'].
    rewrite E' at 1. cbn [Str.lstrip_by]. rewrite Pc, <- E'. apply rstrip_idem.
Qed.

Lemma in_set {V : Type} (d : PyDict.t V) (k k' : string) (v v' : V) :
  In (k', v') (PyDict.set d k v) -> (k' = k /\ v' = v) \/ In (k', v') d.
Proof.
  induction d as [ | [k0 v0] d IH]; cbn [PyDict.set In].
  - intros [e | []]. left. now injection e as <- <-.
  - destruct (String.eqb k0 k) eqn:E; cbn [In].
    + apply String.eqb_eq in E. subst k0. intros [e | i]; [ | now right; right].
      left. now injection e as <- <-.
    + intros [e | i]; [now right; left | ].
      destruct (IH i) as [l | r]; [now left | now right; right].
Qed.

Lemma fold_left_ext {A B : Type} (f g : A -> B -> A) (l : list B) (a : A) :
  (forall x y, f x y = g x y) -> fold_left f l a = fold_left g l a.
Proof.
  intro H. revert a. induction l as [ | b l IH]; intro a; [reflexivity | ].
  cbn [fold_left]. now rewrite H, IH.
Qed.

Lemma fold_left_invariant {A B : Type} (P : A -> Prop) (f : A -> B -> A)
    (l : list B) (a : A) :
  P a -> (forall x y, In y l -> P x -> P (f x y)) -> P (fold_left f l a).
Proof.
  revert a. induction l as [ | b l IH]; intros a Ha H; [exact Ha | ].
  cbn [fold_left]. apply IH.
  - apply H; [now left | exact Ha].
  - intros x y i. apply H. now right.
Qed.

(** One turn of the loop of [parse_config_from_text], with the two parts
    of the line named. *)
Lemma parse_config_from_text_lines (text : string) (category : AnalysisCategory) :
  parse_config_from_text text category
  = fold_left
      (fun config line =>
         if negb (Str.contains ":" line) then config
         else
           match Float.of_string (value_text line) with
           | Some value =>
               PyDict.set config (Str.strip (fst (split_first ":" line)))
                 (VDict [("type", VStr (method_type (calculation_method category)));
                         ("value", VNum value)])
           | None => config
           end)
      (config_lines text) [].
Proof.
  unfold parse_config_from_text, config_lines. apply fold_left_ext.
  intros config line. unfold value_text.
  destruct (split_first ":" line) as [n v]. reflexivity.
Qed.

Lemma parsed_entries_are_records (text : string)
    (category : AnalysisCategory) (entity : string) (settings : pyval) :
  In (entity, settings) (parse_config_from_text text category) ->
  exists value,
    settings
    = VDict [("type", VStr (method_type (calculation_method category)));
             ("value", VNum value)].
Proof.
  rewrite parse_config_from_text_lines. revert entity settings.
  apply (fold_left_invariant
           (fun parsed : PyDict.t pyval =>
              forall entity settings,
                In (entity, settings) parsed ->
                exists value,
                  settings
                  = VDict [("type", VStr (method_type
                                            (calculation_method category)));
                           ("value", VNum value)])).
  - intros ? ? [].
  - intros config line _ H.
    destruct (Str.contains ":" line); cbn [negb]; [ | exact H].
    destruct (Float.of_string (value_text line)) as [value | ]; [ | exact H].
    intros entity settings i. apply in_set in i.
    destruct i as [[_ ->] | i]; [now exists value | now apply (H entity)].
Qed.

(** X7.  What [parse_config_from_text] returns: no entity is listed twice;
    every entity name is trimmed; every entry is a record whose type is
    the one of the category's calculation method and whose value is a
    float; and every entry stems from a line of the text that has a colon,
    with the name before the first colon and a value that [float] reads
    once the symbols are dropped. *)
Theorem parse_config_from_text_entries (text : string)
    (category : AnalysisCategory) :
  let parsed := parse_config_from_text text category in
  NoDup (PyDict.keys parsed)
  /\ forall entity settings,
       In (entity, settings) parsed ->
       Str.strip entity = entity
       /\ exists value line,
            settings
            = VDict [("type", VStr (method_type (calculation_method category)));
                     ("value", VNum value)]
            /\ In line (config_lines text)
            /\ Str.contains ":" line = true
            /\ entity = Str.strip (fst (split_first ":" line))
            /\ Float.of_string (value_text line) = Some value.
Proof.
  cbv zeta. rewrite parse_config_from_text_lines.
  apply (fold_left_invariant
           (fun parsed : PyDict.t pyval =>
              NoDup (PyDict.keys parsed)
              /\ forall entity settings,
                   In (entity, settings) parsed ->
                   Str.strip entity = entity
                   /\ exists value line,
                        settings
                        = VDict [("type", VStr (method_type
                                                  (calculation_method category)));
                                 ("value", VNum value)]
                        /\ In line (config_lines text)
                        /\ Str.contains ":" line = true
                        /\ entity = Str.strip (fst (split_first ":" line))
                        /\ Float.of_string (value_text line) = Some value)).
  - split; [constructor | intros ? ? []].
  - intros config line Hline [Hnd Hentries].
    destruct (Str.contains ":" line) eqn:C; cbn [negb]; [ | now split].
    destruct (Float.of_string (value_text line)) as [value | ] eqn:F;
      [ | now split].
    split; [now apply NoDup_keys_set | ].
    intros entity settings i. apply in_set in i.
    destruct i as [[-> ->] | i]; [ | now apply Hentries].
    split; [apply strip_idem | ]. now exists value, line.
Qed.

Lemma prefix_colon (s : string) :
  prefix ":" s = match s with
                 | String c _ => Ascii.eqb c ":"
                 | EmptyString => false
                 end.
Proof.
  destruct s as [ | c t]; [reflexivity | ].
  cbn [prefix]. destruct (ascii_dec ":" c) as [<- | N];
    [rewrite Ascii.eqb_refl; now destruct t | ].
  symmetry. apply Ascii.eqb_neq. congruence.
Qed.

Lemma contains_colon (s : string) :
  Str.contains ":" s = negb (Str.forallb (fun c => negb (Ascii.eqb c ":")) s).
Proof.
  induction s as [ | c t IH]; [reflexivity | ].
  cbn [Str.contains Str.forallb]. rewrite prefix_colon, IH.
  now destruct (Ascii.eqb c ":").
Qed.

Lemma split_on_forallb (q : ascii -> bool) (sep : ascii) (s : string) :
  Str.forallb q s = true ->
  forall line, In line (split_on sep s) -> Str.forallb q line = true.
Proof.
  induction s as [ | c t IH]; cbn [split_on Str.forallb].
  - intros _ line [<- | []]. reflexivity.
  - intro H. apply andb_prop in H. destruct H as [Qc Qt].
    specialize (IH Qt). destruct (Ascii.eqb c sep).
    + intros line [<- | i]; [reflexivity | now apply IH].
    + destruct (split_on sep t) as [ | h r].
      * intros line [<- | []]. cbn [Str.forallb]. now rewrite Qc.
      * intros line [<- | i].
        -- cbn [Str.forallb]. rewrite Qc. apply IH. now left.
        -- apply IH. now right.
Qed.

Lemma fold_left_fixed {A B : Type} (f : A -> B -> A) (l : list B) (a : A) :
  (forall y, In y l -> f a y = a) -> fold_left f l a = a.
Proof.
  induction l as [ | b l IH]; intro H; [reflexivity | ].
  cbn [fold_left]. rewrite H by now left. apply IH.
  intros y i. apply H. now right.
Qed.

(** X8.  When [parse_config_from_text] returns the empty dict, the case
    in which the bot answers that it could not parse the configuration:
    exactly when no line has both a colon and, after it, a value that
    [float] reads.  A text without any colon is one such case. *)
Theorem parse_config_from_text_empty (text : string)
    (category : AnalysisCategory) :
  (parse_config_from_text text category = []
   <-> forall line, In line (config_lines text) ->
         Str.contains ":" line = true ->
         Float.of_string (value_text line) = None)
  /\ (Str.contains ":" text = false -> parse_config_from_text text category = []).
Proof.
  assert (Hiff : parse_config_from_text text category = []
                 <-> forall line, In line (config_lines text) ->
                       Str.contains ":" line = true ->
                       Float.of_string (value_text line) = None).
  { rewrite parse_config_from_text_lines. split.
    - intros E line i C.
      destruct (Float.of_string (value_text line)) as [value | ] eqn:F;
        [exfalso | reflexivity].
      apply in_split in i. destruct i as (l1 & l2 & Hl). rewrite Hl in E.
      rewrite fold_left_app in E. cbn [fold_left] in E. rewrite C, F in E.
      cbn [negb] in E. revert E.
      apply (fold_left_invariant (fun d : PyDict.t pyval => d <> [])).
      + apply set_nonempty.
      + intros d y _ N. destruct (Str.contains ":" y); cbn [negb]; [ | exact N].
        destruct (Float.of_string (value_text y)); [apply set_nonempty | exact N].
    - intro H. apply fold_left_fixed. intros line i.
      destruct (Str.contains ":" line) eqn:C; cbn [negb]; [ | reflexivity].
      now rewrite (H line i C). }
  split; [exact Hiff | ].
  intro C. apply Hiff. intros line i Cl. exfalso.
  rewrite contains_colon in C, Cl.
  apply negb_false_iff in C. apply negb_true_iff in Cl.
  unfold config_lines, Str.strip in i.
  apply (split_on_forallb (fun c => negb (Ascii.eqb c ":"))) in i;
    [congruence | ].
  now apply rstrip_forallb, lstrip_forallb.
Qed.

Lemma validate_entries_ext (f g : pyval -> result bool)
    (items : list (string * pyval)) :
  (forall k settings, In (k, settings) items -> f settings = g settings) ->
  validate_entries f items = validate_entries g items.
Proof.
  induction items as [ | [k s] rest IH]; intro H; [reflexivity | ].
  cbn [validate_entries]. rewrite (H k s) by now left.
  destruct (g s) as [[ | ] | e | ]; cbn [bind]; try reflexivity.
  apply IH. intros k' s' i. apply (H k'). now right.
Qed.

Lemma percentage_record_ok (x : pyfloat) :
  dispatcher_entry_ok (VDict [("type", VStr "percentage"); ("value", VNum x)])
  = Ok (negb (Float.ltb x Float.zero || Float.gtb x (Float.of_Z 100)))
  /\ driver_entry_ok (VDict [("type", VStr "percentage"); ("value", VNum x)])
     = Ok (negb (Float.ltb x Float.zero || Float.gtb x (Float.of_Z 100))).
Proof.
  unfold dispatcher_entry_ok, driver_entry_ok.
  change (PyDict.get [("type", VStr "percentage"); ("value", VNum x)] "type")
    with (Some (VStr "percentage")).
  change (PyDict.get [("type", VStr "percentage"); ("value", VNum x)] "value")
    with (Some (VNum x)).
  change (is_str (VStr "percentage") "percentage") with true.
  cbn [negb orb andb py_float bind].
  now destruct (Float.ltb x Float.zero), (Float.gtb x (Float.of_Z 100)).
Qed.

(** X9.  A configuration typed as text for a driver category is parsed
    and judged exactly as for a dispatcher category: both categories
    calculate by percentage, so every typed value is filed as a
    percentage, and the driver validation accepts the parsed text exactly
    when it has an entry and no value is below 0 or above 100.  A flat
    rate above 100 can therefore not be typed in. *)
Theorem typed_driver_config_is_a_percentage (text : string)
    (entity_column entity_column' : string)
    (amount_columns amount_columns' : list string)
    (grouping_columns grouping_columns' : option (list string)) :
  let driver := DriverAnalysis entity_column amount_columns grouping_columns in
  let dispatcher :=
    DispatcherAnalysis entity_column' amount_columns' grouping_columns' in
  let parsed := parse_config_from_text text driver in
  parse_config_from_text text dispatcher = parsed
  /\ validate_config driver parsed = validate_config dispatcher parsed
  /\ (validate_config driver parsed = Ok true
      <-> parsed <> []
          /\ forall entity settings,
               In (entity, settings) parsed ->
               exists value,
                 settings = VDict [("type", VStr "percentage");
                                   ("value", VNum value)]
                 /\ Float.ltb value Float.zero = false
                 /\ Float.gtb value (Float.of_Z 100) = false).
Proof.
  cbv zeta.
  set (driver := DriverAnalysis entity_column amount_columns grouping_columns).
  assert (Hok : forall k s, In (k, s) (parse_config_from_text text driver) ->
            exists x, s = VDict [("type", VStr "percentage"); ("value", VNum x)]).
  { intros k s i. exact (parsed_entries_are_records text driver k s i). }
  set (parsed := parse_config_from_text text driver) in *.
  assert (Hsame : driver_validate_config parsed
                  = dispatcher_validate_config parsed).
  { unfold driver_validate_config, dispatcher_validate_config.
    destruct (nonempty parsed); [ | reflexivity]. cbn [negb].
    apply validate_entries_ext. intros k s i. destruct (Hok k s i) as [x ->].
    destruct (percentage_record_ok x) as [D R]. now rewrite D, R. }
  split; [reflexivity | ].
  change (validate_config driver parsed) with (driver_validate_config parsed).
  change (validate_config
            (DispatcherAnalysis entity_column' amount_columns' grouping_columns')
            parsed) with (dispatcher_validate_config parsed).
  split; [exact Hsame | ].
  rewrite Hsame, dispatcher_validate_config_iff. split.
  - intros [N H]. split; [exact N | ].
    intros k s i. specialize (H k s i).
    destruct (Hok k s i) as [x E]. subst s.
    exists x. split; [reflexivity | ].
    rewrite (proj1 (percentage_record_ok x)) in H. injection H as H.
    apply negb_true_iff, orb_false_iff in H. exact H.
  - intros [N H]. split; [exact N | ].
    intros k s i. destruct (H k s i) as (x & -> & L & G).
    rewrite (proj1 (percentage_record_ok x)). now rewrite L, G.
Qed.

(** ** Category ids and classes *)

Lemma id_char_fixed (c : ascii) :
  let d := if Ascii.eqb (Str.lower_char c) " " then "_"%char
           else Str.lower_char c in
  (if Ascii.eqb (Str.lower_char d) " " then "_"%char else Str.lower_char d) = d
  /\ Ascii.eqb d " " = false.
Proof.
  destruct c as [[] [] [] [] [] [] [] []]; split; reflexivity.
Qed.

Lemma category_id_fixed (s : string) :
  let id := Str.replace_char " " "_" (Str.lower s) in
  Str.replace_char " " "_" (Str.lower id) = id
  /\ Str.forallb (fun c => negb (Ascii.eqb c " ")) id = true
  /\ String.length id = String.length s.
Proof.
  cbv zeta. induction s as [ | c t (IH1 & IH2 & IH3)]; [now repeat split | ].
  cbn [Str.lower Str.replace_char Str.forallb String.length].
  destruct (id_char_fixed c) as [F N]. cbv zeta in F, N.
  rewrite IH1, IH2, IH3, F, N. now repeat split.
Qed.

(** X10.  The id under which a category's configuration is stored is in
    normal form: it has the length of the name, holds no blank, and is its
    own id (lower-casing it and replacing blanks changes nothing).  The id
    of a category built by one of the three classes depends on the class
    alone, and the three ids differ: a configuration saved for one
    dispatcher analysis is what every other dispatcher analysis reads,
    whatever its columns, and what a driver or broker analysis reads is
    not changed by it. *)
Theorem category_id_normal_form (category : AnalysisCategory)
    (self : ConfigManager) (cfg : PyDict.t pyval)
    (e e' : string) (a a' : list string) (g g' : option (list string)) :
  let id := get_category_id category in
  (Str.replace_char " " "_" (Str.lower id) = id
   /\ Str.forallb (fun c => negb (Ascii.eqb c " ")) id = true
   /\ String.length id = String.length (name category))
  /\ get_category_id (DispatcherAnalysis e a g)
     = get_category_id (DispatcherAnalysis e' a' g')
  /\ get_category_id (DriverAnalysis e a g)
     = get_category_id (DriverAnalysis e' a' g')
  /\ get_category_id (BrokerAnalysis e a g)
     = get_category_id (BrokerAnalysis e' a' g')
  /\ NoDup [get_category_id (DispatcherAnalysis e a g);
            get_category_id (DriverAnalysis e a g);
            get_category_id (BrokerAnalysis e a g)]
  /\ get_category_config
       (set_category_config self (DispatcherAnalysis e a g) cfg)
       (DispatcherAnalysis e' a' g') = Some cfg
  /\ get_category_config
       (set_category_config self (DispatcherAnalysis e a g) cfg)
       (DriverAnalysis e' a' g')
     = get_category_config self (DriverAnalysis e' a' g')
  /\ get_category_config
       (set_category_config self (DispatcherAnalysis e a g) cfg)
       (BrokerAnalysis e' a' g')
     = get_category_config self (BrokerAnalysis e' a' g').
Proof.
  cbv zeta. split; [apply category_id_fixed | ].
  split; [reflexivity | ]. split; [reflexivity | ]. split; [reflexivity | ].
  split.
  { repeat constructor; cbn; intuition discriminate. }
  unfold get_category_config, set_category_config, save_config. cbn [config].
  split; [apply get_set_eq | ].
  split; apply get_set_ne; discriminate.
Qed.

Lemma get_in {V : Type} (d : PyDict.t V) (k : string) (v : V) :
  PyDict.get d k = Some v -> In (k, v) d.
Proof.
  induction d as [ | [k' v'] d IH]; cbn [PyDict.get In]; [discriminate | ].
  destruct (String.eqb k' k) eqn:E; [ | now right; apply IH].
  apply String.eqb_eq in E. intro H. injection H as <-. now left; subst.
Qed.

(** X11.  [DriverAnalysis.validate_config] puts no upper bound on a flat
    rate: every float that is not below 0 passes, an infinity and NaN
    included, while a percentage above 100 is refused and so is a value
    below 0 of either type.  An integer value too large for a float makes
    the validation raise [OverflowError], which is not among the
    exceptions it catches: [validate_and_save] passes it on and leaves
    the manager as it was. *)
Theorem driver_validate_config_accepts (self : ConfigManager)
    (driver : string) (e : string) (a : list string)
    (g : option (list string)) :
  let flat_rate v := [(driver, VDict [("type", VStr "flat_rate"); ("value", v)])] in
  let percent v := [(driver, VDict [("type", VStr "percentage"); ("value", v)])] in
  (forall x, Float.ltb x Float.zero = false ->
     driver_validate_config (flat_rate (VNum x)) = Ok true)
  /\ driver_validate_config (flat_rate (VNum Inf)) = Ok true
  /\ driver_validate_config (flat_rate (VNum NaN)) = Ok true
  /\ (forall x, Float.gtb x (Float.of_Z 100) = true ->
        driver_validate_config (percent (VNum x)) = Ok false)
  /\ (forall x ty, Float.ltb x Float.zero = true ->
        driver_validate_config [(driver, VDict [("type", ty); ("value", VNum x)])]
        = Ok false)
  /\ driver_validate_config (flat_rate (VInt (10 ^ 400))) = Raise OverflowError
  /\ driver_validate_config (percent (VInt (10 ^ 400))) = Raise OverflowError
  /\ validate_and_save self (DriverAnalysis e a g) (flat_rate (VInt (10 ^ 400)))
     = (self, Raise OverflowError).
Proof.
  cbv zeta.
  assert (Hentry : forall ty x,
            driver_entry_ok (VDict [("type", ty); ("value", VNum x)])
            = if negb (is_str ty "percentage" || is_str ty "flat_rate")
              then Ok false
              else if Float.ltb x Float.zero then Ok false
              else if is_str ty "percentage"
                      && Float.gtb x (Float.of_Z 100)
              then Ok false else Ok true).
  { intros ty x. unfold driver_entry_ok.
    change (PyDict.get [("type", ty); ("value", VNum x)] "type") with (Some ty).
    change (PyDict.get [("type", ty); ("value", VNum x)] "value")
      with (Some (VNum x)).
    cbn [py_float bind].
    destruct (negb _); [reflexivity | ].
    destruct (Float.ltb x Float.zero); [reflexivity | ].
    now destruct (is_str ty "percentage" && _). }
  assert (Hone : forall ty x,
            driver_validate_config [(driver, VDict [("type", ty); ("value", VNum x)])]
            = driver_entry_ok (VDict [("type", ty); ("value", VNum x)])).
  { intros ty x. unfold driver_validate_config.
    cbn [nonempty negb validate_entries]. rewrite Hentry.
    destruct (negb _); [reflexivity | ].
    destruct (Float.ltb x Float.zero); [reflexivity | ].
    now destruct (is_str ty "percentage" && _). }
  split.
  { intros x L. rewrite Hone, Hentry, L. reflexivity. }
  split; [rewrite Hone, Hentry; reflexivity | ].
  split; [rewrite Hone, Hentry; reflexivity | ].
  split.
  { intros x G. rewrite Hone, Hentry, G.
    now destruct (Float.ltb x Float.zero). }
  split.
  { intros x ty L. rewrite Hone, Hentry, L. now destruct (negb _). }
  split; [vm_compute; reflexivity | ].
  split; [vm_compute; reflexivity | ].
  vm_compute. reflexivity.
Qed.


(** ** [process_category] on a category without grouping columns *)

Lemma process_category_ungrouped (P : Pandas) (h : heap) (df : ref)
    (category : AnalysisCategory) (config : option Config) :
  grouping_columns category = [] ->
  process_category P h df category config
  = (write h df (trimmed (read h df)), category,
     df_clean <- clean_dataframe P (trimmed (read h df))
                   (entity_column category) (amount_columns category) ;;
     _process_without_grouping P df_clean category config).
Proof.
  intro Hg. unfold process_category, detect_weeks. rewrite Hg.
  cbn [nonempty].
  destruct (find_broker_column
              (columns (read (write h df (set_columns (read h df)
                 (map Str.strip (columns (read h df))))) df)));
    cbn [d_heap d_df d_category d_outcome bind]; rewrite Hg; cbn [nonempty andb];
    rewrite read_write_same; reflexivity.
Qed.

Lemma ungrouped_result_has_no_weeks (P : Pandas) (h : heap) (df : ref)
    (category : AnalysisCategory) (config : option Config) (res : Results) :
  grouping_columns category = [] ->
  snd (process_category P h df category config) = Ok res -> weeks res = None.
Proof.
  intro Hg. rewrite (process_category_ungrouped P h df category config Hg).
  cbn [snd].
  destruct (clean_dataframe P (trimmed (read h df)) (entity_column category)
              (amount_columns category)) as [df_clean | e | ];
    cbn [bind]; try discriminate.
  unfold _process_without_grouping.
  destruct (ungrouped_view df_clean category); cbn [bind]; try discriminate.
  intro E. injection E as <-. reflexivity.
Qed.

Lemma in_stripped_fixed (c : string) (labels : list string) :
  In c (map Str.strip labels) -> Str.strip c = c.
Proof.
  intro i. apply in_map_iff in i. destruct i as (x & <- & _). apply strip_idem.
Qed.

(** X13.  The outcome of [process_category] on a category without
    grouping columns, for a table whose trimmed labels are distinct: it
    raises [KeyError], with the labels that are missing, exactly when the
    trimmed table lacks a label the category names; otherwise it raises
    [IndexError] when the category names no amount column, and returns a
    result when it names one.  The table is looked up by its trimmed
    labels and the category by its labels as they are: an entity or amount
    label with a blank at either end is therefore always missing, also
    when it is the very label the sheet had. *)
Theorem process_category_outcome (P : Pandas) (h : heap) (df : ref)
    (category : AnalysisCategory) (config : option Config)
    (Hungrouped : grouping_columns category = [])
    (Hlabels : distinct (map Str.strip (columns (read h df))) = true)
    (Hwanted : distinct (entity_column category :: amount_columns category) = true) :
  let wanted := entity_column category :: amount_columns category in
  let missing :=
    filter (fun l => negb (string_in l (map Str.strip (columns (read h df)))))
      wanted in
  (missing <> [] ->
   snd (process_category P h df category config) = Raise (KeyError missing))
  /\ (missing = [] -> amount_columns category = [] ->
      snd (process_category P h df category config) = Raise IndexError)
  /\ (missing = [] -> amount_columns category <> [] ->
      exists res, snd (process_category P h df category config) = Ok res)
  /\ (forall label, In label wanted -> Str.strip label <> label ->
        In label missing).
Proof.
  cbv zeta.
  rewrite (process_category_ungrouped P h df category config Hungrouped).
  cbn [snd]. rewrite clean_dataframe_cases. unfold trimmed.
  change (columns (set_columns (read h df)
                     (map Str.strip (columns (read h df)))))
    with (map Str.strip (columns (read h df))).
  rewrite Hlabels, Hwanted. cbn [negb orb].
  unfold missing_labels.
  change (columns (set_columns (read h df)
                     (map Str.strip (columns (read h df)))))
    with (map Str.strip (columns (read h df))).
  set (missing := filter _ (entity_column category :: amount_columns category)).
  assert (Hpos : missing = [] ->
            exists e, position (entity_column category)
                        (map Str.strip (columns (read h df))) = Some e).
  { intro E. apply position_Some_In.
    destruct (string_in (entity_column category)
                (map Str.strip (columns (read h df)))) eqn:S;
      [now apply string_in_In | exfalso].
    assert (i : In (entity_column category) missing).
    { apply filter_In. split; [now left | now rewrite S]. }
    rewrite E in i. destruct i. }
  split; [ | split; [ | split]].
  - intro N.
    destruct (position (entity_column category)
                (map Str.strip (columns (read h df)))) as [e | ];
      destruct missing; try reflexivity. congruence.
  - intros E A. destruct (Hpos E) as [e Pe]. rewrite Pe, E. cbn [bind].
    unfold _process_without_grouping, ungrouped_view. now rewrite A.
  - intros E A. destruct (Hpos E) as [e Pe]. rewrite Pe, E. cbn [bind].
    unfold _process_without_grouping, ungrouped_view.
    destruct (amount_columns category) as [ | amount_col rest]; [congruence | ].
    unfold cf_columns, string_in.
    cbn [cf_entity_column cf_amount_columns cf_has_week existsb app position].
    rewrite !String.eqb_refl, orb_true_r. cbn [negb orb bind].
    eexists. reflexivity.
  - intros label i N. apply filter_In. split; [exact i | ].
    apply negb_true_iff. destruct (string_in label _) eqn:S; [ | reflexivity].
    apply string_in_In, in_stripped_fixed in S. contradiction.
Qed.

Lemma process_category_outcome_witness :
  let category := DispatcherAnalysis " Dispatch" ["Amount "] None in
  (grouping_columns category = []
   /\ distinct (map Str.strip (columns (read padded_heap O))) = true
   /\ distinct (entity_column category :: amount_columns category) = true)
  /\ snd (process_category (plain_sums false) padded_heap O category ali_config)
     = Raise (KeyError [" Dispatch"; "Amount "]).
Proof.
  cbv zeta. split; [now repeat split | ].
  apply (proj1 (process_category_outcome (plain_sums false) padded_heap O
                  (DispatcherAnalysis " Dispatch" ["Amount "] None) ali_config
                  eq_refl eq_refl eq_refl)).
  discriminate.
Defined.

Lemma detect_weeks_amount_columns (h : heap) (df : ref)
    (category : AnalysisCategory) :
  amount_columns (d_category (detect_weeks h df category))
  = amount_columns category.
Proof.
  unfold detect_weeks.
  destruct (find_broker_column (columns (read h df))); [ | reflexivity].
  destruct (nonempty (grouping_columns category)); [ | reflexivity].
  destruct (copy h df) as [h' df'].
  destruct (detect_week_markers (read h' df') s); try reflexivity.
  cbn [d_category].
  now destruct (string_in "Week" (grouping_columns category)).
Qed.

Lemma no_amount_column_no_result (P : Pandas) (h : heap) (df : ref)
    (category : AnalysisCategory) (config : option Config) (res : Results) :
  amount_columns category = [] ->
  snd (process_category P h df category config) <> Ok res.
Proof.
  intro Hnone. unfold process_category. cbn [snd].
  set (h1 := write h df _).
  pose proof (detect_weeks_amount_columns h1 df category) as A.
  rewrite Hnone in A.
  destruct (d_outcome (detect_weeks h1 df category)); cbn [bind];
    try discriminate.
  destruct (clean_dataframe _ _ _ _) as [df_clean | e | ]; cbn [bind];
    try discriminate.
  destruct (nonempty (grouping_columns (d_category (detect_weeks h1 df category)))).
  - unfold _process_with_grouping, grouped_view. rewrite A. discriminate.
  - unfold _process_without_grouping, ungrouped_view. rewrite A. discriminate.
Qed.

(** ** The week detection of [process_category] *)

Lemma locate_distinct (label : string) (labels : list string) :
  distinct labels = true -> In label labels ->
  exists i, locate label labels = Single i.
Proof.
  induction labels as [ | x t IH]; intros D i; [destruct i | ].
  cbn [distinct] in D. apply andb_prop in D. destruct D as [N D].
  unfold locate in *. cbn [position].
  destruct (String.eqb x label) eqn:E.
  - apply String.eqb_eq in E. subst x. cbn [skipn].
    apply negb_true_iff in N. rewrite N. now exists O.
  - destruct i as [-> | i]; [now rewrite String.eqb_refl in E | ].
    destruct (IH D i) as [j Hj].
    destruct (position label t) as [k | ]; [ | discriminate].
    cbn [option_map]. change (skipn (S (S k)) (x :: t)) with (skipn (S k) t).
    destruct (string_in label (skipn (S k) t)); [discriminate | ].
    now exists (S k).
Qed.

Lemma locate_present (label : string) (labels : list string) :
  In label labels -> locate label labels <> Absent.
Proof.
  intro i. apply position_Some_In in i. destruct i as [n E].
  unfold locate. rewrite E. now destruct (string_in label _).
Qed.

Lemma find_broker_column_in (labels : list string) (b : string) :
  find_broker_column labels = Some b -> In b labels.
Proof. intro F. now apply find_some in F. Qed.

Lemma week_loop_repeated (broker_column current_week : string)
    (rs : list (list cell)) :
  week_loop Repeated broker_column current_week rs
  = match rs with
    | [] => Ok []
    | _ :: _ => Raise (ValueError ambiguous_truth_value)
    end.
Proof. now destruct rs. Qed.

Lemma week_loop_absent (broker_column current_week : string)
    (rs : list (list cell)) :
  week_loop Absent broker_column current_week rs
  = match rs with
    | [] => Ok []
    | _ :: _ => Raise (KeyError [broker_column])
    end.
Proof. now destruct rs. Qed.

Lemma with_grouping_same (category : AnalysisCategory) :
  with_grouping category (grouping_columns category) = category.
Proof. now destruct category. Qed.

(** What the week detection leaves, case by case. *)
Lemma detect_weeks_cases (h : heap) (df : ref) (category : AnalysisCategory) :
  let d := detect_weeks h df category in
  match find_broker_column (columns (read h df)),
        nonempty (grouping_columns category) with
  | Some broker_col, true =>
      if marker_raises (read h df) broker_col
      then d_outcome d = Raise (ValueError ambiguous_truth_value)
           /\ d_category d = category
      else exists week_list,
             detect_week_markers (read h df) broker_col = Ok week_list
             /\ d_outcome d = Ok tt
             /\ d_category d
                = (if string_in "Week" (grouping_columns category)
                   then category
                   else with_grouping category
                          (grouping_columns category ++ ["Week"])%list)
             /\ read (d_heap d) (d_df d)
                = set_column (read h df) "Week" (map CText week_list)
  | _, _ => d = mkDetected h df category (Ok tt)
  end.
Proof.
  cbv zeta. unfold detect_weeks.
  destruct (find_broker_column (columns (read h df))) as [b | ] eqn:F;
    [ | reflexivity].
  destruct (nonempty (grouping_columns category)); [ | reflexivity].
  unfold copy. cbv beta iota.
  set (h2 := write _ (next_ref h) (read h df)).
  assert (R : read h2 (next_ref h) = read h df) by apply read_write_same.
  rewrite R. unfold marker_raises, detect_week_markers.
  apply find_broker_column_in in F.
  destruct (locate b (columns (read h df))) as [ | i | ] eqn:Loc.
  - now elim (locate_present b _ F).
  - rewrite andb_false_r.
    destruct (week_loop_spec i b (rows (read h df)) "Before Week 1")
      as (wl & E & _).
    rewrite E. exists wl. cbn [d_outcome d_category d_heap d_df].
    repeat split. now rewrite read_write_same.
  - rewrite week_loop_repeated. destruct (rows (read h df)) as [ | row rest].
    + cbn [nonempty andb]. exists []. cbn [d_outcome d_category d_heap d_df].
      repeat split. now rewrite read_write_same.
    + cbn [nonempty andb d_outcome d_category]. now split.
Qed.

Lemma set_column_columns (df : DataFrame) (label : string) (values : list cell) :
  columns (set_column df label values)
  = if string_in label (columns df) then columns df
    else (columns df ++ [label])%list.
Proof.
  unfold set_column.
  destruct (position label (columns df)) as [i | ] eqn:E; cbn [columns].
  - assert (S : string_in label (columns df) = true).
    { apply string_in_In, position_Some_In. now exists i. }
    now rewrite S.
  - destruct (string_in label (columns df)) eqn:S; [ | reflexivity].
    apply string_in_In, position_Some_In in S. destruct S as [n S]. congruence.
Qed.

Lemma string_in_app (x : string) (l m : list string) :
  string_in x (l ++ m) = string_in x l || string_in x m.
Proof. unfold string_in. apply existsb_app. Qed.

Lemma distinct_app_new (l : list string) (x : string) :
  distinct l = true -> string_in x l = false -> distinct (l ++ [x]) = true.
Proof.
  induction l as [ | y l IH]; intros D N; [reflexivity | ].
  cbn [distinct app] in *. apply andb_prop in D. destruct D as [Dy D].
  unfold string_in in N. cbn [existsb] in N. apply orb_false_iff in N.
  destruct N as [Nx N].
  rewrite string_in_app, (IH D N), andb_true_r.
  apply negb_true_iff in Dy. rewrite Dy. cbn [orb].
  unfold string_in. cbn [existsb]. rewrite String.eqb_sym in Nx.
  now rewrite Nx.
Qed.

Lemma set_column_distinct (df : DataFrame) (label : string) (values : list cell) :
  distinct (columns df) = true ->
  distinct (columns (set_column df label values)) = true.
Proof.
  intro D. rewrite set_column_columns.
  destruct (string_in label (columns df)) eqn:S; [exact D | ].
  now apply distinct_app_new.
Qed.

Lemma set_column_keeps (df : DataFrame) (label l : string) (values : list cell) :
  In l (columns df) -> In l (columns (set_column df label values)).
Proof.
  intro i. rewrite set_column_columns.
  destruct (string_in label (columns df)); [exact i | ].
  apply in_or_app. now left.
Qed.

Lemma missing_labels_none (df : DataFrame) (wanted : list string) :
  (forall l, In l wanted -> In l (columns df)) -> missing_labels df wanted = [].
Proof.
  unfold missing_labels. induction wanted as [ | l ls IH]; intro H;
    [reflexivity | ].
  cbn [filter].
  assert (S : string_in l (columns df) = true).
  { apply string_in_In, H. now left. }
  rewrite S. cbn [negb]. apply IH. intros l' i. apply H. now right.
Qed.

(** Cleaning returns as soon as the labels of the table are distinct and
    the labels asked for are distinct and present. *)
Lemma clean_dataframe_returns (P : Pandas) (df : DataFrame)
    (entity_column : string) (amount_columns : list string) :
  distinct (columns df) = true ->
  distinct (entity_column :: amount_columns) = true ->
  (forall l, In l (entity_column :: amount_columns) -> In l (columns df)) ->
  exists e,
    position entity_column (columns df) = Some e
    /\ clean_dataframe P df entity_column amount_columns
       = Ok (mkCleanFrame entity_column amount_columns false
               (cleaned_rows P df e (amount_positions df amount_columns))).
Proof.
  intros D W H. rewrite clean_dataframe_cases, D, W. cbn [negb orb].
  rewrite (missing_labels_none df _ H).
  assert (E : exists e, position entity_column (columns df) = Some e).
  { apply position_Some_In, H. now left. }
  destruct E as [e E]. rewrite E. now exists e.
Qed.

(** X14.  A category that names no amount column never gets a result from
    [process_category], with or without grouping columns: both aggregation
    paths read [amount_columns[0]] before anything else.  On a table whose
    trimmed labels are distinct and hold the entity column, what the call
    raises is [IndexError], whether or not the week detection runs. *)
Theorem process_category_needs_an_amount_column (P : Pandas) (h : heap)
    (df : ref) (category : AnalysisCategory) (config : option Config)
    (Hnone : amount_columns category = []) :
  (forall res, snd (process_category P h df category config) <> Ok res)
  /\ (distinct (map Str.strip (columns (read h df))) = true ->
      In (entity_column category) (map Str.strip (columns (read h df))) ->
      snd (process_category P h df category config) = Raise IndexError).
Proof.
  split; [intro res; now apply no_amount_column_no_result | ].
  intros D i. unfold process_category. cbn [snd].
  set (h1 := write h df _).
  assert (T : read h1 df = trimmed (read h df)) by apply read_write_same.
  assert (Hamounts : amount_columns (d_category (detect_weeks h1 df category)) = [])
    by now rewrite detect_weeks_amount_columns.
  assert (Hentity : entity_column (d_category (detect_weeks h1 df category))
                    = entity_column category).
  { unfold detect_weeks.
    destruct (find_broker_column _); [ | reflexivity].
    destruct (nonempty _); [ | reflexivity].
    destruct (copy h1 df) as [h' df'].
    destruct (detect_week_markers _ _); try reflexivity.
    cbn [d_category]. now destruct (string_in "Week" _). }
  assert (Hclean : forall t,
            distinct (columns t) = true ->
            In (entity_column category) (columns t) ->
            exists frame,
              clean_dataframe P t
                (entity_column (d_category (detect_weeks h1 df category)))
                (amount_columns (d_category (detect_weeks h1 df category)))
              = Ok frame).
  { intros t Dt It. rewrite Hamounts, Hentity.
    destruct (clean_dataframe_returns P t (entity_column category) [] Dt eq_refl)
      as (e & _ & C).
    - intros l [<- | []]. exact It.
    - eexists. exact C. }
  assert (Hlast : forall frame,
            (if nonempty (grouping_columns
                            (d_category (detect_weeks h1 df category)))
             then _process_with_grouping P frame
                    (d_category (detect_weeks h1 df category)) config
             else _process_without_grouping P frame
                    (d_category (detect_weeks h1 df category)) config)
            = Raise IndexError).
  { intro frame. destruct (nonempty _).
    - unfold _process_with_grouping, grouped_view. now rewrite Hamounts.
    - unfold _process_without_grouping, ungrouped_view. now rewrite Hamounts. }
  pose proof (detect_weeks_cases h1 df category) as Cases. cbv zeta in Cases.
  rewrite T in Cases.
  destruct (find_broker_column (columns (trimmed (read h df)))) as [b | ] eqn:F.
  - destruct (nonempty (grouping_columns category)) eqn:G.
    + assert (NR : marker_raises (trimmed (read h df)) b = false).
      { unfold marker_raises.
        destruct (locate_distinct b (columns (trimmed (read h df))) D
                    (find_broker_column_in _ _ F)) as [n ->].
        apply andb_false_r. }
      rewrite NR in Cases. destruct Cases as (wl & _ & O & _ & R).
      rewrite O, R. cbn [bind].
      destruct (Hclean (set_column (trimmed (read h df)) "Week" (map CText wl)))
        as [frame ->].
      * now apply set_column_distinct.
      * now apply set_column_keeps.
      * cbn [bind]. apply Hlast.
    + rewrite Cases in *. cbn [d_outcome d_heap d_df d_category bind] in *.
      rewrite T. destruct (Hclean (trimmed (read h df)) D i) as [frame ->].
      cbn [bind]. apply Hlast.
  - rewrite Cases in *. cbn [d_outcome d_heap d_df d_category bind] in *.
    rewrite T. destruct (Hclean (trimmed (read h df)) D i) as [frame ->].
    cbn [bind]. apply Hlast.
Qed.

Lemma process_category_needs_an_amount_column_witness :
  amount_columns (DispatcherAnalysis "Dispatch" [] (Some ["Week"])) = []
  /\ snd (process_category (plain_sums false) scenario_heap O
            (DispatcherAnalysis "Dispatch" [] (Some ["Week"])) ali_config)
     = Raise IndexError.
Proof.
  split; [reflexivity | ].
  apply (proj2 (process_category_needs_an_amount_column (plain_sums false)
                  scenario_heap O
                  (DispatcherAnalysis "Dispatch" [] (Some ["Week"])) ali_config
                  eq_refl)).
  - reflexivity.
  - right. now left.
Defined.

(** ** Detected categories *)

Lemma category_arguments_ok (cat_data : CategoryData)
    (cls : string -> list string -> option (list string) -> AnalysisCategory)
    (category : AnalysisCategory) :
  category_arguments cat_data cls = Ok category ->
  exists e a,
    cd_entity_column cat_data = Some e /\ cd_amount_columns cat_data = Some a
    /\ category = cls e a None.
Proof.
  unfold category_arguments.
  destruct (cd_entity_column cat_data) as [e | ]; [ | discriminate].
  destruct (cd_amount_columns cat_data) as [a | ]; [ | discriminate].
  intro H. injection H as <-. now exists e, a.
Qed.

Lemma create_category_from_dict_ok (cat_data : CategoryData)
    (category : AnalysisCategory) :
  create_category_from_dict cat_data = Ok category ->
  exists e a,
    cd_entity_column cat_data = Some e /\ cd_amount_columns cat_data = Some a
    /\ (category = DispatcherAnalysis e a None
        \/ category = DriverAnalysis e a None
        \/ category = BrokerAnalysis e a None).
Proof.
  unfold create_category_from_dict.
  repeat match goal with |- context [if ?b then _ else _] => destruct b end;
    intro H; apply category_arguments_ok in H;
    destruct H as (e & a & He & Ha & ->); exists e, a; auto.
Qed.

(** X15.  Whatever a detected category is called, the category object
    that [create_category_from_dict] builds from it carries the columns of
    the detection, no grouping columns, and the name of one of the three
    classes, so that its configuration is stored under one of three ids.
    An analysis the bot runs on it therefore never reports weeks.  A
    detection without an entity column or without amount columns raises
    [KeyError], for the entity column first. *)
Theorem bot_categories_have_no_weeks (cat_data : CategoryData) :
  match cd_entity_column cat_data, cd_amount_columns cat_data with
  | None, _ =>
      create_category_from_dict cat_data = Raise (KeyError ["entity_column"])
  | Some _, None =>
      create_category_from_dict cat_data = Raise (KeyError ["amount_columns"])
  | Some e, Some a =>
      exists category,
        create_category_from_dict cat_data = Ok category
        /\ entity_column category = e
        /\ amount_columns category = a
        /\ grouping_columns category = []
        /\ In (get_category_id category)
             ["dispatcher_earnings"; "driver_payments"; "broker_performance"]
        /\ forall P h df config res,
             snd (process_category P h df category config) = Ok res ->
             weeks res = None
  end.
Proof.
  destruct (cd_entity_column cat_data) as [e | ] eqn:He.
  - destruct (cd_amount_columns cat_data) as [a | ] eqn:Ha.
    + assert (H : exists category, create_category_from_dict cat_data = Ok category).
      { unfold create_category_from_dict, category_arguments. rewrite He, Ha.
        repeat match goal with |- context [if ?b then _ else _] => destruct b end;
          eexists; reflexivity. }
      destruct H as [category H]. exists category. split; [exact H | ].
      apply create_category_from_dict_ok in H.
      destruct H as (e' & a' & He' & Ha' & Hc).
      assert (e' = e) as -> by congruence. assert (a' = a) as -> by congruence.
      assert (Hg : grouping_columns category = []).
      { destruct Hc as [-> | [-> | ->]]; reflexivity. }
      repeat split.
      * destruct Hc as [-> | [-> | ->]]; reflexivity.
      * destruct Hc as [-> | [-> | ->]]; reflexivity.
      * exact Hg.
      * destruct Hc as [-> | [-> | ->]]; cbn; auto.
      * intros P h df config res. now apply ungrouped_result_has_no_weeks.
    + unfold create_category_from_dict, category_arguments. rewrite He, Ha.
      repeat match goal with |- context [if ?b then _ else _] => destruct b end;
        reflexivity.
  - unfold create_category_from_dict, category_arguments. rewrite He.
    repeat match goal with |- context [if ?b then _ else _] => destruct b end;
      reflexivity.
Qed.

(** X16.  The rule-based detection on the labels of a sheet.  Every rule
    it proposes names as entity column a column of the sheet whose label
    holds one of the entity keywords, and as amount columns the first
    column whose label holds an amount keyword, or none when the sheet has
    no such column.  [create_category_from_dict] turns the rule into a
    category of the class the rule was made for: a dispatcher rule for a
    label with dispatch in it, a driver rule for driver, a broker rule for
    broker, customer or client.  A rule without an amount column never
    gets a result from [process_category]. *)
Theorem fallback_rule_is_analysable (labels : list string)
    (rule : CategoryData)
    (Hrule : In rule (_fallback_detection (analyze_excel_structure labels))) :
  exists col category,
    cd_entity_column rule = Some col
    /\ In col labels
    /\ any_keyword ["name"; "dispatch"; "driver"; "broker"; "customer";
                    "vendor"] col = true
    /\ create_category_from_dict rule = Ok category
    /\ entity_column category = col
    /\ amount_columns category
       = firstn 1 (filter (any_keyword ["amount"; "total"; "revenue"; "pay";
                                        "earning"; "salary"; "rate"]) labels)
    /\ grouping_columns category = []
    /\ match cat_class category with
       | DispatcherClass => Str.contains "dispatch" (Str.lower col) = true
       | DriverClass => Str.contains "driver" (Str.lower col) = true
       | BrokerClass =>
           any_keyword ["broker"; "customer"; "client"] col = true
       end
    /\ (filter (any_keyword ["amount"; "total"; "revenue"; "pay"; "earning";
                             "salary"; "rate"]) labels = [] ->
        forall P h df config res,
          snd (process_category P h df category config) <> Ok res).
Proof.
  unfold _fallback_detection, analyze_excel_structure in Hrule.
  cbn [potential_amount_columns potential_entity_columns] in Hrule.
  rewrite !in_app_iff, !in_map_iff in Hrule.
  set (amounts := filter _ labels) in *.
  assert (Hcol : forall kw col,
            In col (filter (any_keyword kw)
                      (filter (any_keyword ["name"; "dispatch"; "driver"; "broker";
                                            "customer"; "vendor"]) labels)) ->
            In col labels
            /\ any_keyword ["name"; "dispatch"; "driver"; "broker"; "customer";
                            "vendor"] col = true
            /\ any_keyword kw col = true).
  { intros kw col i. apply filter_In in i. destruct i as [i K].
    apply filter_In in i. destruct i as [i E]. now repeat split. }
  destruct Hrule as [(col & <- & i) | [(col & <- & i) | (col & <- & i)]];
    apply Hcol in i; destruct i as (i & E & K); exists col.
  - exists (DispatcherAnalysis col (firstn 1 amounts) None).
    repeat split; auto.
    + unfold any_keyword in K. cbn [existsb] in K. now rewrite orb_false_r in K.
    + intros A P h df config res. apply no_amount_column_no_result.
      cbn [amount_columns DispatcherAnalysis]. now rewrite A.
  - exists (DriverAnalysis col (firstn 1 amounts) None).
    repeat split; auto.
    + unfold any_keyword in K. cbn [existsb] in K. now rewrite orb_false_r in K.
    + intros A P h df config res. apply no_amount_column_no_result.
      cbn [amount_columns DriverAnalysis]. now rewrite A.
  - exists (BrokerAnalysis col (firstn 1 amounts) None).
    repeat split; auto.
    intros A P h df config res. apply no_amount_column_no_result.
    cbn [amount_columns BrokerAnalysis]. now rewrite A.
Qed.

Lemma fallback_rule_is_analysable_witness :
  In (mkCategoryData (Some "Driver Payments") (Some "Driver Name") (Some ["Pay"]))
     (_fallback_detection (analyze_excel_structure ["Driver Name"; "Pay"]))
  /\ exists col category,
       Some "Driver Name" = Some col
       /\ create_category_from_dict
            (mkCategoryData (Some "Driver Payments") (Some "Driver Name")
               (Some ["Pay"])) = Ok category
       /\ entity_column category = col.
Proof.
  assert (H : In (mkCategoryData (Some "Driver Payments") (Some "Driver Name")
                    (Some ["Pay"]))
                 (_fallback_detection
                    (analyze_excel_structure ["Driver Name"; "Pay"]))).
  { left. reflexivity. }
  split; [exact H | ].
  destruct (fallback_rule_is_analysable ["Driver Name"; "Pay"] _ H)
    as (col & category & E & _ & _ & C & F & _).
  now exists col, category.
Defined.

(** ** Week labels *)

Lemma week_match_digits (c : cell) (digits : string) :
  week_match c = Some digits ->
  digits <> EmptyString /\ Str.forallb Str.isdigit digits = true.
Proof.
  unfold week_match. intro H.
  pose proof (re_search_week_spec (Str.lower (broker_val c))) as S.
  rewrite H in S. destruct S as (pre & suf & _ & (ws & post & _ & _ & D & N & _) & _).
  now split.
Qed.

Lemma week_loop_after_marker (i : nat) (broker_column : string)
    (rs : list (list cell)) :
  forall current_week labels,
    week_label current_week ->
    week_loop (Single i) broker_column current_week rs = Ok labels ->
    Forall week_label labels.
Proof.
  induction rs as [ | row rest IH]; intros cur labels W.
  - cbn [week_loop]. intro H. injection H as <-. constructor.
  - cbn [week_loop].
    destruct (week_loop (Single i) broker_column (next_week cur (cell_at row i)) rest)
      as [labels' | e | ] eqn:E; cbn [bind]; try discriminate.
    intro H. injection H as <-.
    assert (W' : week_label (next_week cur (cell_at row i))).
    { unfold next_week. destruct (week_match (cell_at row i)) as [ds | ] eqn:M;
        [ | exact W].
      apply week_match_digits in M. destruct M as [N D]. now exists ds. }
    constructor; [exact W' | ]. now apply (IH _ _ W').
Qed.

Lemma week_loop_prefix (i : nat) (broker_column : string)
    (rs : list (list cell)) :
  forall current_week labels,
    week_loop (Single i) broker_column current_week rs = Ok labels ->
    exists k, (k <= length labels)%nat
              /\ firstn k labels = repeat current_week k
              /\ Forall week_label (skipn k labels).
Proof.
  induction rs as [ | row rest IH]; intros cur labels.
  - cbn [week_loop]. intro H. injection H as <-. exists O.
    repeat split; [cbn; lia | constructor].
  - cbn [week_loop].
    destruct (week_loop (Single i) broker_column (next_week cur (cell_at row i)) rest)
      as [labels' | e | ] eqn:E; cbn [bind]; try discriminate.
    intro H. injection H as <-.
    unfold next_week in *. destruct (week_match (cell_at row i)) as [ds | ] eqn:M.
    + exists O. repeat split; [cbn; lia | ]. cbn [skipn].
      apply week_match_digits in M. destruct M as [N D].
      assert (W : week_label ("Week " ++ ds)) by now exists ds.
      constructor; [exact W | ].
      now apply (week_loop_after_marker i broker_column rest _ _ W).
    + destruct (IH _ _ E) as (k & L & F & Hs). exists (Datatypes.S k).
      cbn [firstn repeat skipn length]. rewrite F. repeat split; [lia | exact Hs].
Qed.

(** X17.  [detect_week_markers] outside the case of a marker column that
    is there once, and the shape of its labels.  When the table has no
    column of the given name the call raises [KeyError] as soon as the
    table has a row, when it has several it raises [ValueError] as soon
    as the table has a row, and in both cases it returns the empty list
    for a table without rows.  Whenever it returns, it returns one label
    per row; the rows labelled [Before Week 1] come first, and every label
    after them is the word Week, a blank and a non-empty run of digits:
    once a marker has been seen the label never falls back. *)
Theorem detect_week_markers_outcome (df : DataFrame) (broker_column : string) :
  (position broker_column (columns df) = None ->
   detect_week_markers df broker_column
   = match rows df with
     | [] => Ok []
     | _ :: _ => Raise (KeyError [broker_column])
     end)
  /\ (locate broker_column (columns df) = Repeated ->
      detect_week_markers df broker_column
      = match rows df with
        | [] => Ok []
        | _ :: _ => Raise (ValueError ambiguous_truth_value)
        end)
  /\ (forall labels,
        detect_week_markers df broker_column = Ok labels ->
        length labels = length (rows df)
        /\ exists k,
             (k <= length labels)%nat
             /\ firstn k labels = repeat "Before Week 1" k
             /\ Forall week_label (skipn k labels)).
Proof.
  unfold detect_week_markers. split; [ | split].
  - intro N. unfold locate. rewrite N. apply week_loop_absent.
  - intros ->. apply week_loop_repeated.
  - intros labels H.
    destruct (locate broker_column (columns df)) as [ | i | ].
    + rewrite week_loop_absent in H.
      destruct (rows df); [ | discriminate].
      injection H as <-. split; [reflexivity | ].
      exists O. repeat split; [cbn; lia | constructor].
    + split; [ | now apply (week_loop_prefix i broker_column (rows df))].
      destruct (week_loop_spec i broker_column (rows df) "Before Week 1")
        as (labels' & E & Len & _).
      congruence.
    + rewrite week_loop_repeated in H.
      destruct (rows df); [ | discriminate].
      injection H as <-. split; [reflexivity | ].
      exists O. repeat split; [cbn; lia | constructor].
Qed.

(** ** Cleaning keeps the order of the rows *)

Lemma sorted_seq (s n : nat) : StronglySorted lt (seq s n).
Proof.
  revert s. induction n as [ | n IH]; intro s; cbn [seq]; constructor.
  - apply IH.
  - apply Forall_forall. intros x i. apply in_seq in i. lia.
Qed.

Lemma sorted_filter_map {A : Type} (f : A -> nat) (p : A -> bool) (l : list A) :
  StronglySorted lt (map f l) -> StronglySorted lt (map f (filter p l)).
Proof.
  induction l as [ | a l IH]; cbn [map filter]; intro H; [constructor | ].
  inversion H as [ | ? ? Hs Hf]; subst.
  destruct (p a); [ | now apply IH].
  cbn [map]. constructor; [now apply IH | ].
  rewrite Forall_forall in *. intros x i. apply Hf.
  apply in_map_iff in i. destruct i as (y & <- & i).
  apply filter_In in i. apply in_map. tauto.
Qed.

Lemma sorted_filter_chain {A : Type} (f : A -> nat) (p : nat -> A -> bool)
    (ks : list nat) (l : list A) :
  StronglySorted lt (map f l) ->
  StronglySorted lt (map f (fold_left (fun acc k => filter (p k) acc) ks l)).
Proof.
  revert l. induction ks as [ | k ks IH]; intros l H; [exact H | ].
  cbn [fold_left]. apply IH. now apply sorted_filter_map.
Qed.

Lemma map_fst_combine_seq {A : Type} (l : list A) (s : nat) :
  map fst (combine (seq s (length l)) l) = seq s (length l).
Proof.
  revert s. induction l as [ | a l IH]; intro s; [reflexivity | ].
  cbn [length seq combine map fst]. now rewrite IH.
Qed.

Lemma sorted_NoDup (l : list nat) : StronglySorted lt l -> NoDup l.
Proof.
  induction 1 as [ | a l Hs IH Hf]; constructor; [ | exact IH].
  intro i. rewrite Forall_forall in Hf. specialize (Hf a i). lia.
Qed.

(** X18.  The three outcomes of [clean_dataframe].  When it returns, the
    rows of the cleaned frame are rows of the table in the order of the
    table, none of them twice, and the frame carries the entity and
    amount labels it was asked for.  The entity of a row is trimmed text
    that is neither empty nor nan; a row has no entity only where
    [astype(str)] keeps a missing value missing, and then the entity cell
    of its row in the table is missing.  The call raises [KeyError]
    exactly when the table lacks one of these labels, and the error lists
    the missing labels in the order asked.  Tables or requests with a
    repeated label are outside what is modelled. *)
Theorem clean_dataframe_outcome (P : Pandas) (df : DataFrame)
    (entity_column : string) (amount_columns : list string) :
  match clean_dataframe P df entity_column amount_columns with
  | Ok frame =>
      missing_labels df (entity_column :: amount_columns) = []
      /\ cf_entity_column frame = entity_column
      /\ cf_amount_columns frame = amount_columns
      /\ StronglySorted lt (map cr_index (cf_rows frame))
      /\ NoDup (map cr_index (cf_rows frame))
      /\ (forall r, In r (cf_rows frame) ->
            (cr_index r < length (rows df))%nat
            /\ match cr_entity r with
               | Some entity =>
                   Str.strip entity = entity
                   /\ entity <> "" /\ entity <> "nan"
               | None =>
                   keeps_missing P = true
                   /\ exists e,
                        position entity_column (columns df) = Some e
                        /\ isna (cell_at (nth (cr_index r) (rows df) []) e)
                           = true
               end)
  | Raise e =>
      e = KeyError (missing_labels df (entity_column :: amount_columns))
      /\ missing_labels df (entity_column :: amount_columns) <> []
  | OutOfModel =>
      distinct (columns df) = false
      \/ distinct (entity_column :: amount_columns) = false
  end.
Proof.
  rewrite clean_dataframe_cases.
  destruct (distinct (columns df)) eqn:D1; cbn [negb orb]; [ | now left].
  destruct (distinct (entity_column :: amount_columns)) eqn:D2; cbn [negb orb];
    [ | now right].
  destruct (position entity_column (columns df)) as [e | ] eqn:Pe.
  - destruct (missing_labels df (entity_column :: amount_columns)) as [ | m ms] eqn:M;
      [ | split; [reflexivity | discriminate]].
    cbn [cf_entity_column cf_amount_columns cf_rows].
    set (pos := amount_positions df amount_columns).
    assert (S : StronglySorted lt (map cr_index (cleaned_rows P df e pos))).
    { unfold cleaned_rows. do 2 apply sorted_filter_map. rewrite map_map.
      cbn [cr_index].
      apply sorted_filter_chain, sorted_filter_map. rewrite map_map.
      cbn [nr_index]. apply sorted_filter_map. rewrite map_map. cbn [sr_index].
      unfold indexed. rewrite map_fst_combine_seq. apply sorted_seq. }
    split; [reflexivity | ]. split; [reflexivity | ]. split; [reflexivity | ].
    split; [exact S | ]. split; [now apply sorted_NoDup | ].
    intros r H. unfold cleaned_rows in H.
    apply filter_In in H. destruct H as [H Hempty].
    apply filter_In in H. destruct H as [H Hnan].
    apply in_map_iff in H. destruct H as (nr & <- & H).
    cbn [cr_index cr_entity] in *.
    unfold keep_positive in H. apply in_filter_chain in H. destruct H as [H _].
    apply filter_In in H. destruct H as [H _].
    apply in_map_iff in H. destruct H as (sr & <- & H).
    cbn [nr_index nr_entity] in *.
    apply filter_In in H. destruct H as [H _].
    apply in_map_iff in H. destruct H as ([i row] & <- & H).
    cbn [sr_index sr_entity fst snd] in *.
    apply in_indexed in H. split; [apply nth_error_Some; congruence | ].
    unfold as_text in *.
    destruct (isna (cell_at row e) && keeps_missing P) eqn:K.
    + apply andb_prop in K. destruct K as [K1 K2]. split; [exact K2 | ].
      exists e. split; [reflexivity | ].
      now rewrite (nth_error_nth _ _ _ H).
    + cbn [differs] in Hempty, Hnan.
      apply negb_true_iff, String.eqb_neq in Hempty, Hnan.
      split; [apply strip_idem | now split].
  - assert (i : In entity_column
                  (missing_labels df (entity_column :: amount_columns))).
    { unfold missing_labels. apply filter_In. split; [now left | ].
      apply negb_true_iff. destruct (string_in entity_column (columns df)) eqn:S;
        [ | reflexivity].
      apply string_in_In, position_Some_In in S. destruct S as [n S]. congruence. }
    destruct (missing_labels df (entity_column :: amount_columns));
      [destruct i | split; [reflexivity | discriminate]].
Qed.

(** ** Earnings by method *)

(** X21.  A category that only sums, such as the broker analysis, earns
    what it totals.  [_calculate_earnings] then reports the total as the
    earnings and a percentage of 0 whatever the configuration says, and in
    every entry of a scope, also in the entries added for configured
    entities without data, the earnings equal the total. *)
Theorem sum_only_earnings_are_totals (category : AnalysisCategory)
    (config : option Config)
    (Hmethod : calculation_method category = SUM_ONLY) :
  (forall entity total,
      let e := _calculate_earnings entity total category config in
      earnings e = total /\ total_amount e = total
      /\ percentage e = Some Float.zero /\ flat_rate e = None)
  /\ (forall totals name entry,
        PyDict.get (scope_results category config totals) name = Some entry ->
        earnings entry = total_amount entry)
  /\ (forall P df res name entry,
        _process_without_grouping P df category config = Ok res ->
        PyDict.get (overall res) name = Some entry ->
        earnings entry = total_amount entry).
Proof.
  assert (C : forall entity total,
            let e := _calculate_earnings entity total category config in
            earnings e = total /\ total_amount e = total
            /\ percentage e = Some Float.zero /\ flat_rate e = None).
  { intros entity total. cbv zeta. unfold _calculate_earnings.
    rewrite Hmethod. now repeat split. }
  assert (S : forall totals name entry,
            PyDict.get (scope_results category config totals) name = Some entry ->
            earnings entry = total_amount entry).
  { intros totals name entry G. apply get_in in G. revert name entry G.
    unfold scope_results, add_missing_config, add_entities.
    apply (fold_left_invariant
             (fun d : PyDict.t Earnings =>
                forall name entry, In (name, entry) d ->
                  earnings entry = total_amount entry)).
    - apply (fold_left_invariant
               (fun d : PyDict.t Earnings =>
                  forall name entry, In (name, entry) d ->
                    earnings entry = total_amount entry)).
      + intros ? ? [].
      + intros d et _ H name entry i. apply in_set in i.
        destruct i as [[_ ->] | i]; [ | now apply (H name)].
        destruct (C (fst et) (snd et)) as (E & T & _). cbv zeta in E, T.
        congruence.
    - intros d ce _ H name entry.
      destruct (PyDict.mem d (fst ce)); [apply H | ].
      intro i. apply in_set in i.
      destruct i as [[_ ->] | i]; [reflexivity | now apply (H name)]. }
  split; [exact C | ]. split; [exact S | ].
  intros P df res name entry H.
  unfold _process_without_grouping in H.
  destruct (ungrouped_view df category); cbn [bind] in H; try discriminate.
  injection H as <-. cbn [overall]. apply S.
Qed.

Lemma sum_only_earnings_are_totals_witness :
  calculation_method (BrokerAnalysis "Broker" ["Amount"] None) = SUM_ONLY
  /\ forall entity total,
       earnings (_calculate_earnings entity total
                   (BrokerAnalysis "Broker" ["Amount"] None) ali_config) = total.
Proof.
  split; [reflexivity | ].
  intros entity total.
  exact (proj1 (proj1 (sum_only_earnings_are_totals
                         (BrokerAnalysis "Broker" ["Amount"] None) ali_config
                         eq_refl) entity total)).
Defined.

(** ** The dispatcher-only pipeline *)

Lemma last_match_none (p : string -> bool) (labels : list string) :
  last_match p labels = None
  <-> forall l, In l labels -> p (Str.lower l) = false.
Proof.
  unfold last_match.
  assert (G : forall acc,
            fold_left (fun acc col => if p (Str.lower col) then Some col else acc)
              labels acc = None
            <-> acc = None /\ forall l, In l labels -> p (Str.lower l) = false).
  { induction labels as [ | c labels IH]; intro acc; cbn [fold_left].
    - split; [intro H; split; [exact H | intros ? []] | tauto].
    - rewrite IH. destruct (p (Str.lower c)) eqn:E; split.
      + intros [H _]. discriminate.
      + intros [_ H]. specialize (H c (or_introl eq_refl)). congruence.
      + intros [H1 H2]. split; [exact H1 | ]. intros l [<- | i]; auto.
      + intros [H1 H2]. split; [exact H1 | ]. intros l i. apply H2. now right. }
  rewrite G. tauto.
Qed.

Lemma last_match_some (p : string -> bool) (labels : list string) (col : string) :
  last_match p labels = Some col -> In col labels /\ p (Str.lower col) = true.
Proof.
  unfold last_match.
  assert (G : forall acc,
            fold_left (fun acc col => if p (Str.lower col) then Some col else acc)
              labels acc = Some col ->
            acc = Some col \/ (In col labels /\ p (Str.lower col) = true)).
  { induction labels as [ | c labels IH]; intro acc; cbn [fold_left];
      [now left | ].
    intro H. apply IH in H. destruct H as [H | [H1 H2]]; [ | right; split; auto;
      now right].
    destruct (p (Str.lower c)) eqn:E; [ | now left].
    injection H as <-. right. split; [now left | exact E]. }
  intro H. apply G in H. destruct H as [H | H]; [discriminate | exact H].
Qed.

Lemma set_column_has (df : DataFrame) (label : string) (values : list cell) :
  In label (columns (set_column df label values)).
Proof.
  rewrite set_column_columns.
  destruct (string_in label (columns df)) eqn:S.
  - now apply string_in_In.
  - apply in_or_app. right. now left.
Qed.

(** With the three roles on three different labels of a sheet whose
    trimmed labels are distinct, [process_excel_file] returns. *)
Lemma process_excel_file_returns (P : Pandas) (df : DataFrame)
    (dispatcher_percentages : PyDict.t pyfloat)
    (dispatch_col amount_col broker_col : string) :
  let labels := map Str.strip (columns df) in
  distinct labels = true ->
  last_match is_dispatch_label labels = Some dispatch_col ->
  last_match is_amount_label labels = Some amount_col ->
  last_match is_broker_label labels = Some broker_col ->
  amount_col <> dispatch_col -> amount_col <> broker_col ->
  dispatch_col <> broker_col ->
  exists res,
    process_excel_file P (Workbook df) dispatcher_percentages = Ok res.
Proof.
  cbv zeta. intros D Hd Ha Hb Nad Nab Ndb.
  unfold process_excel_file. cbv zeta. cbn [columns rows set_columns].
  rewrite Hd, Ha, Hb.
  apply last_match_some in Hd, Ha, Hb.
  destruct Hd as [Id _], Ha as [Ia _], Hb as [Ib _].
  destruct (locate_distinct broker_col _ D Ib) as [n ->].
  destruct (week_loop_spec n broker_col (rows df) "Before Week 1")
    as (wl & -> & _).
  cbn [bind].
  set (t := set_column _ "Week" (map CText wl)).
  assert (Dt : distinct (columns t) = true) by now apply set_column_distinct.
  assert (Pd : exists d, position dispatch_col (columns t) = Some d).
  { apply position_Some_In. now apply set_column_keeps. }
  assert (Pa : exists a, position amount_col (columns t) = Some a).
  { apply position_Some_In. now apply set_column_keeps. }
  assert (Pw : exists w, position "Week" (columns t) = Some w).
  { apply position_Some_In. apply set_column_has. }
  destruct Pd as [d ->], Pa as [a ->], Pw as [w ->].
  rewrite Dt. cbn [negb].
  apply String.eqb_neq in Nad, Nab, Ndb. rewrite Nad, Nab, Ndb. cbn [orb].
  rewrite apply_clean_amount_ok. cbn [bind]. eexists. reflexivity.
Qed.

(** X24.  The outcomes of [process_excel_file].  What [pd.read_excel]
    raises on the file goes to the caller.  On a sheet, the three roles
    are looked for in the trimmed, lower-cased labels: a sheet with no
    label that holds dispatch is refused with the message about the
    Dispatch column; a sheet with such a label but none that holds
    amount, total or revenue with the message about the Amount column; a
    sheet with both but no label that holds broker with the message about
    the Broker column.  With the three roles on three different labels of
    a sheet whose trimmed labels are distinct, the function returns a
    result.  With one label in two roles it raises: on the sheet with the
    labels Broker, Dispatcher and Dispatch Total, the last label is both
    the dispatcher and the amount column and the call ends in the
    [ValueError] of pandas about the truth value of a Series. *)
Theorem process_excel_file_errors (P : Pandas) (df : DataFrame)
    (dispatcher_percentages : PyDict.t pyfloat) :
  let labels := map Str.strip (columns df) in
  let lacks (p : string -> bool) :=
    forall l, In l labels -> p (Str.lower l) = false in
  let outcome := process_excel_file P (Workbook df) dispatcher_percentages in
  (forall e,
     process_excel_file P (Unreadable e) dispatcher_percentages = Raise e)
  /\ (lacks is_dispatch_label ->
      outcome
      = Raise (ValueError "Could not find 'Dispatch' column in Excel file"))
  /\ (~ lacks is_dispatch_label -> lacks is_amount_label ->
      outcome
      = Raise (ValueError
                 "Could not find 'Amount' or 'Total' column in Excel file"))
  /\ (~ lacks is_dispatch_label -> ~ lacks is_amount_label ->
      lacks is_broker_label ->
      outcome = Raise (ValueError "Could not find 'Broker' column in Excel file"))
  /\ (distinct labels = true ->
      forall dispatch_col amount_col broker_col,
        last_match is_dispatch_label labels = Some dispatch_col ->
        last_match is_amount_label labels = Some amount_col ->
        last_match is_broker_label labels = Some broker_col ->
        amount_col <> dispatch_col -> amount_col <> broker_col ->
        dispatch_col <> broker_col ->
        exists res, outcome = Ok res)
  /\ process_excel_file P (Workbook two_roles_table) dispatcher_percentages
     = Raise (ValueError ambiguous_truth_value).
Proof.
  cbv zeta.
  split; [reflexivity | ].
  assert (C : match last_match is_dispatch_label (map Str.strip (columns df)),
                    last_match is_amount_label (map Str.strip (columns df)),
                    last_match is_broker_label (map Str.strip (columns df)) with
              | None, _, _ =>
                  process_excel_file P (Workbook df) dispatcher_percentages
                  = Raise (ValueError
                             "Could not find 'Dispatch' column in Excel file")
              | Some _, None, _ =>
                  process_excel_file P (Workbook df) dispatcher_percentages
                  = Raise (ValueError
                             "Could not find 'Amount' or 'Total' column in Excel file")
              | Some _, Some _, None =>
                  process_excel_file P (Workbook df) dispatcher_percentages
                  = Raise (ValueError
                             "Could not find 'Broker' column in Excel file")
              | Some _, Some _, Some _ => True
              end).
  { unfold process_excel_file. cbv zeta. cbn [columns rows set_columns].
    destruct (last_match is_dispatch_label (map Str.strip (columns df)));
      [ | reflexivity].
    destruct (last_match is_amount_label (map Str.strip (columns df)));
      [ | reflexivity].
    destruct (last_match is_broker_label (map Str.strip (columns df)));
      [exact I | reflexivity]. }
  set (labels := map Str.strip (columns df)) in *.
  set (outcome := process_excel_file P (Workbook df) dispatcher_percentages) in *.
  pose proof (last_match_none is_dispatch_label labels) as Nd.
  pose proof (last_match_none is_amount_label labels) as Na.
  pose proof (last_match_none is_broker_label labels) as Nb.
  split.
  { intro H. apply Nd in H. now rewrite H in C. }
  split.
  { intros Hd H. apply Na in H. rewrite H in C.
    destruct (last_match is_dispatch_label labels); [exact C | ].
    elim Hd. now apply Nd. }
  split.
  { intros Hd Ha H. apply Nb in H. rewrite H in C.
    destruct (last_match is_dispatch_label labels); [ | elim Hd; now apply Nd].
    destruct (last_match is_amount_label labels); [exact C | ].
    elim Ha. now apply Na. }
  split.
  { intros D d a b Hd Ha Hb.
    now apply (process_excel_file_returns P df dispatcher_percentages d a b). }
  reflexivity.
Qed.

Lemma keys_set_keep {V : Type} (d : PyDict.t V) (k k' : string) (v : V) :
  In k' (PyDict.keys d) -> In k' (PyDict.keys (PyDict.set d k v)).
Proof.
  intro i. rewrite keys_set. destruct (PyDict.mem d k); [exact i | ].
  apply in_or_app. now left.
Qed.

Lemma add_missing_dispatchers_keeps (ps : PyDict.t pyfloat)
    (d : PyDict.t Earnings) (k : string) :
  In k (PyDict.keys d) -> In k (PyDict.keys (add_missing_dispatchers ps d)).
Proof.
  unfold add_missing_dispatchers. revert d.
  induction ps as [ | cp ps IH]; intros d i; [exact i | ].
  cbn [fold_left]. apply IH.
  destruct (existsb _ (PyDict.keys d)); [exact i | now apply keys_set_keep].
Qed.

Lemma add_missing_dispatchers_covers (ps : PyDict.t pyfloat)
    (d : PyDict.t Earnings) (c : string) :
  In c (PyDict.keys ps) ->
  exists k, In k (PyDict.keys (add_missing_dispatchers ps d))
            /\ Str.lower k = Str.lower c.
Proof.
  revert d. induction ps as [ | cp ps IH]; intros d i; [destruct i | ].
  destruct i as [<- | i]; [ | now apply IH].
  unfold add_missing_dispatchers. cbn [fold_left].
  destruct (existsb _ (PyDict.keys d)) eqn:E.
  - apply existsb_exists in E. destruct E as (k & Hk & Ek).
    apply String.eqb_eq in Ek. exists k. split; [ | exact Ek].
    now apply (add_missing_dispatchers_keeps ps d k).
  - exists (fst cp). split; [ | reflexivity].
    apply (add_missing_dispatchers_keeps ps). rewrite keys_set.
    destruct (PyDict.mem d (fst cp)) eqn:M.
    + now apply mem_keys.
    + apply in_or_app. right. now left.
Qed.

Lemma process_excel_file_scopes (P : Pandas) (df : DataFrame)
    (dispatcher_percentages : PyDict.t pyfloat) (res : Results) :
  process_excel_file P (Workbook df) dispatcher_percentages = Ok res ->
  forall d, d = overall res \/ In d (period_dicts res) ->
    exists totals, d = dispatcher_results dispatcher_percentages totals.
Proof.
  unfold process_excel_file. cbv zeta.
  repeat match goal with
         | |- context [match last_match ?p ?l with _ => _ end] =>
             destruct (last_match p l); try discriminate
         end.
  match goal with |- context [bind ?m _] => destruct m end; cbn [bind];
    try discriminate.
  repeat match goal with
         | |- context [match position ?a ?b with _ => _ end] =>
             destruct (position a b); try discriminate
         end.
  repeat match goal with
         | |- context [if ?c then _ else _] => destruct c; try discriminate
         end.
  rewrite apply_clean_amount_ok. cbn [bind].
  intro H. injection H as <-. unfold period_dicts. cbn [overall weeks].
  intros d [-> | i]; [eexists; reflexivity | ].
  apply in_map_iff in i. destruct i as ([w d'] & <- & i). cbn [snd].
  revert w d' i.
  apply (fold_left_invariant
           (fun acc : PyDict.t (PyDict.t Earnings) =>
              forall w d', In (w, d') acc ->
                exists totals, d' = dispatcher_results dispatcher_percentages totals)).
  - intros ? ? [].
  - intros acc week _ H w d' i. apply in_set in i.
    destruct i as [[_ ->] | i]; [eexists; reflexivity | now apply (H w)].
Qed.

Lemma scenario_legacy_run (P : Pandas) :
  process_excel_file P (Workbook scenario_table) [("Ali", Float.of_Z 10)]
  = Ok (scenario_results None).
Proof. run_pipeline P. Qed.

(** X25.  The reconciliation of [process_excel_file] is up to case: in the
    overall scope and in every week of a result, each configured
    dispatcher has an entry under its own name or under a name that is
    equal to it up to case. *)
Theorem legacy_config_is_reported_up_to_case (P : Pandas) (df : DataFrame)
    (dispatcher_percentages : PyDict.t pyfloat) (res : Results)
    (Hrun : process_excel_file P (Workbook df) dispatcher_percentages = Ok res) :
  forall d, d = overall res \/ In d (period_dicts res) ->
  forall config_dispatcher,
    In config_dispatcher (PyDict.keys dispatcher_percentages) ->
    exists result_dispatcher,
      In result_dispatcher (PyDict.keys d)
      /\ Str.lower result_dispatcher = Str.lower config_dispatcher.
Proof.
  intros d Hd c Hc.
  destruct (process_excel_file_scopes P df dispatcher_percentages res Hrun d Hd)
    as [totals ->].
  now apply add_missing_dispatchers_covers.
Qed.

Lemma legacy_config_is_reported_up_to_case_witness :
  process_excel_file (plain_sums false) (Workbook scenario_table)
    [("Ali", Float.of_Z 10)]
  = Ok (scenario_results None)
  /\ exists result_dispatcher,
       In result_dispatcher (PyDict.keys (overall (scenario_results None)))
       /\ Str.lower result_dispatcher = Str.lower "Ali".
Proof.
  split; [exact (scenario_legacy_run (plain_sums false)) | ].
  apply (legacy_config_is_reported_up_to_case (plain_sums false) scenario_table
           [("Ali", Float.of_Z 10)] (scenario_results None)
           (scenario_legacy_run (plain_sums false))
           (overall (scenario_results None)) (or_introl eq_refl) "Ali").
  now left.
Defined.

Lemma find_config_percent_config (dispatcher : string) (ps : PyDict.t pyfloat) :
  find_config dispatcher (percent_config ps)
  = option_map (fun cp => (fst cp, mkEntityConfig (Some "percentage")
                                     (Some (snd cp))))
      (find_config dispatcher ps).
Proof.
  induction ps as [ | [k p] ps IH]; [reflexivity | ].
  cbn [percent_config map find_config fst snd].
  destruct (String.eqb (Str.lower dispatcher) (Str.lower k)); [reflexivity | ].
  exact IH.
Qed.

(** X26.  The two pipelines calculate alike.  For one dispatcher and one
    total, the entry that [process_excel_file] makes under a table of
    percentages and the entry that [_calculate_earnings] makes by the
    method PERCENTAGE under the same percentages written as settings are
    filed under the same name and hold the same total, percentage and
    earnings; only the universal entry also carries the name inside. *)
Theorem legacy_entry_agrees (dispatcher : string) (total : pyfloat)
    (dispatcher_percentages : PyDict.t pyfloat) (category : AnalysisCategory)
    (Hmethod : calculation_method category = PERCENTAGE) :
  let legacy := dispatcher_entry dispatcher total dispatcher_percentages in
  let universal :=
    _calculate_earnings dispatcher total category
      (Some (percent_config dispatcher_percentages)) in
  name_of universal = fst legacy
  /\ total_amount universal = total_amount (snd legacy)
  /\ percentage universal = percentage (snd legacy)
  /\ earnings universal = earnings (snd legacy)
  /\ flat_rate universal = flat_rate (snd legacy)
  /\ entity_name universal = Some (fst legacy)
  /\ entity_name (snd legacy) = None.
Proof.
  cbv zeta. unfold dispatcher_entry, _calculate_earnings, name_of.
  rewrite Hmethod. cbn [items_of]. rewrite find_config_percent_config.
  destruct (find_config dispatcher dispatcher_percentages) as [[k p] | ];
    cbn [option_map fst snd entity_name total_amount percentage earnings
         flat_rate value_or_0 cfg_value];
    now repeat split.
Qed.

Lemma legacy_entry_agrees_witness :
  calculation_method dispatcher_category = PERCENTAGE
  /\ name_of (_calculate_earnings "ali" (Float.of_Z 800) dispatcher_category
                (Some (percent_config [("Ali", Float.of_Z 10)])))
     = fst (dispatcher_entry "ali" (Float.of_Z 800) [("Ali", Float.of_Z 10)]).
Proof.
  split; [reflexivity | ].
  exact (proj1 (legacy_entry_agrees "ali" (Float.of_Z 800)
                  [("Ali", Float.of_Z 10)] dispatcher_category eq_refl)).
Defined.

Lemma parse_config_from_text_by_line (text : string)
    (category : AnalysisCategory) :
  parse_config_from_text text category
  = fold_left
      (fun config line =>
         match line_entry category line with
         | Some entry => PyDict.set config (fst entry) (snd entry)
         | None => config
         end)
      (config_lines text) [].
Proof.
  rewrite parse_config_from_text_lines. apply fold_left_ext.
  intros config line. unfold line_entry.
  destruct (Str.contains ":" line); cbn [negb]; [ | reflexivity].
  now destruct (Float.of_string (value_text line)).
Qed.

Lemma split_at_last {A : Type} (l1 l2 lines : list A) (line x : A) :
  (l1 ++ line :: l2 = lines ++ [x])%list ->
  (l2 = [] /\ l1 = lines /\ line = x)
  \/ exists l2', l2 = (l2' ++ [x])%list /\ lines = (l1 ++ line :: l2')%list.
Proof.
  destruct l2 as [ | y l2] using rev_ind.
  - intro H. apply (app_inj_tail l1 lines line x) in H. left. tauto.
  - clear IHl2. intro H.
    change (l1 ++ line :: l2 ++ [y])%list with (l1 ++ (line :: l2) ++ [y])%list in H.
    rewrite app_assoc in H. apply app_inj_tail in H. destruct H as [H ->].
    right. now exists l2.
Qed.

(** X27.  A configuration typed as text is read line by line and the last
    line decides: the parsed configuration maps an entity to a record
    exactly when some line contributes that record for the entity and no
    later line contributes anything for it.  Lines without a colon or
    without a readable value contribute nothing and are passed over. *)
Theorem parse_config_from_text_last_line_wins (text : string)
    (category : AnalysisCategory) (entity : string) (settings : pyval) :
  PyDict.get (parse_config_from_text text category) entity = Some settings
  <-> exists before line after,
        config_lines text = (before ++ line :: after)%list
        /\ line_entry category line = Some (entity, settings)
        /\ forall later, In later after ->
             forall settings', line_entry category later
                               <> Some (entity, settings').
Proof.
  rewrite parse_config_from_text_by_line.
  revert entity settings.
  induction (config_lines text) as [ | x lines IH] using rev_ind;
    intros entity settings.
  - cbn [fold_left PyDict.get]. split; [discriminate | ].
    intros (l1 & line & l2 & H & _). now destruct l1.
  - rewrite fold_left_app. cbn [fold_left].
    destruct (line_entry category x) as [[k s] | ] eqn:E; cbn [fst snd].
    + destruct (String.eqb k entity) eqn:K.
      * apply String.eqb_eq in K. subst k. rewrite get_set_eq. split.
        -- intro H. injection H as <-. exists lines, x, [].
           split; [reflexivity | ]. split; [exact E | ]. intros later [].
        -- intros (l1 & line & l2 & H & L & N).
           symmetry in H. apply split_at_last in H.
           destruct H as [(_ & _ & ->) | (l2' & -> & _)]; [congruence | ].
           exfalso. apply (N x) with (settings' := s); [ | exact E].
           apply in_or_app. right. now left.
      * apply String.eqb_neq in K. rewrite get_set_ne by exact K.
        rewrite IH. split.
        -- intros (l1 & line & l2 & -> & L & N).
           exists l1, line, (l2 ++ [x])%list. split; [ | split; [exact L | ]].
           ++ now rewrite <- app_assoc.
           ++ intros later i s'. apply in_app_or in i.
              destruct i as [i | [<- | []]]; [now apply N | ].
              rewrite E. intro H. injection H as H _. contradiction.
        -- intros (l1 & line & l2 & H & L & N).
           symmetry in H. apply split_at_last in H.
           destruct H as [(_ & _ & ->) | (l2' & -> & ->)].
           ++ rewrite E in L. injection L as L _. contradiction.
           ++ exists l1, line, l2'. repeat split; auto.
              intros later i. apply N. apply in_or_app. now left.
    + rewrite IH. split.
      * intros (l1 & line & l2 & -> & L & N).
        exists l1, line, (l2 ++ [x])%list. split; [ | split; [exact L | ]].
        -- now rewrite <- app_assoc.
        -- intros later i s'. apply in_app_or in i.
           destruct i as [i | [<- | []]]; [now apply N | ].
           rewrite E. discriminate.
      * intros (l1 & line & l2 & H & L & N).
        symmetry in H. apply split_at_last in H.
        destruct H as [(_ & _ & ->) | (l2' & -> & ->)]; [congruence | ].
        exists l1, line, l2'. repeat split; auto.
        intros later i. apply N. apply in_or_app. now left.
Qed.

(** ** Weekly earnings add up *)

(** ** What [process_category] does to the category *)

(** X29.  [process_category] changes the category object it is given, and
    only in one way: when the trimmed table has a broker column, the
    category has grouping columns without Week among them, and the loop
    over the marker column gets through, Week is appended to the grouping
    columns; in every other case, and in every other field, the category
    is left as it was.  The loop does not get through when the table has
    a row and the label of the broker column is there more than once:
    the call then raises the [ValueError] of pandas about the truth value
    of a Series, before anything is appended. *)
Theorem process_category_appends_week (P : Pandas) (h : heap) (df : ref)
    (category : AnalysisCategory) (config : option Config) :
  let table := trimmed (read h df) in
  let detects :=
    match find_broker_column (columns table) with
    | Some _ => nonempty (grouping_columns category)
    | None => false
    end in
  let raises :=
    match find_broker_column (columns table) with
    | Some broker_col =>
        nonempty (grouping_columns category) && marker_raises table broker_col
    | None => false
    end in
  let after := snd (fst (process_category P h df category config)) in
  grouping_columns after
  = (if detects && negb raises
        && negb (string_in "Week" (grouping_columns category))
     then (grouping_columns category ++ ["Week"])%list
     else grouping_columns category)
  /\ after = with_grouping category (grouping_columns after)
  /\ (raises = true ->
      snd (process_category P h df category config)
      = Raise (ValueError ambiguous_truth_value)).
Proof.
  cbv zeta. unfold process_category. cbn [fst snd].
  set (h1 := write h df _).
  assert (T : read h1 df = trimmed (read h df)) by apply read_write_same.
  pose proof (detect_weeks_cases h1 df category) as Cases. cbv zeta in Cases.
  rewrite T in Cases.
  destruct (find_broker_column (columns (trimmed (read h df))))
    as [broker_col | ].
  - destruct (nonempty (grouping_columns category)); cbn [andb].
    + destruct (marker_raises (trimmed (read h df)) broker_col); cbn [negb andb].
      * destruct Cases as [O C]. rewrite C, O, with_grouping_same.
        now repeat split.
      * destruct Cases as (wl & _ & _ & C & _). rewrite C.
        destruct (string_in "Week" (grouping_columns category)); cbn [negb].
        -- rewrite with_grouping_same. repeat split. discriminate.
        -- repeat split. discriminate.
    + rewrite Cases. cbn [d_category]. rewrite with_grouping_same.
      repeat split. discriminate.
  - rewrite Cases. cbn [d_category]. rewrite with_grouping_same.
    repeat split. discriminate.
Qed.

(** ** Cleaned rows keep their week *)

Lemma detect_week_markers_length (df : DataFrame) (broker_column : string)
    (week_list : list string) :
  detect_week_markers df broker_column = Ok week_list ->
  length week_list = length (rows df).
Proof.
  unfold detect_week_markers.
  destruct (locate broker_column (columns df)) as [ | i | ].
  - rewrite week_loop_absent. destruct (rows df); [ | discriminate].
    intro H. now injection H as <-.
  - destruct (week_loop_spec i broker_column (rows df) "Before Week 1")
      as (labels & E & Len & _).
    congruence.
  - rewrite week_loop_repeated. destruct (rows df); [ | discriminate].
    intro H. now injection H as <-.
Qed.

Lemma clean_dataframe_index_bound (P : Pandas) (df : DataFrame)
    (entity_column : string) (amount_columns : list string)
    (frame : CleanFrame) (r : CleanRow) :
  clean_dataframe P df entity_column amount_columns = Ok frame ->
  In r (cf_rows frame) -> (cr_index r < length (rows df))%nat.
Proof.
  intros C i.
  pose proof (clean_dataframe_outcome P df entity_column amount_columns) as O.
  rewrite C in O. destruct O as (_ & _ & _ & _ & _ & O).
  now apply O.
Qed.

Lemma cell_at_replace_nth (row : list cell) (i : nat) (x : cell) :
  (i < length row)%nat -> cell_at (replace_nth i x row) i = x.
Proof.
  unfold cell_at. revert i. induction row as [ | c row IH]; intros i L.
  - cbn in L. lia.
  - destruct i as [ | i]; [reflexivity | ]. cbn [replace_nth nth].
    apply IH. cbn in L. lia.
Qed.

Lemma cell_at_app_last (row : list cell) (x : cell) :
  cell_at (row ++ [x]) (length row) = x.
Proof.
  unfold cell_at. rewrite app_nth2 by lia. now rewrite Nat.sub_diag.
Qed.

Lemma position_app_new (label : string) (l : list string) :
  position label l = None ->
  position label (l ++ [label]) = Some (length l).
Proof.
  induction l as [ | x l IH]; cbn [position app length].
  - now rewrite String.eqb_refl.
  - destruct (String.eqb x label); [discriminate | ].
    destruct (position label l); [discriminate | ].
    intros _. now rewrite IH.
Qed.

Lemma nth_map_combine {A B C : Type} (f : A * B -> C) (l : list A) (m : list B)
    (i : nat) (da : A) (db : B) (dc : C) :
  (i < length l)%nat -> length m = length l ->
  nth i (map f (combine l m)) dc = f (nth i l da, nth i m db).
Proof.
  revert m i. induction l as [ | a l IH]; intros m i L E.
  - cbn in L. lia.
  - destruct m as [ | b m]; [discriminate | ].
    destruct i as [ | i]; [reflexivity | ]. cbn [combine map nth].
    apply IH; cbn in *; lia.
Qed.

(** The cell that [df[label] = values] leaves in row [i] under [label]. *)
Lemma set_column_cell (df : DataFrame) (label : string) (values : list cell)
    (i : nat) :
  (forall row, In row (rows df) -> length row = length (columns df)) ->
  length values = length (rows df) -> (i < length (rows df))%nat ->
  exists w,
    position label (columns (set_column df label values)) = Some w
    /\ cell_at (nth i (rows (set_column df label values)) []) w
       = nth i values CNaN.
Proof.
  intros Hrect Hlen Hi. unfold set_column.
  assert (Hrow : length (nth i (rows df) []) = length (columns df)).
  { apply Hrect. now apply nth_In. }
  destruct (position label (columns df)) as [p | ] eqn:P; cbn [columns rows].
  - exists p. split; [exact P | ].
    rewrite (nth_map_combine _ (rows df) values i [] CNaN []) by assumption.
    cbn [fst snd]. apply cell_at_replace_nth. rewrite Hrow.
    now apply position_bound in P.
  - exists (length (columns df)). split; [now apply position_app_new | ].
    rewrite (nth_map_combine _ (rows df) values i [] CNaN []) by assumption.
    cbn [fst snd]. rewrite <- Hrow. apply cell_at_app_last.
Qed.

(** X30.  Cleaned rows keep their own week.  When the labels that
    [detect_week_markers] returns are stored as the column Week of a
    rectangular table, the table is cleaned, and the column is put back on
    the cleaned frame by index, as [process_category] does, the frame keeps
    its rows in their order and every row carries the label that was
    detected for its own row of the table, however many rows the cleaning
    dropped before it. *)
Theorem cleaned_rows_keep_their_week (P : Pandas) (df : DataFrame)
    (broker_column entity_column : string) (amount_columns : list string)
    (week_list : list string) (frame : CleanFrame)
    (Hrect : forall row, In row (rows df) -> length row = length (columns df))
    (Hweeks : detect_week_markers df broker_column = Ok week_list)
    (Hclean : clean_dataframe P (set_column df "Week" (map CText week_list))
                entity_column amount_columns = Ok frame) :
  let attached :=
    attach_week (set_column df "Week" (map CText week_list)) frame in
  cf_has_week attached = true
  /\ map cr_index (cf_rows attached) = map cr_index (cf_rows frame)
  /\ map cr_entity (cf_rows attached) = map cr_entity (cf_rows frame)
  /\ map cr_amounts (cf_rows attached) = map cr_amounts (cf_rows frame)
  /\ forall r, In r (cf_rows attached) ->
       exists label,
         nth_error week_list (cr_index r) = Some label
         /\ cr_week r = CText label.
Proof.
  cbv zeta.
  pose proof (detect_week_markers_length df broker_column week_list Hweeks) as L.
  set (labelled := set_column df "Week" (map CText week_list)) in *.
  assert (Lr : length (rows labelled) = length (rows df)).
  { unfold labelled, set_column.
    destruct (position "Week" (columns df)); cbn [rows];
      rewrite length_map, length_combine, length_map; lia. }
  assert (Hw : exists w, position "Week" (columns labelled) = Some w
                         /\ forall i, (i < length (rows df))%nat ->
                              cell_at (nth i (rows labelled) []) w
                              = nth i (map CText week_list) CNaN).
  { assert (Hl : length (map CText week_list) = length (rows df))
      by now rewrite length_map.
    unfold labelled, set_column.
    destruct (position "Week" (columns df)) as [p | ] eqn:Pk; cbn [columns rows].
    - exists p. split; [exact Pk | ]. intros i Hi.
      destruct (set_column_cell df "Week" (map CText week_list) i Hrect Hl Hi)
        as (w & Pw & C).
      unfold set_column in Pw, C. rewrite Pk in Pw, C. cbn [columns rows] in Pw, C.
      congruence.
    - exists (length (columns df)). split; [now apply position_app_new | ].
      intros i Hi.
      destruct (set_column_cell df "Week" (map CText week_list) i Hrect Hl Hi)
        as (w & Pw & C).
      unfold set_column in Pw, C. rewrite Pk in Pw, C. cbn [columns rows] in Pw, C.
      rewrite (position_app_new "Week" (columns df) Pk) in Pw. congruence. }
  destruct Hw as (w & Pw & Hcell).
  unfold attach_week. rewrite Pw. cbn [cf_has_week cf_rows].
  rewrite !map_map. cbn [cr_index cr_entity cr_amounts].
  split; [reflexivity | ]. split; [reflexivity | ].
  split; [reflexivity | ]. split; [reflexivity | ].
  intros r i. apply in_map_iff in i. destruct i as (r0 & <- & i).
  cbn [cr_index cr_week].
  pose proof (clean_dataframe_index_bound _ _ _ _ _ r0 Hclean i) as B.
  rewrite Lr in B. rewrite (Hcell _ B).
  exists (nth (cr_index r0) week_list "").
  split.
  - apply nth_error_nth'. lia.
  - rewrite (nth_indep _ CNaN (CText "")) by (rewrite length_map; lia).
    apply (map_nth CText).
Qed.

Lemma cleaned_rows_keep_their_week_witness :
  let labelled :=
    set_column scenario_table "Week"
      (map CText ["Before Week 1"; "Week 2"; "Week 2"; "Week 2"]) in
  ((forall row, In row (rows scenario_table) ->
      length row = length (columns scenario_table))
   /\ detect_week_markers scenario_table "Broker"
      = Ok ["Before Week 1"; "Week 2"; "Week 2"; "Week 2"])
  /\ exists frame,
       clean_dataframe (plain_sums false) labelled "Dispatch" ["Amount"]
       = Ok frame
       /\ map cr_index (cf_rows (attach_week labelled frame))
          = map cr_index (cf_rows frame).
Proof.
  cbv zeta.
  assert (R : forall row, In row (rows scenario_table) ->
                length row = length (columns scenario_table)).
  { intros row [<- | [<- | [<- | [<- | []]]]]; reflexivity. }
  assert (W : detect_week_markers scenario_table "Broker"
              = Ok ["Before Week 1"; "Week 2"; "Week 2"; "Week 2"])
    by reflexivity.
  split; [now split | ].
  destruct (clean_dataframe (plain_sums false)
              (set_column scenario_table "Week"
                 (map CText ["Before Week 1"; "Week 2"; "Week 2"; "Week 2"]))
              "Dispatch" ["Amount"]) as [frame | e | ] eqn:C;
    [ | exfalso; vm_compute in C; discriminate
      | exfalso; vm_compute in C; discriminate].
  exists frame. split; [reflexivity | ].
  exact (proj1 (proj2 (cleaned_rows_keep_their_week (plain_sums false)
                         scenario_table "Broker"
                         "Dispatch" ["Amount"] _ frame R W C))).
Defined.
